(** * KazSmartChain: the in-memory chain, mining and bridge core of app.py

    A shallow embedding of the domain methods of class [KazSmartChain]
    (src/app.py): genesis blocks, the proof-of-work loop of [mine_block],
    contract deployment, file anchoring and bridge transfers, over an
    explicit copy of Streamlit's [st.session_state].

    Conventions.
    - A Python [str] is a Rocq [string] holding its UTF-8 bytes, so
      [s.encode()] is the identity on the carried bytes.  Slices such as
      [s[:10]] and [repr] are modelled for ASCII text, which is what the
      program builds (hex digests, fixed labels, network keys).
    - [datetime.now()], [uuid.uuid4()] and [random.randint] are inputs of
      the embedded functions, in the order the source draws them.
    - [hashlib.sha256] is FIPS 180-4 SHA-256, written out so that digests
      can be evaluated; the digests of the examples below are those
      Python prints. *)

From Stdlib Require Import ZArith List String Ascii Lia Bool.
From Stdlib.Strings Require Import Byte.
From Stdlib Require Import DecimalString.
From stdpp Require Import gmap strings list fin_maps.

Local Open Scope Z_scope.

(** ** hashlib.sha256 *)

Module Sha256.

(** Reduction modulo 2^32 of a non-negative integer. *)
Definition wrap32 (x : Z) : Z := Z.land x 4294967295.

Definition rotr (n x : Z) : Z :=
  Z.lor (Z.shiftr x n) (wrap32 (Z.shiftl x (32 - n))).

Definition ch (x y z : Z) : Z :=
  Z.lxor (Z.land x y) (Z.land (Z.lxor x 4294967295) z).

Definition maj (x y z : Z) : Z :=
  Z.lxor (Z.lxor (Z.land x y) (Z.land x z)) (Z.land y z).

Definition bsig0 (x : Z) : Z := Z.lxor (Z.lxor (rotr 2 x) (rotr 13 x)) (rotr 22 x).
Definition bsig1 (x : Z) : Z := Z.lxor (Z.lxor (rotr 6 x) (rotr 11 x)) (rotr 25 x).
Definition ssig0 (x : Z) : Z := Z.lxor (Z.lxor (rotr 7 x) (rotr 18 x)) (Z.shiftr x 3).
Definition ssig1 (x : Z) : Z := Z.lxor (Z.lxor (rotr 17 x) (rotr 19 x)) (Z.shiftr x 10).

(** FIPS 180-4 gives its constants by a rule: the round constants are the
    first 32 bits of the fractional parts of the cube roots of the first
    64 primes (4.2.2), the initial hash value those of the square roots
    of the first 8 primes (5.3.3). *)
Definition is_prime (n : Z) : bool :=
  forallb (fun d => negb (Z.eqb (n mod d) 0)) (map Z.of_nat (seq 2 (Z.to_nat n - 2))).

(** The 64 primes up to 311. *)
Definition first_primes : list Z :=
  Eval vm_compute in filter is_prime (map Z.of_nat (seq 2 310)).

(** The largest [r] below [2^bits] that fits, found bit by bit. *)
Fixpoint largest (bits : nat) (fits : Z -> bool) (r : Z) : Z :=
  match bits with
  | O => r
  | S b =>
      let r' := Z.lor r (Z.shiftl 1 (Z.of_nat b)) in
      largest b fits (if fits r' then r' else r)
  end.

Definition fraction_of_cube_root (p : Z) : Z :=
  wrap32 (largest 40 (fun r => Z.leb (r * r * r) (Z.shiftl p 96)) 0).

Definition fraction_of_square_root (p : Z) : Z :=
  wrap32 (Z.sqrt (Z.shiftl p 64)).

Definition round_constants : list Z :=
  Eval vm_compute in map fraction_of_cube_root first_primes.

(** The eight working variables a..h, also the chaining value. *)
Record regs := Regs {
  ra : Z; rb : Z; rc : Z; rd : Z; re : Z; rf : Z; rg : Z; rh : Z }.

Definition regs_of (l : list Z) : regs :=
  Regs (nth 0 l 0) (nth 1 l 0) (nth 2 l 0) (nth 3 l 0)
       (nth 4 l 0) (nth 5 l 0) (nth 6 l 0) (nth 7 l 0).

Definition initial_regs : regs :=
  Eval vm_compute in regs_of (map fraction_of_square_root (firstn 8 first_primes)).

(** Padding: a 1 bit, zeros up to 56 mod 64, the bit length on 8 bytes. *)
Fixpoint be_bytes (count : nat) (x : Z) : list Z :=
  match count with
  | O => []
  | S c => be_bytes c (Z.shiftr x 8) ++ [Z.land x 255]
  end.

Definition pad (msg : list Z) : list Z :=
  let len := Z.of_nat (length msg) in
  let zeros := Z.to_nat ((55 - len) mod 64) in
  msg ++ [128] ++ repeat 0 zeros ++ be_bytes 8 (8 * len).

(** Big-endian 32-bit words of a padded message. *)
Fixpoint words_of (fuel : nat) (bs : list Z) : list Z :=
  match fuel, bs with
  | S f, b0 :: b1 :: b2 :: b3 :: rest =>
      (Z.shiftl b0 24 + Z.shiftl b1 16 + Z.shiftl b2 8 + b3) :: words_of f rest
  | _, _ => []
  end.

(** The message schedule is kept newest first: [w16] holds
    W[t-1], W[t-2], ..., W[t-16]. *)
Definition next_w (w16 : list Z) : Z :=
  wrap32 (ssig1 (nth 1 w16 0) + nth 6 w16 0 + ssig0 (nth 14 w16 0) + nth 15 w16 0).

Definition round (r : regs) (k w : Z) : regs :=
  let t1 := wrap32 (rh r + bsig1 (re r) + ch (re r) (rf r) (rg r) + k + w) in
  let t2 := wrap32 (bsig0 (ra r) + maj (ra r) (rb r) (rc r)) in
  Regs (wrap32 (t1 + t2)) (ra r) (rb r) (rc r) (wrap32 (rd r + t1)) (re r) (rf r) (rg r).

(** Rounds 0..15 consume the block's own words. *)
Fixpoint rounds_first (r : regs) (ks ws past : list Z) : regs * list Z * list Z :=
  match ws, ks with
  | w :: ws', k :: ks' => rounds_first (round r k w) ks' ws' (w :: past)
  | _, _ => (r, ks, past)
  end.

(** Rounds 16..63 extend the schedule as they go. *)
Fixpoint rounds_rest (r : regs) (ks w16 : list Z) : regs :=
  match ks with
  | [] => r
  | k :: ks' =>
      let w := next_w w16 in
      rounds_rest (round r k w) ks' (w :: firstn 15 w16)
  end.

Definition compress (h : regs) (block : list Z) : regs :=
  let '(r, ks, past) := rounds_first h round_constants block [] in
  let r' := rounds_rest r ks past in
  Regs (wrap32 (ra h + ra r')) (wrap32 (rb h + rb r')) (wrap32 (rc h + rc r'))
       (wrap32 (rd h + rd r')) (wrap32 (re h + re r')) (wrap32 (rf h + rf r'))
       (wrap32 (rg h + rg r')) (wrap32 (rh h + rh r')).

Fixpoint absorb (fuel : nat) (h : regs) (ws : list Z) : regs :=
  match fuel, ws with
  | S f, _ :: _ => absorb f (compress h (firstn 16 ws)) (skipn 16 ws)
  | _, _ => h
  end.

Definition digest_regs (msg : list Z) : regs :=
  let padded := pad msg in
  let ws := words_of (length padded) padded in
  absorb (length ws) initial_regs ws.

(** [hexdigest]: eight lower-case hex digits per word. *)
Definition hex_digit (x : Z) : ascii :=
  match Z.land x 15 with
  | 0 => "0" | 1 => "1" | 2 => "2" | 3 => "3" | 4 => "4" | 5 => "5"
  | 6 => "6" | 7 => "7" | 8 => "8" | 9 => "9" | 10 => "a" | 11 => "b"
  | 12 => "c" | 13 => "d" | 14 => "e" | _ => "f"
  end%char.

Definition hex_word (x : Z) (tail : string) : string :=
  String (hex_digit (Z.shiftr x 28)) (String (hex_digit (Z.shiftr x 24))
  (String (hex_digit (Z.shiftr x 20)) (String (hex_digit (Z.shiftr x 16))
  (String (hex_digit (Z.shiftr x 12)) (String (hex_digit (Z.shiftr x 8))
  (String (hex_digit (Z.shiftr x 4)) (String (hex_digit x) tail))))))).

Definition hex_regs (r : regs) : string :=
  hex_word (ra r) (hex_word (rb r) (hex_word (rc r) (hex_word (rd r)
  (hex_word (re r) (hex_word (rf r) (hex_word (rg r) (hex_word (rh r) ""))))))).

(** [hashlib.sha256(data).hexdigest()] on a byte string. *)
Definition hexdigest (data : list byte) : string :=
  hex_regs (digest_regs (map (fun b => Z.of_N (Byte.to_N b)) data)).

End Sha256.

Local Open Scope string_scope.

(** ** Python values that end up inside a block's text *)

#[local] Set Warnings "-register-all".

(** [PyFloat] carries the float's [repr]: only its printing is used. *)
Inductive pyval :=
| PyStr (s : string)
| PyInt (z : Z)
| PyFloat (shown : string)
| PyList (items : list pyval)
| PyDict (items : list (string * pyval)).

(** [str(n)] for an int. *)
Definition str_int (z : Z) : string := NilZero.string_of_int (Z.to_int z).

Fixpoint contains_char (c : ascii) (s : string) : bool :=
  match s with
  | EmptyString => false
  | String d rest => if Ascii.eqb c d then true else contains_char c rest
  end.

Definition hex2 (n : N) : string :=
  String (Sha256.hex_digit (Z.shiftr (Z.of_N n) 4))
         (String (Sha256.hex_digit (Z.of_N n)) "").

(** One character of [repr(s)], given the quote in use, for ASCII text.
    For a character outside ASCII Python consults its Unicode database and
    escapes what is not printable there (U+00A0 as [\xa0], U+200B as
    [\u200b]); that table is not part of the program and is not modelled:
    the bytes of such a character pass through.  [ascii_value] below marks
    the values that are printed here as Python prints them. *)
Definition repr_char (quote c : ascii) : string :=
  if Ascii.eqb c "\" then "\\"
  else if Ascii.eqb c quote then String "\" (String quote "")
  else if Ascii.eqb c "010" then "\n"
  else if Ascii.eqb c "013" then "\r"
  else if Ascii.eqb c "009" then "\t"
  else if ((N_of_ascii c <? 32) || (N_of_ascii c =? 127))%N
       then "\x" ++ hex2 (N_of_ascii c)
  else String c "".

Fixpoint repr_chars (quote : ascii) (s : string) : string :=
  match s with
  | EmptyString => ""
  | String c rest => repr_char quote c ++ repr_chars quote rest
  end.

(** [repr(s)] for a str: single quotes, unless the text has a single
    quote and no double quote. *)
Definition repr_str (s : string) : string :=
  let quote : ascii :=
    if contains_char "'" s && negb (contains_char "034" s) then "034"%char else "'"%char in
  String quote (repr_chars quote s ++ String quote "").

Fixpoint join (sep : string) (parts : list string) : string :=
  match parts with
  | [] => ""
  | [p] => p
  | p :: rest => p ++ sep ++ join sep rest
  end.

Fixpoint repr (v : pyval) : string :=
  match v with
  | PyStr s => repr_str s
  | PyInt z => str_int z
  | PyFloat shown => shown
  | PyList items => "[" ++ join ", " (map repr items) ++ "]"
  | PyDict items =>
      "{" ++ join ", " (map (fun kv => repr_str (fst kv) ++ ": " ++ repr (snd kv)) items) ++ "}"
  end.

(** [str(xs)] / [f"{xs}"] for a list. *)
Definition str_list (xs : list pyval) : string := repr (PyList xs).



(** ** datetime *)

Record datetime := {
  year : Z; month : Z; day : Z;
  hour : Z; minute : Z; second : Z; microsecond : Z }.

Definition zfill (width : nat) (s : string) : string :=
  string_of_list_ascii (repeat "0"%char (width - String.length s)) ++ s.

(** [d.isoformat(sep)]: the fraction is printed only when it is not 0. *)
Definition isoformat_sep (sep : string) (d : datetime) : string :=
  zfill 4 (str_int (year d)) ++ "-" ++ zfill 2 (str_int (month d)) ++ "-"
  ++ zfill 2 (str_int (day d)) ++ sep
  ++ zfill 2 (str_int (hour d)) ++ ":" ++ zfill 2 (str_int (minute d)) ++ ":"
  ++ zfill 2 (str_int (second d))
  ++ (if Z.eqb (microsecond d) 0 then "" else "." ++ zfill 6 (str_int (microsecond d))).

Definition isoformat : datetime -> string := isoformat_sep "T".
(** [str(d)], as in [f"{datetime.now()}"]. *)
Definition str_datetime : datetime -> string := isoformat_sep " ".

(** ** Data classes *)

Record Block := {
  blk_index : Z;
  blk_timestamp : string;
  blk_transactions : list pyval;
  blk_previous_hash : string;
  blk_hash : string;
  blk_nonce : Z;
  blk_miner : string }.

Record Transaction := {
  tx_id : string;
  tx_type : string;
  tx_from_address : string;
  tx_to_address : string;
  tx_data : list (string * pyval);
  tx_timestamp : string;
  tx_blockchain : string;
  tx_status : string;
  tx_gas_used : Z;
  tx_block_number : Z }.

Record SmartContract := {
  sc_address : string;
  sc_name : string;
  sc_blockchain : string;
  sc_abi : list pyval;
  sc_bytecode : string;
  sc_deployed_at : string;
  sc_transactions : Z }.

Record FileRecord := {
  fr_file_id : string;
  fr_name : string;
  fr_size : Z;
  fr_hash : string;
  fr_ipfs_hash : string;
  fr_blockchain : string;
  fr_tx_hash : string;
  fr_timestamp : string;
  fr_owner : string }.

(** The dict built by [bridge_asset].  The same dict is appended to
    [bridge_transfers] and returned; nothing in the program writes to it
    afterwards, so a value stands for it. *)
Record BridgeTransfer := {
  bt_id : string;
  bt_asset : string;
  bt_from_chain : string;
  bt_to_chain : string;
  bt_amount : pyval;
  bt_status : string;
  bt_timestamp : string;
  bt_confirmations : Z;
  bt_required_confirmations : Z }.

Record Wallet := {
  w_address : string;
  w_balance : Z;
  w_transactions : Z }.

(** [dataclasses.asdict(tx)]. *)
Definition asdict (tx : Transaction) : pyval :=
  PyDict [ ("id", PyStr (tx_id tx));
           ("type", PyStr (tx_type tx));
           ("from_address", PyStr (tx_from_address tx));
           ("to_address", PyStr (tx_to_address tx));
           ("data", PyDict (tx_data tx));
           ("timestamp", PyStr (tx_timestamp tx));
           ("blockchain", PyStr (tx_blockchain tx));
           ("status", PyStr (tx_status tx));
           ("gas_used", PyInt (tx_gas_used tx));
           ("block_number", PyInt (tx_block_number tx)) ].

(** ** st.session_state *)

Record SessionState := {
  ss_blocks : gmap string (list Block);
  ss_transactions : list Transaction;
  ss_smart_contracts : list SmartContract;
  ss_files : list FileRecord;
  ss_current_chain : string;
  ss_wallet : Wallet;
  ss_mining : bool;
  ss_bridge_transfers : list BridgeTransfer }.

Definition with_blocks (m : gmap string (list Block)) (st : SessionState) : SessionState :=
  {| ss_blocks := m; ss_transactions := ss_transactions st;
     ss_smart_contracts := ss_smart_contracts st; ss_files := ss_files st;
     ss_current_chain := ss_current_chain st; ss_wallet := ss_wallet st;
     ss_mining := ss_mining st; ss_bridge_transfers := ss_bridge_transfers st |}.

Definition with_transactions (l : list Transaction) (st : SessionState) : SessionState :=
  {| ss_blocks := ss_blocks st; ss_transactions := l;
     ss_smart_contracts := ss_smart_contracts st; ss_files := ss_files st;
     ss_current_chain := ss_current_chain st; ss_wallet := ss_wallet st;
     ss_mining := ss_mining st; ss_bridge_transfers := ss_bridge_transfers st |}.

Definition with_smart_contracts (l : list SmartContract) (st : SessionState) : SessionState :=
  {| ss_blocks := ss_blocks st; ss_transactions := ss_transactions st;
     ss_smart_contracts := l; ss_files := ss_files st;
     ss_current_chain := ss_current_chain st; ss_wallet := ss_wallet st;
     ss_mining := ss_mining st; ss_bridge_transfers := ss_bridge_transfers st |}.

Definition with_files (l : list FileRecord) (st : SessionState) : SessionState :=
  {| ss_blocks := ss_blocks st; ss_transactions := ss_transactions st;
     ss_smart_contracts := ss_smart_contracts st; ss_files := l;
     ss_current_chain := ss_current_chain st; ss_wallet := ss_wallet st;
     ss_mining := ss_mining st; ss_bridge_transfers := ss_bridge_transfers st |}.

Definition with_current_chain (c : string) (st : SessionState) : SessionState :=
  {| ss_blocks := ss_blocks st; ss_transactions := ss_transactions st;
     ss_smart_contracts := ss_smart_contracts st; ss_files := ss_files st;
     ss_current_chain := c; ss_wallet := ss_wallet st;
     ss_mining := ss_mining st; ss_bridge_transfers := ss_bridge_transfers st |}.

Definition with_bridge_transfers (l : list BridgeTransfer) (st : SessionState) : SessionState :=
  {| ss_blocks := ss_blocks st; ss_transactions := ss_transactions st;
     ss_smart_contracts := ss_smart_contracts st; ss_files := ss_files st;
     ss_current_chain := ss_current_chain st; ss_wallet := ss_wallet st;
     ss_mining := ss_mining st; ss_bridge_transfers := l |}.

(** ** Calls that read and write the session state

    A call ends by returning, by raising (the writes made before the
    exception stay), or not at all: [Spins] is the nonce search of
    [mine_block] still running when the fuel is used up. *)

Inductive exn :=
| KeyError (key : string)
| IndexError
| TypeError
| AttributeError.

Inductive outcome (A : Type) :=
| Returns (a : A)
| Raises (e : exn)
| Spins.
Arguments Returns {A} a.
Arguments Raises {A} e.
Arguments Spins {A}.

Definition M (A : Type) : Type := SessionState -> outcome A * SessionState.

Definition ret {A} (a : A) : M A := fun st => (Returns a, st).
Definition raise {A} (e : exn) : M A := fun st => (Raises e, st).
Definition spin {A} : M A := fun st => (Spins, st).
Definition bind {A B} (c : M A) (k : A -> M B) : M B :=
  fun st =>
    match c st with
    | (Returns a, st') => k a st'
    | (Raises e, st') => (Raises e, st')
    | (Spins, st') => (Spins, st')
    end.
Definition reads {A} (f : SessionState -> A) : M A := fun st => (Returns (f st), st).
Definition writes (f : SessionState -> SessionState) : M unit := fun st => (Returns tt, f st).

Notation "'let*' x ':=' c 'in' k" := (bind c (fun x => k))
  (at level 10, x name, c at level 100, k at level 200).
Notation "c ';;' k" := (bind c (fun _ => k))
  (at level 100, k at level 200, right associativity).

(** [st.session_state.blocks[chain]] *)
Definition chain_blocks (chain : string) : M (list Block) :=
  fun st =>
    match ss_blocks st !! chain with
    | Some blocks => (Returns blocks, st)
    | None => (Raises (KeyError chain), st)
    end.

(** [blocks[-1]] *)
Definition last_block (blocks : list Block) : M Block :=
  match last blocks with
  | Some b => ret b
  | None => raise IndexError
  end.

(** [blocks.append(new_block)], [blocks] being the list stored under [chain]. *)
Definition append_block (chain : string) (blocks : list Block) (b : Block) : M unit :=
  writes (fun st => with_blocks (<[chain := (blocks ++ [b])%list]> (ss_blocks st)) st).

(** ** Domain methods of KazSmartChain *)

Definition calculate_hash (data : string) : string :=
  Sha256.hexdigest (list_byte_of_string data).

(** [u] is [str(uuid.uuid4())]. *)
Definition generate_wallet (u : string) : Wallet :=
  {| w_address := "0x" ++ substring 0 40 (calculate_hash u);
     w_balance := 1000000;
     w_transactions := 0 |}.

Definition generate_genesis_block (chain : string) (now : datetime) : list Block :=
  [ {| blk_index := 0;
       blk_timestamp := isoformat now;
       blk_transactions := [];
       blk_previous_hash := "0";
       blk_hash := calculate_hash ("Genesis Block " ++ chain);
       blk_nonce := 0;
       blk_miner := "System" |} ].

Definition generate_ipfs_hash (u : string) : string :=
  "Qm" ++ substring 0 44 (calculate_hash u).

(** The keys of [self.networks], in insertion order. *)
Definition networks : list string := ["besu"; "fabric"; "corda"].

(** The ['type'] entry of each network of [self.networks]. *)
Definition network_type (chain : string) : option string :=
  if String.eqb chain "besu" then Some "EVM-Compatible"
  else if String.eqb chain "fabric" then Some "Permissioned"
  else if String.eqb chain "corda" then Some "Permissioned"
  else None.

(** [init_session_state] on a fresh session. *)
Definition init_session_state (now_besu now_fabric now_corda : datetime)
    (wallet_uuid : string) : SessionState :=
  {| ss_blocks :=
       <["besu" := generate_genesis_block "besu" now_besu]>
       (<["fabric" := generate_genesis_block "fabric" now_fabric]>
       (<["corda" := generate_genesis_block "corda" now_corda]> ∅));
     ss_transactions := [];
     ss_smart_contracts := [];
     ss_files := [];
     ss_current_chain := "besu";
     ss_wallet := generate_wallet wallet_uuid;
     ss_mining := false;
     ss_bridge_transfers := [] |}.

(** [f"{index}{timestamp}{transactions}{previous_block.hash}{nonce}"] *)
Definition block_data (index : Z) (timestamp : string) (transactions : list pyval)
    (previous_hash : string) (nonce : Z) : string :=
  str_int index ++ timestamp ++ str_list transactions ++ previous_hash ++ str_int nonce.

(** [hash_value[:4] == "0000"] *)
Definition meets_difficulty (hash_value : string) : bool :=
  String.eqb (substring 0 4 hash_value) "0000".

(** The [while True] loop of [mine_block], entered with [nonce]; [fuel]
    bounds the number of digests tried. *)
Fixpoint mine_loop (fuel : nat) (index : Z) (timestamp : string)
    (transactions : list pyval) (previous_hash : string) (nonce : Z)
    : option (Z * string) :=
  match fuel with
  | O => None
  | S fuel' =>
      let hash_value :=
        calculate_hash (block_data index timestamp transactions previous_hash nonce) in
      if meets_difficulty hash_value then Some (nonce, hash_value)
      else mine_loop fuel' index timestamp transactions previous_hash (nonce + 1)
  end.

Definition mine_block (chain : string) (transactions : list pyval)
    (now : datetime) (fuel : nat) : M Block :=
  let* blocks := chain_blocks chain in
  let* previous_block := last_block blocks in
  let index := Z.of_nat (length blocks) in
  let timestamp := isoformat now in
  match mine_loop fuel index timestamp transactions (blk_hash previous_block) 0 with
  | None => spin
  | Some (nonce, hash_value) =>
      let* address := reads (fun st => w_address (ss_wallet st)) in
      let new_block :=
        {| blk_index := index;
           blk_timestamp := timestamp;
           blk_transactions := transactions;
           blk_previous_hash := blk_hash previous_block;
           blk_hash := hash_value;
           blk_nonce := nonce;
           blk_miner := substring 0 10 address ++ "..." |} in
      append_block chain blocks new_block ;;
      ret new_block
  end.

Fixpoint str_repeat (n : nat) (s : string) : string :=
  match n with
  | O => ""
  | S k => s ++ str_repeat k s
  end.

(** The mock ABI literal of [deploy_smart_contract]. *)
Definition mock_abi : list pyval :=
  [ PyDict [ ("name", PyStr "constructor"); ("type", PyStr "function");
             ("inputs", PyList []); ("outputs", PyList []) ];
    PyDict [ ("name", PyStr "transfer"); ("type", PyStr "function");
             ("inputs", PyList [ PyDict [("name", PyStr "to"); ("type", PyStr "address")];
                                 PyDict [("name", PyStr "amount"); ("type", PyStr "uint256")] ]);
             ("outputs", PyList [ PyDict [("name", PyStr ""); ("type", PyStr "bool")] ]) ] ].

(** [len(st.session_state.blocks[chain])] *)
Definition chain_length (chain : string) : M Z :=
  let* blocks := chain_blocks chain in
  ret (Z.of_nat (length blocks)).

Definition record_transaction (tx : Transaction) : M unit :=
  writes (fun st => with_transactions (ss_transactions st ++ [tx])%list st).

(** Draws, in source order: [now_address] for the address, [now_deployed]
    for [deployed_at], [uuid_tx] and [now_tx] for the transaction,
    [now_mine] inside [mine_block]. *)
Definition deploy_smart_contract (name code chain : string)
    (now_address now_deployed : datetime) (uuid_tx : string)
    (now_tx now_mine : datetime) (fuel : nat) : M SmartContract :=
  let contract_address :=
    "0x" ++ substring 0 40 (calculate_hash (name ++ str_datetime now_address)) in
  let bytecode := "0x" ++ str_repeat 10 (calculate_hash code) in
  let contract :=
    {| sc_address := contract_address;
       sc_name := name;
       sc_blockchain := chain;
       sc_abi := mock_abi;
       sc_bytecode := substring 0 100 bytecode ++ "...";
       sc_deployed_at := isoformat now_deployed;
       sc_transactions := 0 |} in
  writes (fun st => with_smart_contracts (ss_smart_contracts st ++ [contract])%list st) ;;
  let* from_address := reads (fun st => w_address (ss_wallet st)) in
  let* block_number := chain_length chain in
  let tx :=
    {| tx_id := "0x" ++ substring 0 64 (calculate_hash uuid_tx);
       tx_type := "Contract Deployment";
       tx_from_address := from_address;
       tx_to_address := contract_address;
       tx_data := [("contract", PyStr name); ("gas_limit", PyInt 3000000)];
       tx_timestamp := isoformat now_tx;
       tx_blockchain := chain;
       tx_status := "Success";
       tx_gas_used := 2100000;
       tx_block_number := block_number |} in
  record_transaction tx ;;
  mine_block chain [asdict tx] now_mine fuel ;;
  ret contract.

(** An uploaded file as [upload_file_to_blockchain] sees it: [uf_bytes]
    is what [file.read()] returns, the whole content, the caller having
    rewound the file ([render_file_upload] calls [seek(0)] after its
    1 KB preview). *)
Record UploadedFile := {
  uf_name : string;
  uf_bytes : list byte }.

(** Draws, in source order: [uuid_ipfs], [uuid_file], [uuid_tx],
    [now_record], [now_tx], [now_mine]. *)
Definition upload_file_to_blockchain (file : UploadedFile) (chain : string)
    (uuid_ipfs uuid_file uuid_tx : string)
    (now_record now_tx now_mine : datetime) (fuel : nat) : M FileRecord :=
  let file_bytes := uf_bytes file in
  let file_hash := Sha256.hexdigest file_bytes in
  let ipfs_hash := generate_ipfs_hash uuid_ipfs in
  let* owner := reads (fun st => w_address (ss_wallet st)) in
  let file_record :=
    {| fr_file_id := uuid_file;
       fr_name := uf_name file;
       fr_size := Z.of_nat (length file_bytes);
       fr_hash := file_hash;
       fr_ipfs_hash := ipfs_hash;
       fr_blockchain := chain;
       fr_tx_hash := "0x" ++ substring 0 64 (calculate_hash uuid_tx);
       fr_timestamp := isoformat now_record;
       fr_owner := owner |} in
  writes (fun st => with_files (ss_files st ++ [file_record])%list st) ;;
  let* block_number := chain_length chain in
  let tx :=
    {| tx_id := fr_tx_hash file_record;
       tx_type := "File Upload";
       tx_from_address := owner;
       tx_to_address := "0x0000000000000000000000000000000000000000";
       tx_data := [ ("file_name", PyStr (uf_name file));
                    ("file_hash", PyStr file_hash);
                    ("ipfs_hash", PyStr ipfs_hash);
                    ("size", PyInt (Z.of_nat (length file_bytes))) ];
       tx_timestamp := isoformat now_tx;
       tx_blockchain := chain;
       tx_status := "Success";
       tx_gas_used := 50000;
       tx_block_number := block_number |} in
  record_transaction tx ;;
  mine_block chain [asdict tx] now_mine fuel ;;
  ret file_record.

(** Draws, in source order: [uuid_id] and [now_transfer] for the
    transfer, [uuid_lock] and [now_lock] for the lock transaction,
    [now_mine] inside [mine_block].  [amount] is the float of the
    amount widget, or the int 1 for a non-token asset. *)
Definition bridge_asset (asset_id from_chain to_chain : string) (amount : pyval)
    (uuid_id : string) (now_transfer : datetime) (uuid_lock : string)
    (now_lock now_mine : datetime) (fuel : nat) : M BridgeTransfer :=
  let bridge_tx :=
    {| bt_id := uuid_id;
       bt_asset := asset_id;
       bt_from_chain := from_chain;
       bt_to_chain := to_chain;
       bt_amount := amount;
       bt_status := "Processing";
       bt_timestamp := isoformat now_transfer;
       bt_confirmations := 0;
       bt_required_confirmations := 10 |} in
  writes (fun st => with_bridge_transfers (ss_bridge_transfers st ++ [bridge_tx])%list st) ;;
  let* from_address := reads (fun st => w_address (ss_wallet st)) in
  let* block_number := chain_length from_chain in
  let lock_tx :=
    {| tx_id := "0x" ++ substring 0 64 (calculate_hash uuid_lock);
       tx_type := "Bridge Lock";
       tx_from_address := from_address;
       tx_to_address := "0xBridge" ++ substring 0 20 from_chain;
       tx_data := [ ("asset", PyStr asset_id); ("amount", amount);
                    ("destination", PyStr to_chain) ];
       tx_timestamp := isoformat now_lock;
       tx_blockchain := from_chain;
       tx_status := "Success";
       tx_gas_used := 75000;
       tx_block_number := block_number |} in
  record_transaction lock_tx ;;
  mine_block from_chain [asdict lock_tx] now_mine fuel ;;
  ret bridge_tx.

(** ** What the pages do with the session state *)

(** The "Mine New Block" button of [render_blockchain_explorer]: a sample
    Transfer on the current chain, then [mine_block].  [amount] is
    [random.randint(100, 10000)]. *)
Definition explorer_mine_click (uuid_id uuid_to : string) (amount : Z)
    (now_tx now_mine : datetime) (fuel : nat) : M Block :=
  let* current_chain := reads ss_current_chain in
  let* blocks := chain_blocks current_chain in
  let* from_address := reads (fun st => w_address (ss_wallet st)) in
  let sample_tx :=
    {| tx_id := "0x" ++ substring 0 64 (calculate_hash uuid_id);
       tx_type := "Transfer";
       tx_from_address := from_address;
       tx_to_address := "0x" ++ substring 0 40 (calculate_hash uuid_to);
       tx_data := [("amount", PyInt amount); ("token", PyStr "KZT")];
       tx_timestamp := isoformat now_tx;
       tx_blockchain := current_chain;
       tx_status := "Success";
       tx_gas_used := 21000;
       tx_block_number := Z.of_nat (length blocks) |} in
  record_transaction sample_tx ;;
  mine_block current_chain [asdict sample_tx] now_mine fuel.

(** A network button of [render_sidebar]. *)
Definition sidebar_select (chain_id : string) : M unit :=
  writes (with_current_chain chain_id).

(** "Target Blockchain" of [render_smart_contracts]. *)
Definition deploy_chain_options : list string := ["besu"].

(** "To" of [render_bridge]: [[c for c in self.networks.keys() if c != source_chain]]. *)
Definition dest_chain_options (source_chain : string) : list string :=
  List.filter (fun c => negb (String.eqb c source_chain)) networks.

(** One row of "Active Bridge Transfers" in [render_bridge]: the number
    shown for a transfer when [random.randint(1, 3)] gives [r], and the
    label beside it.  The transfer itself is only read. *)
Definition shown_confirmations (transfer : BridgeTransfer) (r : Z) : Z :=
  Z.min (bt_confirmations transfer + r) (bt_required_confirmations transfer).

Definition shown_label (transfer : BridgeTransfer) (r : Z) : string :=
  if Z.leb (bt_required_confirmations transfer) (shown_confirmations transfer r)
  then "Completed" else "Processing".

(** [st.session_state.bridge_transfers[-3:]] *)
Definition last_three {A} (l : list A) : list A := skipn (length l - 3) l.

(** [self.networks[chain]], of which the pages below use the presence
    only: a [KeyError] for a key that is not a network. *)
Definition network_entry (chain : string) : M unit :=
  match network_type chain with
  | Some _ => ret tt
  | None => raise (KeyError chain)
  end.

(** The rows of "Active Bridge Transfers", in the order of the loop: a
    row first prints the names of both chains,
    [self.networks[transfer['from_chain']]] and
    [self.networks[transfer['to_chain']]], and then draws.  A row is shown
    for as long as [draws] supplies a draw. *)
Fixpoint bridge_rows (transfers : list BridgeTransfer) (draws : list Z)
    : M (list (Z * string)) :=
  match transfers with
  | [] => ret []
  | transfer :: rest =>
      network_entry (bt_from_chain transfer) ;;
      network_entry (bt_to_chain transfer) ;;
      match draws with
      | [] => ret []
      | r :: later =>
          let* rows := bridge_rows rest later in
          ret ((shown_confirmations transfer r, shown_label transfer r) :: rows)
      end
  end.

Definition render_bridge_rows (draws : list Z) : M (list (Z * string)) :=
  let* transfers := reads ss_bridge_transfers in
  bridge_rows (last_three transfers) draws.

(** The wallet line of [render_header]:
    [st.session_state.wallet['address'][:10] + "..."]. *)
Definition header_wallet_label : M string :=
  let* address := reads (fun st => w_address (ss_wallet st)) in
  ret (substring 0 10 address ++ "...").

(** [[tx for tx in st.session_state.transactions if tx.blockchain == chain]] *)
Definition chain_transactions (chain : string) (txs : list Transaction) : list Transaction :=
  List.filter (fun tx => String.eqb (tx_blockchain tx) chain) txs.

(** "Total Transactions" of [render_sidebar]. *)
Definition sidebar_total_transactions : M Z :=
  let* txs := reads ss_transactions in
  ret (Z.of_nat (length txs)).

(** The bars of "Transaction Volume by Chain" in [render_analytics], one
    per key of [self.networks]. *)
Definition analytics_volumes : M (list Z) :=
  let* txs := reads ss_transactions in
  ret (map (fun chain => Z.of_nat (length (chain_transactions chain txs))) networks).

(** [blocks[-5:]] *)
Definition last_five {A} (l : list A) : list A := skipn (length l - 5) l.

(** The head of [render_blockchain_explorer]: the metrics "Total Blocks"
    and "Transactions" of the current chain. *)
Definition explorer_metrics : M (Z * Z) :=
  let* current_chain := reads ss_current_chain in
  network_entry current_chain ;;
  let* blocks := chain_blocks current_chain in
  let* txs := reads ss_transactions in
  ret (Z.of_nat (length blocks), Z.of_nat (length (chain_transactions current_chain txs))).

(** A [for] loop, or a list comprehension, whose body may raise. *)
Fixpoint for_each {A B} (f : A -> M B) (l : list A) : M (list B) :=
  match l with
  | [] => ret []
  | a :: rest =>
      let* b := f a in
      let* bs := for_each f rest in
      ret (b :: bs)
  end.

(** [d.get(key, default)], [items] being the items of the dict [d], whose
    keys are distinct. *)
Fixpoint dict_get (items : list (string * pyval)) (key : string) (default : pyval) : pyval :=
  match items with
  | [] => default
  | (k, v) :: rest => if String.eqb k key then v else dict_get rest key default
  end.

(** [v[:10]], as far as it can fail: a str and a list can be sliced, a
    number is not subscriptable, and a dict takes the slice for a key,
    which is unhashable ([TypeError]) before Python 3.12 and a missing key
    from then on, the [KeyError] naming the slice as Python prints it;
    [hashable_slices] says which. *)
Definition slice_10 (hashable_slices : bool) (v : pyval) : M unit :=
  match v with
  | PyStr _ | PyList _ => ret tt
  | PyInt _ | PyFloat _ => raise TypeError
  | PyDict _ =>
      raise (if hashable_slices then KeyError "slice(None, 10, None)" else TypeError)
  end.

(** The card of one transaction of a block, in "Recent Blocks": its type
    and status are [tx.get(..., 'Unknown')], which cannot fail on a dict;
    its addresses are [tx.get('from_address', '')[:10]] and
    [tx.get('to_address', '')[:10]], in this order.  A transaction that is
    not a dict has no [get]. *)
Definition transaction_card (hashable_slices : bool) (tx : pyval) : M unit :=
  match tx with
  | PyDict items =>
      slice_10 hashable_slices (dict_get items "from_address" (PyStr "")) ;;
      slice_10 hashable_slices (dict_get items "to_address" (PyStr ""))
  | _ => raise AttributeError
  end.

(** "Recent Blocks" of [render_blockchain_explorer]: one expander per block
    of [reversed(blocks[-5:])], titled with the block's index and holding
    one card per transaction of the block.  The result lists the blocks
    shown. *)
Definition explorer_recent_blocks (hashable_slices : bool) : M (list Block) :=
  let* current_chain := reads ss_current_chain in
  network_entry current_chain ;;
  let* blocks := chain_blocks current_chain in
  for_each (fun block =>
              for_each (transaction_card hashable_slices) (blk_transactions block) ;;
              ret block)
           (reverse (last_five blocks)).

(** [st.session_state.transactions[-1]] *)
Definition last_transaction : M Transaction :=
  let* txs := reads ss_transactions in
  match last txs with
  | Some tx => ret tx
  | None => raise IndexError
  end.

(** "Deployment Details" of [render_smart_contracts], shown after
    [deploy_smart_contract] returned [contract]: the contract address,
    the transaction hash line, the block number and the gas used. *)
Definition deployment_details (contract : SmartContract) (deploy_chain : string)
    : M (string * string * Z * Z) :=
  let* shown_tx := last_transaction in
  let* blocks := chain_blocks deploy_chain in
  let* gas_tx := last_transaction in
  ret (sc_address contract, substring 0 32 (tx_id shown_tx) ++ "...",
       Z.of_nat (length blocks) - 1, tx_gas_used gas_tx).

(** The "Deploy Contract" button of [render_smart_contracts]. *)
Definition deploy_click (name code deploy_chain : string)
    (now_address now_deployed : datetime) (uuid_tx : string)
    (now_tx now_mine : datetime) (fuel : nat) : M (string * string * Z * Z) :=
  let* contract := deploy_smart_contract name code deploy_chain now_address now_deployed
                     uuid_tx now_tx now_mine fuel in
  deployment_details contract deploy_chain.

(** The preview of [render_file_upload]: the digest of
    [uploaded_file.read(1024)], after which the file is rewound. *)
Definition preview_hash (file : UploadedFile) : string :=
  Sha256.hexdigest (firstn 1024 (uf_bytes file)).

(** "Total Blocks" of [render_sidebar]:
    [sum(len(blocks) for blocks in st.session_state.blocks.values())].
    The fold visits the chains in the order of the map, Python in the
    order of insertion; the sum is the same. *)
Definition sidebar_total_blocks : M Z :=
  let* chains := reads ss_blocks in
  ret (map_fold (fun _ blocks total => total + Z.of_nat (length blocks)) 0 chains).

(** The ['Blocks'] column of "Network Comparison" in [render_analytics]:
    [len(st.session_state.blocks[chain_id])] for each key of
    [self.networks]. *)
Definition comparison_blocks : M (list Z) :=
  for_each (fun chain_id =>
              let* blocks := chain_blocks chain_id in
              ret (Z.of_nat (length blocks)))
           networks.

(** ** The session as a transition system *)

(** What a user of the class can make it do: the domain methods with
    any arguments, and the page actions that write or draw. *)
Inductive call :=
| Mine (chain : string) (transactions : list pyval) (now : datetime)
| Deploy (name code chain : string) (now_address now_deployed : datetime)
    (uuid_tx : string) (now_tx now_mine : datetime)
| Upload (file : UploadedFile) (chain : string) (uuid_ipfs uuid_file uuid_tx : string)
    (now_record now_tx now_mine : datetime)
| Bridge (asset_id from_chain to_chain : string) (amount : pyval) (uuid_id : string)
    (now_transfer : datetime) (uuid_lock : string) (now_lock now_mine : datetime)
| ClickMine (uuid_id uuid_to : string) (amount : Z) (now_tx now_mine : datetime)
| ClickNetwork (chain_id : string)
| ShowBridge (draws : list Z).

(** The state a call leaves behind, when it ends. *)
Definition settle {A} (r : outcome A * SessionState) : option SessionState :=
  match r with
  | (Spins, _) => None
  | (_, st') => Some st'
  end.

Definition run_call (c : call) (fuel : nat) (st : SessionState) : option SessionState :=
  match c with
  | Mine chain transactions now => settle (mine_block chain transactions now fuel st)
  | Deploy name code chain now_address now_deployed uuid_tx now_tx now_mine =>
      settle (deploy_smart_contract name code chain now_address now_deployed
                uuid_tx now_tx now_mine fuel st)
  | Upload file chain uuid_ipfs uuid_file uuid_tx now_record now_tx now_mine =>
      settle (upload_file_to_blockchain file chain uuid_ipfs uuid_file uuid_tx
                now_record now_tx now_mine fuel st)
  | Bridge asset_id from_chain to_chain amount uuid_id now_transfer uuid_lock now_lock now_mine =>
      settle (bridge_asset asset_id from_chain to_chain amount uuid_id now_transfer
                uuid_lock now_lock now_mine fuel st)
  | ClickMine uuid_id uuid_to amount now_tx now_mine =>
      settle (explorer_mine_click uuid_id uuid_to amount now_tx now_mine fuel st)
  | ClickNetwork chain_id => settle (sidebar_select chain_id st)
  | ShowBridge draws => settle (render_bridge_rows draws st)
  end.

Fixpoint run_calls (cs : list (call * nat)) (st : SessionState) : option SessionState :=
  match cs with
  | [] => Some st
  | (c, fuel) :: rest =>
      match run_call c fuel st with
      | Some st' => run_calls rest st'
      | None => None
      end
  end.

Inductive reachable : SessionState -> Prop :=
| reach_init now_besu now_fabric now_corda wallet_uuid :
    reachable (init_session_state now_besu now_fabric now_corda wallet_uuid)
| reach_call st c fuel st' :
    reachable st -> run_call c fuel st = Some st' -> reachable st'.

(** ** A concrete session

    Draws for which the nonce search ends within a few digests; the
    examples below run the embedded methods on them. *)

Module Session.

Definition at_ (h m s us : Z) : datetime :=
  {| year := 2024; month := 1; day := 15;
     hour := h; minute := m; second := s; microsecond := us |}.

Definition fresh : SessionState :=
  init_session_state (at_ 10 0 0 1) (at_ 10 0 0 2) (at_ 10 0 0 3)
    "123e4567-e89b-42d3-a456-426614174000".

Definition mine_empty (fuel : nat) : outcome Block * SessionState :=
  mine_block "besu" [] (at_ 10 5 0 5794) fuel fresh.

Definition deploy_on (chain : string) (now_mine : datetime) (fuel : nat)
  : outcome SmartContract * SessionState :=
  deploy_smart_contract "Token" "contract Token {}" chain
    (at_ 10 6 0 100) (at_ 10 6 0 200) "00000000-0000-4000-8000-000000000001"
    (at_ 10 6 0 300) now_mine fuel fresh.

Definition bridge_to (to_chain : string) (now_mine : datetime) (fuel : nat)
  : outcome BridgeTransfer * SessionState :=
  bridge_asset "KZT_100.0" "besu" to_chain (PyFloat "100.0")
    "00000000-0000-4000-8000-000000000002" (at_ 10 7 0 100)
    "00000000-0000-4000-8000-000000000003" (at_ 10 7 0 300) now_mine fuel fresh.

Definition hello : UploadedFile :=
  {| uf_name := "hello.txt";
     uf_bytes := list_byte_of_string "hello" |}.

Definition upload_first (fuel : nat) : outcome FileRecord * SessionState :=
  upload_file_to_blockchain hello "besu"
    "00000000-0000-4000-8000-000000000011" "00000000-0000-4000-8000-000000000012"
    "00000000-0000-4000-8000-000000000013"
    (at_ 10 8 0 200) (at_ 10 8 0 300) (at_ 10 8 1 12853) fuel fresh.


(** The values the calls above produce, as Python prints them. *)

Definition wallet_address : string := "0x320159ebe3219112484baaa0aa1164dd93b25e98".

Definition genesis_besu : Block :=
  {| blk_index := 0;
     blk_timestamp := "2024-01-15T10:00:00.000001";
     blk_transactions := [];
     blk_previous_hash := "0";
     blk_hash := "98916f6738b4eea5d839caca617eca5962ec2c8009f785fdcd0d04d18471f002";
     blk_nonce := 0;
     blk_miner := "System" |}.

Definition mined_block : Block :=
  {| blk_index := 1;
     blk_timestamp := "2024-01-15T10:05:00.005794";
     blk_transactions := [];
     blk_previous_hash := "98916f6738b4eea5d839caca617eca5962ec2c8009f785fdcd0d04d18471f002";
     blk_hash := "00000eee0fc15a2dc3b4a24e3266135d5a21277950b5dc5ff338a5d38192a79e";
     blk_nonce := 3;
     blk_miner := "0x320159eb..." |}.

(** The session after [mine_empty]. *)
Definition mined : SessionState := (mine_empty 4).2.

(** The same mining in a session where "fabric" was selected first. *)
Definition selected : SessionState := (sidebar_select "fabric" fresh).2.
Definition mined_selected : SessionState :=
  (mine_block "besu" [] (at_ 10 5 0 5794) 9 selected).2.

(** The other calls, at mining times for which the search ends within
    three digests. *)
Definition deployed_on_fabric : outcome SmartContract * SessionState :=
  deploy_on "fabric" (at_ 10 6 1 1634) 3.
Definition bridged_to_itself : outcome BridgeTransfer * SessionState :=
  bridge_to "besu" (at_ 10 7 1 25481) 3.
Definition bridged_to_fabric : outcome BridgeTransfer * SessionState :=
  bridge_to "fabric" (at_ 10 7 1 4092) 3.
Definition uploaded_once : outcome FileRecord * SessionState := upload_first 1.

(** What [bridged_to_fabric] returns. *)
Definition fabric_transfer : BridgeTransfer :=
  {| bt_id := "00000000-0000-4000-8000-000000000002";
     bt_asset := "KZT_100.0";
     bt_from_chain := "besu";
     bt_to_chain := "fabric";
     bt_amount := PyFloat "100.0";
     bt_status := "Processing";
     bt_timestamp := "2024-01-15T10:07:00.000100";
     bt_confirmations := 0;
     bt_required_confirmations := 10 |}.

(** The "fabric" chain after [deployed_on_fabric], and what the call
    returns and records. *)
Definition genesis_fabric : Block :=
  {| blk_index := 0;
     blk_timestamp := "2024-01-15T10:00:00.000002";
     blk_transactions := [];
     blk_previous_hash := "0";
     blk_hash := "fa95d9f08696ef76d6e7a22021c10c4ec0e41a4ea53e025abb9238043a6b2294";
     blk_nonce := 0;
     blk_miner := "System" |}.

Definition fabric_contract : SmartContract :=
  {| sc_address := "0x109c947904d085a0fca866c338197dec15de33b6";
     sc_name := "Token";
     sc_blockchain := "fabric";
     sc_abi := mock_abi;
     sc_bytecode := "0xcf20d838d6c45ab6b824a3566aa01856466942d568517075520be70aaccd2b8acf20d838d6c45ab6b824a3566aa0185646...";
     sc_deployed_at := "2024-01-15T10:06:00.000200";
     sc_transactions := 0 |}.

Definition fabric_deployment : Transaction :=
  {| tx_id := "0x11e594f481958c10e3015d0bf0447a22f068a8a647f475df15ce2c7ab4b8f3f1";
     tx_type := "Contract Deployment";
     tx_from_address := "0x320159ebe3219112484baaa0aa1164dd93b25e98";
     tx_to_address := "0x109c947904d085a0fca866c338197dec15de33b6";
     tx_data := [("contract", PyStr "Token"); ("gas_limit", PyInt 3000000)];
     tx_timestamp := "2024-01-15T10:06:00.000300";
     tx_blockchain := "fabric";
     tx_status := "Success";
     tx_gas_used := 2100000;
     tx_block_number := 1 |}.

Definition fabric_block : Block :=
  {| blk_index := 1;
     blk_timestamp := "2024-01-15T10:06:01.001634";
     blk_transactions := [asdict fabric_deployment];
     blk_previous_hash := "fa95d9f08696ef76d6e7a22021c10c4ec0e41a4ea53e025abb9238043a6b2294";
     blk_hash := "0000f91488066033b5eef48bffee629f6e1d8ff4b3b852f13d75cdc186d7a853";
     blk_nonce := 2;
     blk_miner := "0x320159eb..." |}.

(** What [bridged_to_itself] returns. *)
Definition besu_transfer : BridgeTransfer :=
  {| bt_id := "00000000-0000-4000-8000-000000000002";
     bt_asset := "KZT_100.0";
     bt_from_chain := "besu";
     bt_to_chain := "besu";
     bt_amount := PyFloat "100.0";
     bt_status := "Processing";
     bt_timestamp := "2024-01-15T10:07:00.000100";
     bt_confirmations := 0;
     bt_required_confirmations := 10 |}.

(** The session after [bridged_to_fabric], and four visits of the bridge
    page in which every draw is 3. *)
Definition bridged : SessionState := bridged_to_fabric.2.

Definition renders : list (call * nat) :=
  [ (ShowBridge [3], 0%nat); (ShowBridge [3], 0%nat); (ShowBridge [3], 0%nat);
    (ShowBridge [3], 0%nat) ].


Definition first_record : FileRecord :=
  {| fr_file_id := "00000000-0000-4000-8000-000000000012";
     fr_name := "hello.txt";
     fr_size := 5;
     fr_hash := "2cf24dba5fb0a30e26e83b2ac5b9e29e1b161e5c1fa7425e73043362938b9824";
     fr_ipfs_hash := "Qmdd7df116468181b64e6126c7fec56f8257156ab620a9";
     fr_blockchain := "besu";
     fr_tx_hash := "0x205832d622938c215d9919d8002db900fffeb50ca14b324024ec6ba2904831f3";
     fr_timestamp := "2024-01-15T10:08:00.000200";
     fr_owner := "0x320159ebe3219112484baaa0aa1164dd93b25e98" |}.


(** The session after the deployment on "fabric", the explorer's
    "Mine New Block" click in the fresh session with what it
    records and mines, and the "Deploy Contract" click. *)
Definition deployed : SessionState := deployed_on_fabric.2.

Definition clicked : outcome Block * SessionState :=
  explorer_mine_click "00000000-0000-4000-8000-000000000031"
    "00000000-0000-4000-8000-000000000032" 500
    (at_ 10 10 0 300) (at_ 10 10 1 3804) 3 fresh.

Definition click_transfer : Transaction :=
  {| tx_id := "0xeaed3477e8b61885d231829e3d12e45d114cadcb941b95dd649122b805426a06";
     tx_type := "Transfer";
     tx_from_address := "0x320159ebe3219112484baaa0aa1164dd93b25e98";
     tx_to_address := "0xb0c5ad35009f2e02d85f43df8b152891653ae3e5";
     tx_data := [("amount", PyInt 500); ("token", PyStr "KZT")];
     tx_timestamp := "2024-01-15T10:10:00.000300";
     tx_blockchain := "besu";
     tx_status := "Success";
     tx_gas_used := 21000;
     tx_block_number := 1 |}.

Definition clicked_block : Block :=
  {| blk_index := 1;
     blk_timestamp := "2024-01-15T10:10:01.003804";
     blk_transactions := [asdict click_transfer];
     blk_previous_hash := "98916f6738b4eea5d839caca617eca5962ec2c8009f785fdcd0d04d18471f002";
     blk_hash := "0000b2152996804a2a8c44d142d30969d935568fa7e8942c185e85cd41d0b2f4";
     blk_nonce := 2;
     blk_miner := "0x320159eb..." |}.

Definition deploy_clicked : outcome (string * string * Z * Z) * SessionState :=
  deploy_click "Token" "contract Token {}" "fabric"
    (at_ 10 6 0 100) (at_ 10 6 0 200)
    "00000000-0000-4000-8000-000000000001" (at_ 10 6 0 300)
    (at_ 10 6 1 1634) 3 fresh.

Definition after_click : SessionState := clicked.2.

(** The session after a bridge transfer from "ethereum", which is not a
    network, and the transfer the refused call has left in it. *)
Definition refused : SessionState :=
  (bridge_asset "KZT_100.0" "ethereum" "besu" (PyFloat "100.0")
     "00000000-0000-4000-8000-000000000002" (at_ 10 7 0 100)
     "00000000-0000-4000-8000-000000000003" (at_ 10 7 0 300)
     (at_ 10 7 1 4092) 3 fresh).2.

Definition refused_transfer : BridgeTransfer :=
  {| bt_id := "00000000-0000-4000-8000-000000000002";
     bt_asset := "KZT_100.0";
     bt_from_chain := "ethereum";
     bt_to_chain := "besu";
     bt_amount := PyFloat "100.0";
     bt_status := "Processing";
     bt_timestamp := "2024-01-15T10:07:00.000100";
     bt_confirmations := 0;
     bt_required_confirmations := 10 |}.

(** A block mined by a direct call of [mine_block] with a transaction
    whose sender is a number. *)
Definition odd_transaction : pyval := PyDict [("from_address", PyInt 5)].

Definition mined_odd : SessionState :=
  (mine_block "besu" [odd_transaction] (at_ 10 11 1 15424) 1 fresh).2.

Definition odd_block : Block :=
  {| blk_index := 1;
     blk_timestamp := "2024-01-15T10:11:01.015424";
     blk_transactions := [odd_transaction];
     blk_previous_hash := "98916f6738b4eea5d839caca617eca5962ec2c8009f785fdcd0d04d18471f002";
     blk_hash := "0000970cef1681719b15f3c5b61571d650cc0f35f6df64773ac7076396b5ebc3";
     blk_nonce := 0;
     blk_miner := "0x320159eb..." |}.



End Session.

(** * Vocabulary of the properties *)

(** The digest the loop tries at [nonce]. *)
Definition digest_at (index : Z) (timestamp : string) (transactions : list pyval)
    (previous_hash : string) (nonce : Z) : string :=
  calculate_hash (block_data index timestamp transactions previous_hash nonce).

(** [n] is the first nonce from [start] on whose digest meets the difficulty. *)
Definition first_hit (index : Z) (timestamp : string) (transactions : list pyval)
    (previous_hash : string) (start n : Z) : Prop :=
  start <= n /\
  meets_difficulty (digest_at index timestamp transactions previous_hash n) = true /\
  forall m, start <= m < n ->
    meets_difficulty (digest_at index timestamp transactions previous_hash m) = false.

(** [b] is the block [mine_block] builds on top of [blocks], whose last
    block is [previous_block], for a wallet at [address]. *)
Definition mined (blocks : list Block) (previous_block : Block)
    (transactions : list pyval) (now : datetime) (address : string)
    (fuel : nat) (b : Block) : Prop :=
  exists nonce hash_value,
    mine_loop fuel (Z.of_nat (length blocks)) (isoformat now) transactions
      (blk_hash previous_block) 0 = Some (nonce, hash_value) /\
    b = {| blk_index := Z.of_nat (length blocks);
           blk_timestamp := isoformat now;
           blk_transactions := transactions;
           blk_previous_hash := blk_hash previous_block;
           blk_hash := hash_value;
           blk_nonce := nonce;
           blk_miner := substring 0 10 address ++ "..." |}.

(** [op], a method that ends by mining [transactions] on top of [blocks],
    returns [r] whenever it is allowed to reach the first nonce whose
    digest meets the difficulty. *)
Definition returns_when_mined {A} (op : nat -> outcome A * SessionState) (r : A)
    (blocks : list Block) (previous_block : Block) (now_mine : datetime)
    (transactions : list pyval) : Prop :=
  forall n,
    first_hit (Z.of_nat (length blocks)) (isoformat now_mine) transactions
      (blk_hash previous_block) 0 n ->
    forall fuel, (Z.to_nat n < fuel)%nat -> exists st', op fuel = (Returns r, st').

Definition appended (chain : string) (blocks : list Block) (b : Block)
    (st : SessionState) : SessionState :=
  with_blocks (<[chain := (blocks ++ [b])%list]> (ss_blocks st)) st.

Definition fresh_transfer (t : BridgeTransfer) : Prop :=
  bt_status t = "Processing" /\ bt_confirmations t = 0 /\
  bt_required_confirmations t = 10.

(** [st'] is [st] with at most one mined block appended to one chain and
    some fresh bridge transfers added; the wallet is the same. *)
Record grows (st st' : SessionState) : Prop := {
  grows_wallet : ss_wallet st' = ss_wallet st;
  grows_transfers :
    exists extra, ss_bridge_transfers st' = (ss_bridge_transfers st ++ extra)%list /\
                  Forall fresh_transfer extra;
  grows_blocks :
    ss_blocks st' = ss_blocks st \/
    exists chain blocks previous_block transactions now fuel b,
      ss_blocks st !! chain = Some blocks /\ last blocks = Some previous_block /\
      mined blocks previous_block transactions now (w_address (ss_wallet st)) fuel b /\
      ss_blocks st' = <[chain := (blocks ++ [b])%list]> (ss_blocks st) }.

(** What a call returned, if it did. *)
Definition returned {A} (r : outcome A * SessionState) : option A :=
  match r.1 with
  | Returns a => Some a
  | _ => None
  end.

(** The digest recomputed from the fields a block records. *)
Definition recomputed_hash (b : Block) : string :=
  calculate_hash (block_data (blk_index b) (blk_timestamp b) (blk_transactions b)
                             (blk_previous_hash b) (blk_nonce b)).


(** Index and hash linkage along a chain. *)
Definition chain_linked (blocks : list Block) : Prop :=
  (forall b, blocks !! 0%nat = Some b ->
     blk_index b = 0 /\ blk_previous_hash b = "0") /\
  (forall i b p, blocks !! S i = Some b -> blocks !! i = Some p ->
     blk_previous_hash b = blk_hash p /\ blk_index b = Z.of_nat (S i)).


(** The first block is the genesis block of [chain]. *)
Definition starts_at_genesis (chain : string) (blocks : list Block) : Prop :=
  exists b, blocks !! 0%nat = Some b /\
    blk_hash b = calculate_hash ("Genesis Block " ++ chain) /\
    blk_nonce b = 0 /\ blk_transactions b = [] /\ blk_miner b = "System".

(** [st'] holds everything [st] holds, in the same places: the lists of
    the session and each chain have only grown at their ends. *)
Record extends (st st' : SessionState) : Prop := {
  extends_transactions :
    exists more, ss_transactions st' = (ss_transactions st ++ more)%list;
  extends_smart_contracts :
    exists more, ss_smart_contracts st' = (ss_smart_contracts st ++ more)%list;
  extends_files :
    exists more, ss_files st' = (ss_files st ++ more)%list;
  extends_bridge_transfers :
    exists more, ss_bridge_transfers st' = (ss_bridge_transfers st ++ more)%list;
  extends_blocks :
    forall chain blocks, ss_blocks st !! chain = Some blocks ->
      exists more, ss_blocks st' !! chain = Some (blocks ++ more)%list }.

(** [st'] is [st] after [tx] was recorded and mined, alone, into a new
    block at the end of the chain it names. *)
Definition recorded_and_mined (tx : Transaction) (st st' : SessionState) : Prop :=
  exists blocks b,
    ss_blocks st !! tx_blockchain tx = Some blocks /\
    tx_block_number tx = Z.of_nat (length blocks) /\
    ss_transactions st' = (ss_transactions st ++ [tx])%list /\
    ss_blocks st' = <[tx_blockchain tx := (blocks ++ [b])%list]> (ss_blocks st) /\
    blk_index b = tx_block_number tx /\ blk_transactions b = [asdict tx].

(** The block of [tx]'s chain at position [tx.block_number] holds [tx]
    and nothing else. *)
Definition mined_where_recorded (st : SessionState) (tx : Transaction) : Prop :=
  exists blocks b,
    ss_blocks st !! tx_blockchain tx = Some blocks /\
    blocks !! Z.to_nat (tx_block_number tx) = Some b /\
    blk_index b = tx_block_number tx /\ blk_transactions b = [asdict tx].

(** A character of [0-9a-f]. *)
Definition is_hex (c : ascii) : bool :=
  existsb (Ascii.eqb c) (list_ascii_of_string "0123456789abcdef").

Definition all_hex (s : string) : bool := forallb is_hex (list_ascii_of_string s).

(** What [[:10]] accepts without raising. *)
Definition sliceable (v : pyval) : bool :=
  match v with
  | PyStr _ | PyList _ => true
  | _ => false
  end.

(** A transaction whose card can be drawn: a dict whose addresses, where
    it has them, are text or lists. *)
Definition card_shows (tx : pyval) : bool :=
  match tx with
  | PyDict items =>
      sliceable (dict_get items "from_address" (PyStr ""))
      && sliceable (dict_get items "to_address" (PyStr ""))
  | _ => false
  end.

(** * Properties *)

Arguments calculate_hash : simpl never.
Arguments mine_loop : simpl never.

(** ** The nonce search *)

Section NonceSearch.

Variables (index : Z) (timestamp : string) (transactions : list pyval)
          (previous_hash : string).

Local Abbreviation digest_at := (digest_at index timestamp transactions previous_hash).
Local Abbreviation first_hit := (first_hit index timestamp transactions previous_hash).

Lemma mine_loop_step fuel start :
  mine_loop (S fuel) index timestamp transactions previous_hash start =
  if meets_difficulty (digest_at start) then Some (start, digest_at start)
  else mine_loop fuel index timestamp transactions previous_hash (start + 1).
Proof. reflexivity. Qed.

Lemma mine_loop_sound fuel : forall start n h,
  mine_loop fuel index timestamp transactions previous_hash start = Some (n, h) ->
  first_hit start n /\ h = digest_at n.
Proof.
  induction fuel as [|fuel IH]; intros start n h Hrun; [discriminate|].
  rewrite mine_loop_step in Hrun.
  destruct (meets_difficulty (digest_at start)) eqn:Hhit.
  - inversion Hrun; subst. split; [|reflexivity].
    split; [lia|]. split; [assumption|intros; lia].
  - apply IH in Hrun as [(Hle & Hn & Hbelow) ->]. split; [|reflexivity].
    split; [lia|]. split; [assumption|].
    intros m Hm. destruct (Z.eq_dec m start) as [->|Hne]; [assumption|].
    apply Hbelow; lia.
Qed.

Lemma mine_loop_complete fuel : forall start n,
  first_hit start n -> (Z.to_nat (n - start) < fuel)%nat ->
  mine_loop fuel index timestamp transactions previous_hash start
    = Some (n, digest_at n).
Proof.
  induction fuel as [|fuel IH]; intros start n (Hle & Hn & Hbelow) Hfuel; [lia|].
  rewrite mine_loop_step.
  destruct (Z.eq_dec start n) as [->|Hne].
  - rewrite Hn. reflexivity.
  - rewrite (Hbelow start) by lia.
    apply IH; [|lia].
    split; [lia|]. split; [assumption|intros; apply Hbelow; lia].
Qed.

Lemma first_hit_unique start n1 n2 :
  first_hit start n1 -> first_hit start n2 -> n1 = n2.
Proof.
  intros (Hle1 & Hhit1 & Hbelow1) (Hle2 & Hhit2 & Hbelow2).
  destruct (Z.lt_trichotomy n1 n2) as [Hlt|[Heq|Hgt]]; [|assumption|].
  - rewrite (Hbelow2 n1) in Hhit1 by lia. discriminate.
  - rewrite (Hbelow1 n2) in Hhit2 by lia. discriminate.
Qed.

(** The fuel only decides whether the search ends, not what it finds. *)
Lemma mine_loop_fuel_irrelevant fuel1 fuel2 start r1 r2 :
  mine_loop fuel1 index timestamp transactions previous_hash start = Some r1 ->
  mine_loop fuel2 index timestamp transactions previous_hash start = Some r2 ->
  r1 = r2.
Proof.
  destruct r1 as [n1 h1], r2 as [n2 h2]. intros H1 H2.
  apply mine_loop_sound in H1 as [Hf1 ->], H2 as [Hf2 ->].
  rewrite (first_hit_unique _ _ _ Hf1 Hf2). reflexivity.
Qed.

End NonceSearch.

(** ** What [mine_block] does *)

Lemma mine_block_returns chain transactions now fuel st b st' :
  mine_block chain transactions now fuel st = (Returns b, st') ->
  exists blocks previous_block,
    ss_blocks st !! chain = Some blocks /\ last blocks = Some previous_block /\
    mined blocks previous_block transactions now (w_address (ss_wallet st)) fuel b /\
    st' = appended chain blocks b st.
Proof.
  unfold mine_block, bind, chain_blocks, last_block. intros Hrun.
  destruct (ss_blocks st !! chain) as [blocks|] eqn:Hchain; [|discriminate].
  destruct (last blocks) as [previous_block|] eqn:Hlast; [|discriminate].
  cbv [ret] in Hrun.
  destruct (mine_loop _ _ _ _ _ _) as [[nonce hash_value]|] eqn:Hloop; [|discriminate].
  cbv [reads append_block writes ret] in Hrun. injection Hrun as <- <-.
  exists blocks, previous_block. split; [reflexivity|]. split; [assumption|].
  split; [|reflexivity].
  exists nonce, hash_value. split; [assumption|reflexivity].
Qed.


(** A call of [mine_block] that does not return leaves the state as it was. *)
Lemma mine_block_otherwise chain transactions now fuel st out st' :
  mine_block chain transactions now fuel st = (out, st') ->
  (forall b, out <> Returns b) -> st' = st.
Proof.
  unfold mine_block, bind, chain_blocks, last_block. intros Hrun Hnot.
  destruct (ss_blocks st !! chain) as [blocks|] eqn:Hchain;
    [|injection Hrun as _ <-; reflexivity].
  destruct (last blocks) as [previous_block|] eqn:Hlast;
    [|injection Hrun as _ <-; reflexivity].
  cbv [ret] in Hrun.
  destruct (mine_loop _ _ _ _ _ _) as [[nonce hash_value]|] eqn:Hloop;
    [|injection Hrun as _ <-; reflexivity].
  cbv [reads append_block writes ret] in Hrun. injection Hrun as <- _.
  exfalso. eapply Hnot. reflexivity.
Qed.

(** ** What a call can change *)

Lemma grows_refl st : grows st st.
Proof.
  split; [reflexivity| |left; reflexivity].
  exists []. split; [symmetry; apply app_nil_r|constructor].
Qed.

Lemma mine_block_grows chain transactions now fuel st out st' :
  mine_block chain transactions now fuel st = (out, st') -> grows st st'.
Proof.
  intros Hrun. destruct out as [b|e|].
  - apply mine_block_returns in Hrun as (blocks & prev & Hchain & Hlast & Hmined & ->).
    split; [reflexivity| |].
    + exists []. split; [symmetry; apply app_nil_r|constructor].
    + right. exists chain, blocks, prev, transactions, now, fuel, b. auto.
  - apply mine_block_otherwise in Hrun as ->; [apply grows_refl|discriminate].
  - apply mine_block_otherwise in Hrun as ->; [apply grows_refl|discriminate].
Qed.

(** Writes to the lists of the session before the mining do not disturb it. *)
Lemma grows_after st mid st' extra :
  ss_wallet mid = ss_wallet st -> ss_blocks mid = ss_blocks st ->
  ss_bridge_transfers mid = (ss_bridge_transfers st ++ extra)%list ->
  Forall fresh_transfer extra ->
  grows mid st' -> grows st st'.
Proof.
  intros Hw Hb Ht Hfresh [Hw' (extra' & Ht' & Hfresh') Hb'].
  split.
  - congruence.
  - exists (extra ++ extra')%list. split.
    + rewrite Ht', Ht. symmetry. apply app_assoc.
    + apply Forall_app. split; assumption.
  - rewrite Hw, Hb in Hb'. exact Hb'.
Qed.

Ltac run_calls_in H :=
  cbv [bind writes reads record_transaction chain_length chain_blocks ret raise settle] in H;
  cbn [ss_blocks ss_transactions ss_smart_contracts ss_files ss_current_chain ss_wallet
       ss_mining ss_bridge_transfers with_blocks with_transactions with_smart_contracts
       with_files with_current_chain with_bridge_transfers] in H.

(** After the writes to the lists, a method either fails on the chain
    lookup or hands over to [mine_block]. *)
Ltac frame_of_mining Hrun extra :=
  run_calls_in Hrun;
  match type of Hrun with
  | context [ss_blocks ?st !! ?chain] =>
      let Hchain := fresh "Hchain" in
      destruct (ss_blocks st !! chain) as [?blocks|] eqn:Hchain;
      [ match type of Hrun with
        | context [mine_block ?c ?t ?n ?f ?s] =>
            let outm := fresh "outm" in
            let stm := fresh "stm" in
            let Hmine := fresh "Hmine" in
            destruct (mine_block c t n f s) as [outm stm] eqn:Hmine;
            apply mine_block_grows in Hmine;
            first [ destruct outm; injection Hrun as _ <- | injection Hrun as _ <- ];
            (eapply (grows_after _ _ _ extra); [| | | |exact Hmine])
        end
      | injection Hrun as _ <-;
        (eapply (grows_after _ _ _ extra); [| | | |apply grows_refl]) ]
  end;
  try reflexivity;
  try (cbn; symmetry; apply app_nil_r);
  try (repeat constructor).

Lemma deploy_grows name code chain now_address now_deployed uuid_tx now_tx now_mine fuel st out st' :
  deploy_smart_contract name code chain now_address now_deployed uuid_tx now_tx now_mine fuel st
    = (out, st') ->
  grows st st'.
Proof.
  unfold deploy_smart_contract. intros Hrun.
  frame_of_mining Hrun (@nil BridgeTransfer).
Qed.

Lemma upload_grows file chain uuid_ipfs uuid_file uuid_tx now_record now_tx now_mine fuel st out st' :
  upload_file_to_blockchain file chain uuid_ipfs uuid_file uuid_tx now_record now_tx now_mine
    fuel st = (out, st') ->
  grows st st'.
Proof.
  unfold upload_file_to_blockchain. intros Hrun.
  frame_of_mining Hrun (@nil BridgeTransfer).
Qed.

Lemma bridge_grows asset_id from_chain to_chain amount uuid_id now_transfer uuid_lock now_lock
    now_mine fuel st out st' :
  bridge_asset asset_id from_chain to_chain amount uuid_id now_transfer uuid_lock now_lock
    now_mine fuel st = (out, st') ->
  grows st st'.
Proof.
  unfold bridge_asset. intros Hrun.
  match type of Hrun with
  | context [with_bridge_transfers (_ ++ [?t])%list] => frame_of_mining Hrun [t]
  end.
Qed.

Lemma explorer_mine_click_grows uuid_id uuid_to amount now_tx now_mine fuel st out st' :
  explorer_mine_click uuid_id uuid_to amount now_tx now_mine fuel st = (out, st') ->
  grows st st'.
Proof.
  unfold explorer_mine_click. intros Hrun.
  frame_of_mining Hrun (@nil BridgeTransfer).
Qed.

Lemma network_entry_ends chain st :
  network_entry chain st = (Returns tt, st) \/
  network_entry chain st = (Raises (KeyError chain), st).
Proof. unfold network_entry. destruct (network_type chain); [left|right]; reflexivity. Qed.

(** The bridge page only reads: whether its rows are shown or a chain
    named by a transfer is missing from [self.networks], the session is
    as it was. *)
Lemma bridge_rows_ends transfers : forall draws st,
  exists out, bridge_rows transfers draws st = (out, st) /\ out <> Spins.
Proof.
  induction transfers as [|transfer rest IH]; intros draws st; cbn [bridge_rows].
  - eexists. split; [reflexivity|discriminate].
  - unfold bind.
    destruct (network_entry_ends (bt_from_chain transfer) st) as [-> | ->];
      [|eexists; split; [reflexivity|discriminate]].
    destruct (network_entry_ends (bt_to_chain transfer) st) as [-> | ->];
      [|eexists; split; [reflexivity|discriminate]].
    destruct draws as [|r later]; [eexists; split; [reflexivity|discriminate]|].
    destruct (IH later st) as (out & -> & Hout).
    destruct out as [rows|e|]; [| |contradiction];
      eexists; (split; [reflexivity|discriminate]).
Qed.

Lemma render_bridge_rows_settles draws st :
  settle (render_bridge_rows draws st) = Some st.
Proof.
  unfold render_bridge_rows, bind, reads.
  destruct (bridge_rows_ends (last_three (ss_bridge_transfers st)) draws st)
    as (out & -> & Hout).
  destruct out; [reflexivity|reflexivity|contradiction].
Qed.

Lemma run_call_grows c fuel st st' : run_call c fuel st = Some st' -> grows st st'.
Proof.
  destruct c; cbn [run_call]; intros Hrun.
  - destruct (mine_block _ _ _ _ _) as [out stm] eqn:Hcall.
    apply mine_block_grows in Hcall.
    destruct out; cbn in Hrun; congruence.
  - destruct (deploy_smart_contract _ _ _ _ _ _ _ _ _ _) as [out stm] eqn:Hcall.
    apply deploy_grows in Hcall.
    destruct out; cbn in Hrun; congruence.
  - destruct (upload_file_to_blockchain _ _ _ _ _ _ _ _ _ _) as [out stm] eqn:Hcall.
    apply upload_grows in Hcall.
    destruct out; cbn in Hrun; congruence.
  - destruct (bridge_asset _ _ _ _ _ _ _ _ _ _ _) as [out stm] eqn:Hcall.
    apply bridge_grows in Hcall.
    destruct out; cbn in Hrun; congruence.
  - destruct (explorer_mine_click _ _ _ _ _ _ _) as [out stm] eqn:Hcall.
    apply explorer_mine_click_grows in Hcall.
    destruct out; cbn in Hrun; congruence.
  - injection Hrun as <-. split; [reflexivity| |left; reflexivity].
    exists []. split; [symmetry; apply app_nil_r|constructor].
  - rewrite render_bridge_rows_settles in Hrun. injection Hrun as <-. apply grows_refl.
Qed.

(** ** Invariants of the chains *)

Lemma mined_fields blocks previous_block transactions now address fuel b :
  mined blocks previous_block transactions now address fuel b ->
  blk_index b = Z.of_nat (length blocks) /\
  blk_timestamp b = isoformat now /\
  blk_transactions b = transactions /\
  blk_previous_hash b = blk_hash previous_block /\
  blk_miner b = substring 0 10 address ++ "..." /\
  blk_hash b = recomputed_hash b /\
  first_hit (blk_index b) (blk_timestamp b) (blk_transactions b)
            (blk_previous_hash b) 0 (blk_nonce b).
Proof.
  intros (nonce & hash_value & Hloop & ->).
  apply mine_loop_sound in Hloop as [Hfirst ->].
  cbn [blk_index blk_timestamp blk_transactions blk_previous_hash blk_miner blk_hash
       blk_nonce].
  do 5 (split; [reflexivity|]). split; [reflexivity|exact Hfirst].
Qed.


Lemma chain_linked_genesis chain now : chain_linked (generate_genesis_block chain now).
Proof.
  split.
  - intros b Hb. injection Hb as <-. split; reflexivity.
  - intros i b p Hb. discriminate Hb.
Qed.

Lemma chain_linked_snoc blocks previous_block transactions now address fuel b :
  chain_linked blocks -> last blocks = Some previous_block ->
  mined blocks previous_block transactions now address fuel b ->
  chain_linked (blocks ++ [b])%list.
Proof.
  intros [Hfirst Hlink] Hlast Hmined.
  apply mined_fields in Hmined as (Hindex & _ & _ & Hprev & _).
  assert (Hlen : (0 < length blocks)%nat).
  { destruct blocks; [discriminate Hlast|cbn; lia]. }
  rewrite last_lookup in Hlast.
  split.
  - intros b0 Hb0. rewrite lookup_app_l in Hb0 by exact Hlen. apply Hfirst, Hb0.
  - intros i b1 p Hb1 Hp.
    apply lookup_snoc_Some in Hb1 as [[Hi Hb1]|[Hi <-]].
    + rewrite lookup_app_l in Hp by lia. eapply Hlink; eassumption.
    + rewrite lookup_app_l in Hp by lia.
      replace (Init.Nat.pred (length blocks)) with i in Hlast by lia.
      rewrite Hlast in Hp. injection Hp as <-.
      split; [exact Hprev|]. rewrite Hindex, Hi. reflexivity.
Qed.



Lemma starts_at_genesis_genesis chain now :
  starts_at_genesis chain (generate_genesis_block chain now).
Proof. eexists. split; [reflexivity|]. repeat (split; [reflexivity|]). reflexivity. Qed.

Lemma starts_at_genesis_snoc chain blocks b :
  starts_at_genesis chain blocks -> starts_at_genesis chain (blocks ++ [b])%list.
Proof.
  intros (g & Hg & Hrest). exists g. split; [|exact Hrest].
  apply lookup_app_l_Some. exact Hg.
Qed.

(** A property of chains that holds of every genesis chain and survives
    the append made by [mine_block] holds of every chain of every
    reachable session. *)
Lemma chains_invariant (P : string -> list Block -> Prop) :
  (forall chain now, P chain (generate_genesis_block chain now)) ->
  (forall chain blocks previous_block transactions now address fuel b,
     P chain blocks -> last blocks = Some previous_block ->
     mined blocks previous_block transactions now address fuel b ->
     P chain (blocks ++ [b])%list) ->
  forall st, reachable st ->
  forall chain blocks, ss_blocks st !! chain = Some blocks -> P chain blocks.
Proof.
  intros Hgenesis Hsnoc st Hreach.
  induction Hreach as [now_besu now_fabric now_corda wallet_uuid|st c fuel st' Hreach IH Hrun].
  - intros chain blocks Hlookup. cbn [init_session_state ss_blocks] in Hlookup.
    apply lookup_insert_Some in Hlookup as [[<- <-]|[_ Hlookup]]; [apply Hgenesis|].
    apply lookup_insert_Some in Hlookup as [[<- <-]|[_ Hlookup]]; [apply Hgenesis|].
    apply lookup_insert_Some in Hlookup as [[<- <-]|[_ Hlookup]]; [apply Hgenesis|].
    rewrite lookup_empty in Hlookup. discriminate Hlookup.
  - intros chain blocks Hlookup.
    apply run_call_grows in Hrun as [_ _ [Hsame|Hgrown]].
    + rewrite Hsame in Hlookup. apply IH, Hlookup.
    + destruct Hgrown as (chain0 & blocks0 & prev & txs & now & fuel0 & b & Hchain0 & Hlast &
                          Hmined & Hblocks).
      rewrite Hblocks in Hlookup.
      apply lookup_insert_Some in Hlookup as [[<- <-]|[_ Hlookup]].
      * eapply Hsnoc; [apply IH, Hchain0|exact Hlast|exact Hmined].
      * apply IH, Hlookup.
Qed.

(** ** Invariants of the wallet and of the bridge transfers *)

Lemma reachable_wallet st :
  reachable st -> exists wallet_uuid, ss_wallet st = generate_wallet wallet_uuid.
Proof.
  induction 1 as [now_besu now_fabric now_corda wallet_uuid|st c fuel st' Hreach IH Hrun].
  - exists wallet_uuid. reflexivity.
  - apply run_call_grows in Hrun as [Hwallet _ _]. rewrite Hwallet. exact IH.
Qed.

Lemma reachable_transfers st :
  reachable st -> Forall fresh_transfer (ss_bridge_transfers st).
Proof.
  induction 1 as [now_besu now_fabric now_corda wallet_uuid|st c fuel st' Hreach IH Hrun].
  - constructor.
  - apply run_call_grows in Hrun as [_ (extra & -> & Hfresh) _].
    apply Forall_app. split; assumption.
Qed.

Lemma run_calls_grow cs : forall st st',
  run_calls cs st = Some st' ->
  ss_wallet st' = ss_wallet st /\
  exists extra, ss_bridge_transfers st' = (ss_bridge_transfers st ++ extra)%list.
Proof.
  induction cs as [|[c fuel] rest IH]; intros st st' Hrun; cbn [run_calls] in Hrun.
  - injection Hrun as <-. split; [reflexivity|]. exists []. symmetry. apply app_nil_r.
  - destruct (run_call c fuel st) as [mid|] eqn:Hcall; [|discriminate Hrun].
    apply run_call_grows in Hcall as [Hwallet (extra & Hextra & _) _].
    apply IH in Hrun as [Hwallet' (extra' & Hextra')].
    split; [congruence|]. exists (extra ++ extra')%list.
    rewrite Hextra', Hextra. symmetry. apply app_assoc.
Qed.

Lemma run_calls_reachable cs : forall st st',
  reachable st -> run_calls cs st = Some st' -> reachable st'.
Proof.
  induction cs as [|[c fuel] rest IH]; intros st st' Hreach Hrun; cbn [run_calls] in Hrun.
  - injection Hrun as <-. exact Hreach.
  - destruct (run_call c fuel st) as [mid|] eqn:Hcall; [|discriminate Hrun].
    eapply IH; [|exact Hrun]. eapply reach_call; eassumption.
Qed.

(** Every reachable session holds a chain, with a last block, for each of
    the three networks. *)
Lemma reachable_chain_present st chain :
  reachable st -> In chain networks ->
  exists blocks tip, ss_blocks st !! chain = Some blocks /\ last blocks = Some tip.
Proof.
  intros Hreach Hin.
  assert (Hsome : exists blocks, ss_blocks st !! chain = Some blocks).
  { induction Hreach as [now_besu now_fabric now_corda wallet_uuid
                        |st c fuel st' Hreach IH Hrun].
    - cbn [init_session_state ss_blocks].
      destruct Hin as [<-|[<-|[<-|[]]]]; eexists; vm_compute; reflexivity.
    - destruct IH as (blocks & Hblocks).
      apply run_call_grows in Hrun as [_ _ [Hsame|Hgrown]].
      + rewrite Hsame. eauto.
      + destruct Hgrown as (chain0 & blocks0 & _ & _ & _ & _ & b & _ & _ & _ & ->).
        destruct (decide (chain0 = chain)) as [->|Hne].
        * rewrite lookup_insert_eq. eauto.
        * rewrite lookup_insert_ne by exact Hne. eauto. }
  destruct Hsome as (blocks & Hblocks).
  assert (Hstart : starts_at_genesis chain blocks).
  { apply (chains_invariant starts_at_genesis) with st;
      [| |exact Hreach|exact Hblocks].
    - apply starts_at_genesis_genesis.
    - intros. apply starts_at_genesis_snoc. assumption. }
  destruct Hstart as (first & Hfirst & _).
  destruct (last blocks) as [tip|] eqn:Hlast; [eauto|].
  apply last_None in Hlast. subst blocks. discriminate Hfirst.
Qed.

(** ** What the methods built on [mine_block] do

    On a chain that exists and is not empty each of them writes its
    records and then returns exactly when the nonce search ends. *)

Ltac run_to_mining Hchain Hlast :=
  cbv [bind writes reads record_transaction chain_length chain_blocks ret raise spin
       last_block append_block appended];
  repeat first
    [ rewrite Hchain | rewrite Hlast | progress cbv beta iota
    | progress cbn [ss_blocks ss_transactions ss_smart_contracts ss_files
        ss_current_chain ss_wallet ss_mining ss_bridge_transfers with_blocks
        with_transactions with_smart_contracts with_files with_current_chain
        with_bridge_transfers] ].

Lemma deploy_runs name code chain now_address now_deployed uuid_tx now_tx now_mine st
    blocks previous_block :
  ss_blocks st !! chain = Some blocks -> last blocks = Some previous_block ->
  exists contract tx,
    (forall fuel,
       deploy_smart_contract name code chain now_address now_deployed uuid_tx now_tx
         now_mine fuel st =
       let mid := with_transactions (ss_transactions st ++ [tx])%list
                    (with_smart_contracts (ss_smart_contracts st ++ [contract])%list st) in
       match mine_loop fuel (Z.of_nat (length blocks)) (isoformat now_mine) [asdict tx]
               (blk_hash previous_block) 0 with
       | Some (nonce, hash_value) =>
           (Returns contract,
            appended chain blocks
              {| blk_index := Z.of_nat (length blocks);
                 blk_timestamp := isoformat now_mine;
                 blk_transactions := [asdict tx];
                 blk_previous_hash := blk_hash previous_block;
                 blk_hash := hash_value;
                 blk_nonce := nonce;
                 blk_miner := substring 0 10 (w_address (ss_wallet st)) ++ "..." |} mid)
       | None => (Spins, mid)
       end) /\
    sc_name contract = name /\ sc_blockchain contract = chain /\
    tx_type tx = "Contract Deployment" /\ tx_blockchain tx = chain /\
    tx_gas_used tx = 2100000 /\ tx_block_number tx = Z.of_nat (length blocks) /\
    tx_from_address tx = w_address (ss_wallet st) /\ tx_to_address tx = sc_address contract.
Proof.
  intros Hchain Hlast. refine (ex_intro _ ?[contract] (ex_intro _ ?[tx] _)). split.
  - intros fuel. unfold deploy_smart_contract, mine_block. run_to_mining Hchain Hlast.
    match goal with
    | |- context [mine_loop _ _ _ [asdict ?t] _ _] =>
        assert_fails (is_evar t); instantiate (tx := t)
    end.
    destruct (mine_loop _ _ _ _ _ _) as [[nonce hash_value]|]; reflexivity.
  - cbn. repeat (split; [reflexivity|]). reflexivity.
Qed.


Lemma bridge_runs asset_id from_chain to_chain amount uuid_id now_transfer uuid_lock
    now_lock now_mine st blocks previous_block :
  ss_blocks st !! from_chain = Some blocks -> last blocks = Some previous_block ->
  exists bridge_tx lock_tx,
    (forall fuel,
       bridge_asset asset_id from_chain to_chain amount uuid_id now_transfer uuid_lock
         now_lock now_mine fuel st =
       let mid := with_transactions (ss_transactions st ++ [lock_tx])%list
                    (with_bridge_transfers (ss_bridge_transfers st ++ [bridge_tx])%list st) in
       match mine_loop fuel (Z.of_nat (length blocks)) (isoformat now_mine) [asdict lock_tx]
               (blk_hash previous_block) 0 with
       | Some (nonce, hash_value) =>
           (Returns bridge_tx,
            appended from_chain blocks
              {| blk_index := Z.of_nat (length blocks);
                 blk_timestamp := isoformat now_mine;
                 blk_transactions := [asdict lock_tx];
                 blk_previous_hash := blk_hash previous_block;
                 blk_hash := hash_value;
                 blk_nonce := nonce;
                 blk_miner := substring 0 10 (w_address (ss_wallet st)) ++ "..." |} mid)
       | None => (Spins, mid)
       end) /\
    bt_id bridge_tx = uuid_id /\ bt_asset bridge_tx = asset_id /\
    bt_from_chain bridge_tx = from_chain /\ bt_to_chain bridge_tx = to_chain /\
    bt_amount bridge_tx = amount /\ bt_status bridge_tx = "Processing" /\
    bt_confirmations bridge_tx = 0 /\ bt_required_confirmations bridge_tx = 10 /\
    tx_type lock_tx = "Bridge Lock" /\ tx_blockchain lock_tx = from_chain /\
    tx_gas_used lock_tx = 75000 /\ tx_block_number lock_tx = Z.of_nat (length blocks).
Proof.
  intros Hchain Hlast. refine (ex_intro _ ?[bridge_tx] (ex_intro _ ?[tx] _)). split.
  - intros fuel. unfold bridge_asset, mine_block. run_to_mining Hchain Hlast.
    match goal with
    | |- context [mine_loop _ _ _ [asdict ?t] _ _] =>
        assert_fails (is_evar t); instantiate (tx := t)
    end.
    destruct (mine_loop _ _ _ _ _ _) as [[nonce hash_value]|]; reflexivity.
  - cbn. repeat (split; [reflexivity|]). reflexivity.
Qed.

(** A method that returns found its chain, and the chain was not empty. *)
Lemma deploy_returns name code chain now_address now_deployed uuid_tx now_tx now_mine fuel st
    contract st' :
  deploy_smart_contract name code chain now_address now_deployed uuid_tx now_tx now_mine
    fuel st = (Returns contract, st') ->
  exists blocks previous_block,
    ss_blocks st !! chain = Some blocks /\ last blocks = Some previous_block.
Proof.
  intros Hrun.
  destruct (ss_blocks st !! chain) as [blocks|] eqn:Hchain.
  - destruct (last blocks) as [previous_block|] eqn:Hlast; [eauto|].
    exfalso. revert Hrun. unfold deploy_smart_contract, mine_block.
    run_to_mining Hchain Hlast. discriminate.
  - exfalso. revert Hrun. unfold deploy_smart_contract, mine_block.
    run_to_mining Hchain Hchain. discriminate.
Qed.

Lemma upload_returns file chain uuid_ipfs uuid_file uuid_tx now_record now_tx now_mine fuel st
    file_record st' :
  upload_file_to_blockchain file chain uuid_ipfs uuid_file uuid_tx now_record now_tx now_mine
    fuel st = (Returns file_record, st') ->
  exists blocks previous_block,
    ss_blocks st !! chain = Some blocks /\ last blocks = Some previous_block.
Proof.
  intros Hrun.
  destruct (ss_blocks st !! chain) as [blocks|] eqn:Hchain.
  - destruct (last blocks) as [previous_block|] eqn:Hlast; [eauto|].
    exfalso. revert Hrun. unfold upload_file_to_blockchain, mine_block.
    run_to_mining Hchain Hlast. discriminate.
  - exfalso. revert Hrun. unfold upload_file_to_blockchain, mine_block.
    run_to_mining Hchain Hchain. discriminate.
Qed.

Lemma bridge_returns asset_id from_chain to_chain amount uuid_id now_transfer uuid_lock
    now_lock now_mine fuel st bridge_tx st' :
  bridge_asset asset_id from_chain to_chain amount uuid_id now_transfer uuid_lock now_lock
    now_mine fuel st = (Returns bridge_tx, st') ->
  exists blocks previous_block,
    ss_blocks st !! from_chain = Some blocks /\ last blocks = Some previous_block.
Proof.
  intros Hrun.
  destruct (ss_blocks st !! from_chain) as [blocks|] eqn:Hchain.
  - destruct (last blocks) as [previous_block|] eqn:Hlast; [eauto|].
    exfalso. revert Hrun. unfold bridge_asset, mine_block.
    run_to_mining Hchain Hlast. discriminate.
  - exfalso. revert Hrun. unfold bridge_asset, mine_block.
    run_to_mining Hchain Hchain. discriminate.
Qed.

(** A method whose run is the nonce search followed by the append either
    runs out of fuel, with nothing appended, or returns its record, and it
    returns it once the fuel reaches the first nonce that meets the
    difficulty. *)
Lemma mining_call_ends {A} (op : nat -> outcome A * SessionState) (r : A) chain blocks
    previous_block now_mine transactions address mid :
  (forall fuel, op fuel =
     match mine_loop fuel (Z.of_nat (length blocks)) (isoformat now_mine) transactions
             (blk_hash previous_block) 0 with
     | Some (nonce, hash_value) =>
         (Returns r,
          appended chain blocks
            {| blk_index := Z.of_nat (length blocks);
               blk_timestamp := isoformat now_mine;
               blk_transactions := transactions;
               blk_previous_hash := blk_hash previous_block;
               blk_hash := hash_value;
               blk_nonce := nonce;
               blk_miner := substring 0 10 address ++ "..." |} mid)
     | None => (Spins, mid)
     end) ->
  (forall fuel out st', op fuel = (out, st') ->
     (out = Spins /\ st' = mid) \/
     (out = Returns r /\
      exists b, mined blocks previous_block transactions now_mine address fuel b /\
                st' = appended chain blocks b mid)) /\
  returns_when_mined op r blocks previous_block now_mine transactions.
Proof.
  intros Hall. split.
  - intros fuel out st' Hrun. rewrite Hall in Hrun.
    destruct (mine_loop _ _ _ _ _ _) as [[nonce hash_value]|] eqn:Hloop.
    + injection Hrun as <- <-. right. split; [reflexivity|].
      eexists. split; [|reflexivity]. exists nonce, hash_value. split; [exact Hloop|reflexivity].
    + injection Hrun as <- <-. left. split; reflexivity.
  - intros n Hfirst fuel Hfuel. rewrite Hall.
    rewrite (mine_loop_complete _ _ _ _ fuel 0 n Hfirst) by (rewrite Z.sub_0_r; exact Hfuel).
    eexists. reflexivity.
Qed.

(** A pair whose outcome is [Returns a]. *)
Lemma returned_Some {A} (r : outcome A * SessionState) (a : A) :
  returned r = Some a -> r = (Returns a, r.2).
Proof.
  destruct r as [[x|e|] st]; unfold returned; cbn [fst snd]; intros Hr;
    [injection Hr as ->; reflexivity|discriminate Hr..].
Qed.

(** ** Lengths of the strings involved *)

Lemma length_append (s1 s2 : string) :
  String.length (s1 ++ s2) = (String.length s1 + String.length s2)%nat.
Proof.
  induction s1 as [|c s1 IH]; [reflexivity|].
  change (String c s1 ++ s2) with (String c (s1 ++ s2)).
  cbn [String.length Nat.add]. rewrite IH. reflexivity.
Qed.

Lemma length_substring_0 n : forall s,
  (n <= String.length s)%nat -> String.length (substring 0 n s) = n.
Proof.
  induction n as [|n IH]; intros s Hle.
  - destruct s; reflexivity.
  - destruct s as [|c s]; cbn [String.length] in Hle; [lia|].
    cbn [substring String.length]. rewrite IH by lia. reflexivity.
Qed.

Lemma length_calculate_hash data : String.length (calculate_hash data) = 64%nat.
Proof.
  unfold calculate_hash, Sha256.hexdigest, Sha256.hex_regs, Sha256.hex_word.
  cbn [String.length]. reflexivity.
Qed.

Lemma length_wallet_address wallet_uuid :
  String.length (w_address (generate_wallet wallet_uuid)) = 42%nat.
Proof.
  cbn [generate_wallet w_address]. rewrite length_append, length_substring_0.
  - reflexivity.
  - rewrite length_calculate_hash. lia.
Qed.

(** ** The concrete session *)

Lemma fresh_reachable : reachable Session.fresh.
Proof. apply reach_init. Qed.

Lemma fresh_besu : ss_blocks Session.fresh !! "besu" = Some [Session.genesis_besu].
Proof. vm_compute. reflexivity. Qed.

Lemma fresh_wallet : w_address (ss_wallet Session.fresh) = Session.wallet_address.
Proof. vm_compute. reflexivity. Qed.

Lemma mine_empty_returns :
  Session.mine_empty 4 = (Returns Session.mined_block, Session.mined).
Proof. vm_compute. reflexivity. Qed.

Lemma mined_reachable : reachable Session.mined.
Proof.
  apply (reach_call Session.fresh (Mine "besu" [] (Session.at_ 10 5 0 5794)) 4);
    [apply fresh_reachable|].
  cbn [run_call]. fold (Session.mine_empty 4). rewrite mine_empty_returns. reflexivity.
Qed.

Lemma mined_besu :
  ss_blocks Session.mined !! "besu" = Some [Session.genesis_besu; Session.mined_block].
Proof. vm_compute. reflexivity. Qed.

Lemma bridged_to_fabric_returns :
  returned Session.bridged_to_fabric = Some Session.fabric_transfer.
Proof. vm_compute. reflexivity. Qed.

Lemma fabric_in_networks : In "fabric" networks.
Proof. right. left. reflexivity. Qed.

Lemma besu_in_networks : In "besu" networks.
Proof. left. reflexivity. Qed.

Lemma deployed_on_fabric_returns :
  returned Session.deployed_on_fabric = Some Session.fabric_contract.
Proof. vm_compute. reflexivity. Qed.

Lemma bridged_to_itself_returns :
  returned Session.bridged_to_itself = Some Session.besu_transfer.
Proof. vm_compute. reflexivity. Qed.

Lemma bridged_reachable : reachable Session.bridged.
Proof.
  apply (reach_call Session.fresh
           (Bridge "KZT_100.0" "besu" "fabric" (PyFloat "100.0")
              "00000000-0000-4000-8000-000000000002" (Session.at_ 10 7 0 100)
              "00000000-0000-4000-8000-000000000003" (Session.at_ 10 7 0 300)
              (Session.at_ 10 7 1 4092)) 3);
    [apply fresh_reachable|].
  change (settle Session.bridged_to_fabric = Some Session.bridged).
  rewrite (returned_Some _ _ bridged_to_fabric_returns). reflexivity.
Qed.

Lemma bridged_transfers : ss_bridge_transfers Session.bridged = [Session.fabric_transfer].
Proof. vm_compute. reflexivity. Qed.

Lemma renders_run : run_calls Session.renders Session.bridged = Some Session.bridged.
Proof.
  unfold Session.renders. cbn [run_calls run_call].
  rewrite !render_bridge_rows_settles. reflexivity.
Qed.

Lemma uploaded_once_returns : returned Session.uploaded_once = Some Session.first_record.
Proof. vm_compute. reflexivity. Qed.



(** ** The chains a session has *)

Lemma reachable_unknown_chain st chain :
  reachable st -> ~ In chain networks -> ss_blocks st !! chain = None.
Proof.
  intros Hreach Hout.
  induction Hreach as [now_besu now_fabric now_corda wallet_uuid
                      |st c fuel st' Hreach IH Hrun].
  - cbn [init_session_state ss_blocks].
    rewrite !lookup_insert_ne; [apply lookup_empty|..];
      intros <-; apply Hout; cbn; auto.
  - apply run_call_grows in Hrun as [_ _ [Hsame|Hgrown]].
    + rewrite Hsame. exact IH.
    + destruct Hgrown as (chain0 & blocks0 & _ & _ & _ & _ & b & Hchain0 & _ & _ & ->).
      rewrite lookup_insert_ne; [exact IH|].
      intros <-. rewrite IH in Hchain0. discriminate Hchain0.
Qed.

Lemma reachable_chain_nonempty st chain blocks :
  reachable st -> ss_blocks st !! chain = Some blocks ->
  exists tip, last blocks = Some tip.
Proof.
  intros Hreach Hblocks.
  assert (Hstart : starts_at_genesis chain blocks).
  { apply (chains_invariant starts_at_genesis) with st;
      [| |exact Hreach|exact Hblocks].
    - apply starts_at_genesis_genesis.
    - intros. apply starts_at_genesis_snoc. assumption. }
  destruct Hstart as (first & Hfirst & _).
  destruct (last blocks) as [tip|] eqn:Hlast; [eauto|].
  apply last_None in Hlast. subst blocks. discriminate Hfirst.
Qed.

Lemma networks_dec chain : {In chain networks} + {~ In chain networks}.
Proof. apply in_dec, string_dec. Qed.

(** ** A method called on a missing key *)

Lemma mine_block_unknown_chain chain transactions now fuel st :
  ss_blocks st !! chain = None ->
  mine_block chain transactions now fuel st = (Raises (KeyError chain), st).
Proof.
  intros Hnone. unfold mine_block, bind, chain_blocks. rewrite Hnone. reflexivity.
Qed.

Lemma deploy_unknown_chain name code chain now_address now_deployed uuid_tx now_tx now_mine
    fuel st :
  ss_blocks st !! chain = None ->
  exists contract,
    deploy_smart_contract name code chain now_address now_deployed uuid_tx now_tx now_mine
      fuel st
    = (Raises (KeyError chain),
       with_smart_contracts (ss_smart_contracts st ++ [contract])%list st) /\
    sc_name contract = name /\ sc_blockchain contract = chain.
Proof.
  intros Hnone. eexists. split.
  - unfold deploy_smart_contract, mine_block. run_to_mining Hnone Hnone. reflexivity.
  - cbn. split; reflexivity.
Qed.

Lemma upload_unknown_chain file chain uuid_ipfs uuid_file uuid_tx now_record now_tx now_mine
    fuel st :
  ss_blocks st !! chain = None ->
  exists file_record,
    upload_file_to_blockchain file chain uuid_ipfs uuid_file uuid_tx now_record now_tx
      now_mine fuel st
    = (Raises (KeyError chain), with_files (ss_files st ++ [file_record])%list st) /\
    fr_file_id file_record = uuid_file /\ fr_name file_record = uf_name file /\
    fr_blockchain file_record = chain.
Proof.
  intros Hnone. eexists. split.
  - unfold upload_file_to_blockchain, mine_block. run_to_mining Hnone Hnone. reflexivity.
  - cbn. repeat (split; [reflexivity|]). reflexivity.
Qed.

Lemma bridge_unknown_chain asset_id from_chain to_chain amount uuid_id now_transfer uuid_lock
    now_lock now_mine fuel st :
  ss_blocks st !! from_chain = None ->
  exists transfer,
    bridge_asset asset_id from_chain to_chain amount uuid_id now_transfer uuid_lock now_lock
      now_mine fuel st
    = (Raises (KeyError from_chain),
       with_bridge_transfers (ss_bridge_transfers st ++ [transfer])%list st) /\
    bt_id transfer = uuid_id /\ bt_from_chain transfer = from_chain /\
    bt_to_chain transfer = to_chain /\ bt_status transfer = "Processing".
Proof.
  intros Hnone. eexists. split.
  - unfold bridge_asset, mine_block. run_to_mining Hnone Hnone. reflexivity.
  - cbn. repeat (split; [reflexivity|]). reflexivity.
Qed.

Lemma explorer_unknown_chain uuid_id uuid_to amount now_tx now_mine fuel st :
  ss_blocks st !! ss_current_chain st = None ->
  explorer_mine_click uuid_id uuid_to amount now_tx now_mine fuel st
  = (Raises (KeyError (ss_current_chain st)), st).
Proof.
  intros Hnone. unfold explorer_mine_click, mine_block. run_to_mining Hnone Hnone.
  reflexivity.
Qed.

(** ** Nothing is removed or rewritten *)

Lemma extends_refl st : extends st st.
Proof.
  split; try (exists []; symmetry; apply app_nil_r).
  intros chain blocks Hchain. exists []. rewrite app_nil_r. exact Hchain.
Qed.

Lemma extends_trans st1 st2 st3 : extends st1 st2 -> extends st2 st3 -> extends st1 st3.
Proof.
  intros [(t1 & Ht1) (c1 & Hc1) (f1 & Hf1) (b1 & Hb1) Hk1]
         [(t2 & Ht2) (c2 & Hc2) (f2 & Hf2) (b2 & Hb2) Hk2].
  split.
  - exists (t1 ++ t2)%list. rewrite Ht2, Ht1. symmetry. apply app_assoc.
  - exists (c1 ++ c2)%list. rewrite Hc2, Hc1. symmetry. apply app_assoc.
  - exists (f1 ++ f2)%list. rewrite Hf2, Hf1. symmetry. apply app_assoc.
  - exists (b1 ++ b2)%list. rewrite Hb2, Hb1. symmetry. apply app_assoc.
  - intros chain blocks Hchain.
    destruct (Hk1 chain blocks Hchain) as (m1 & Hm1).
    destruct (Hk2 chain _ Hm1) as (m2 & Hm2).
    exists (m1 ++ m2)%list. rewrite Hm2. f_equal. symmetry. apply app_assoc.
Qed.

Lemma appended_extends chain blocks b st :
  ss_blocks st !! chain = Some blocks -> extends st (appended chain blocks b st).
Proof.
  intros Hchain. split; try (exists []; symmetry; apply app_nil_r).
  intros chain0 blocks0 Hchain0. cbn [appended with_blocks ss_blocks].
  destruct (decide (chain = chain0)) as [<-|Hne].
  - rewrite lookup_insert_eq. rewrite Hchain in Hchain0. injection Hchain0 as <-.
    exists [b]. reflexivity.
  - rewrite lookup_insert_ne by exact Hne. exists []. rewrite app_nil_r. exact Hchain0.
Qed.

Lemma mine_block_extends chain transactions now fuel st out st' :
  mine_block chain transactions now fuel st = (out, st') -> extends st st'.
Proof.
  intros Hrun. destruct out as [b|e|].
  - apply mine_block_returns in Hrun as (blocks & prev & Hchain & _ & _ & ->).
    apply appended_extends, Hchain.
  - apply mine_block_otherwise in Hrun as ->; [apply extends_refl|discriminate].
  - apply mine_block_otherwise in Hrun as ->; [apply extends_refl|discriminate].
Qed.

(** The writes to the lists that precede the mining only append. *)
Ltac history_of_mining Hrun :=
  run_calls_in Hrun;
  match type of Hrun with
  | context [ss_blocks ?st !! ?chain] =>
      let Hchain := fresh "Hchain" in
      destruct (ss_blocks st !! chain) as [?blocks|] eqn:Hchain;
      [ match type of Hrun with
        | context [mine_block ?c ?t ?n ?f ?s] =>
            let outm := fresh "outm" in
            let stm := fresh "stm" in
            let Hmine := fresh "Hmine" in
            destruct (mine_block c t n f s) as [outm stm] eqn:Hmine;
            apply mine_block_extends in Hmine;
            first [ destruct outm; injection Hrun as _ <- | injection Hrun as _ <- ];
            (eapply extends_trans; [|exact Hmine])
        end
      | injection Hrun as _ <- ]
  end;
  (split;
   [ .. | let c := fresh "chain" in let bs := fresh "blocks" in let H := fresh "H" in
          intros c bs H; exists []; rewrite app_nil_r; exact H ]);
  first [ exists []; symmetry; apply app_nil_r | eexists; reflexivity ].

Lemma deploy_extends name code chain now_address now_deployed uuid_tx now_tx now_mine fuel st
    out st' :
  deploy_smart_contract name code chain now_address now_deployed uuid_tx now_tx now_mine fuel st
    = (out, st') ->
  extends st st'.
Proof. unfold deploy_smart_contract. intros Hrun. history_of_mining Hrun. Qed.

Lemma upload_extends file chain uuid_ipfs uuid_file uuid_tx now_record now_tx now_mine fuel st
    out st' :
  upload_file_to_blockchain file chain uuid_ipfs uuid_file uuid_tx now_record now_tx now_mine
    fuel st = (out, st') ->
  extends st st'.
Proof. unfold upload_file_to_blockchain. intros Hrun. history_of_mining Hrun. Qed.

Lemma bridge_extends asset_id from_chain to_chain amount uuid_id now_transfer uuid_lock
    now_lock now_mine fuel st out st' :
  bridge_asset asset_id from_chain to_chain amount uuid_id now_transfer uuid_lock now_lock
    now_mine fuel st = (out, st') ->
  extends st st'.
Proof. unfold bridge_asset. intros Hrun. history_of_mining Hrun. Qed.

Lemma explorer_mine_click_extends uuid_id uuid_to amount now_tx now_mine fuel st out st' :
  explorer_mine_click uuid_id uuid_to amount now_tx now_mine fuel st = (out, st') ->
  extends st st'.
Proof. unfold explorer_mine_click. intros Hrun. history_of_mining Hrun. Qed.

Lemma settle_ended {A} (r : outcome A * SessionState) st' :
  settle r = Some st' -> r.2 = st' /\ r.1 <> Spins.
Proof.
  destruct r as [[a|e|] st]; cbn; intros Hrun; [| |discriminate Hrun];
    injection Hrun as <-; (split; [reflexivity|discriminate]).
Qed.

Lemma run_call_extends c fuel st st' : run_call c fuel st = Some st' -> extends st st'.
Proof.
  destruct c; cbn [run_call]; intros Hrun.
  - destruct (mine_block _ _ _ _ _) as [out stm] eqn:Hcall.
    apply settle_ended in Hrun as [<- _]. apply mine_block_extends in Hcall. exact Hcall.
  - destruct (deploy_smart_contract _ _ _ _ _ _ _ _ _ _) as [out stm] eqn:Hcall.
    apply settle_ended in Hrun as [<- _]. apply deploy_extends in Hcall. exact Hcall.
  - destruct (upload_file_to_blockchain _ _ _ _ _ _ _ _ _ _) as [out stm] eqn:Hcall.
    apply settle_ended in Hrun as [<- _]. apply upload_extends in Hcall. exact Hcall.
  - destruct (bridge_asset _ _ _ _ _ _ _ _ _ _ _) as [out stm] eqn:Hcall.
    apply settle_ended in Hrun as [<- _]. apply bridge_extends in Hcall. exact Hcall.
  - destruct (explorer_mine_click _ _ _ _ _ _ _) as [out stm] eqn:Hcall.
    apply settle_ended in Hrun as [<- _]. apply explorer_mine_click_extends in Hcall.
    exact Hcall.
  - injection Hrun as <-. split; try (exists []; symmetry; apply app_nil_r).
    intros chain blocks Hchain. exists []. rewrite app_nil_r. exact Hchain.
  - rewrite render_bridge_rows_settles in Hrun. injection Hrun as <-. apply extends_refl.
Qed.

Lemma run_calls_extend calls : forall st st',
  run_calls calls st = Some st' -> extends st st'.
Proof.
  induction calls as [|[c fuel] rest IH]; intros st st' Hrun; cbn [run_calls] in Hrun.
  - injection Hrun as <-. apply extends_refl.
  - destruct (run_call c fuel st) as [mid|] eqn:Hcall; [|discriminate Hrun].
    eapply extends_trans; [eapply run_call_extends, Hcall|apply IH, Hrun].
Qed.

(** ** Transactions are recorded together with their block *)

Ltac record_of_mining Hchain Hlast :=
  run_to_mining Hchain Hlast;
  let Hrun := fresh "Hrun" in
  let Hout := fresh "Hout" in
  destruct (mine_loop _ _ _ _ _ _) as [[?nonce ?hash_value]|];
  intros Hrun Hout;
  [ injection Hrun as <- <-;
    match goal with
    | |- context [with_transactions (_ ++ [?t])%list] => exists t
    end;
    split;
    [ eexists _, _; cbn [tx_blockchain tx_block_number];
      split; [exact Hchain|]; repeat (split; [reflexivity|]); reflexivity
    | cbn; repeat (split; [reflexivity|]); reflexivity ]
  | injection Hrun as <- _; exfalso; apply Hout; reflexivity ].

Lemma deploy_records name code chain now_address now_deployed uuid_tx now_tx now_mine fuel st
    blocks previous_block out st' :
  ss_blocks st !! chain = Some blocks -> last blocks = Some previous_block ->
  deploy_smart_contract name code chain now_address now_deployed uuid_tx now_tx now_mine
    fuel st = (out, st') ->
  out <> Spins ->
  exists tx,
    recorded_and_mined tx st st' /\
    tx_blockchain tx = chain /\ tx_from_address tx = w_address (ss_wallet st) /\
    tx_status tx = "Success" /\ tx_type tx = "Contract Deployment" /\
    tx_gas_used tx = 2100000.
Proof.
  intros Hchain Hlast. unfold deploy_smart_contract, mine_block.
  record_of_mining Hchain Hlast.
Qed.

Lemma upload_records file chain uuid_ipfs uuid_file uuid_tx now_record now_tx now_mine fuel st
    blocks previous_block out st' :
  ss_blocks st !! chain = Some blocks -> last blocks = Some previous_block ->
  upload_file_to_blockchain file chain uuid_ipfs uuid_file uuid_tx now_record now_tx now_mine
    fuel st = (out, st') ->
  out <> Spins ->
  exists tx,
    recorded_and_mined tx st st' /\
    tx_blockchain tx = chain /\ tx_from_address tx = w_address (ss_wallet st) /\
    tx_status tx = "Success" /\ tx_type tx = "File Upload" /\ tx_gas_used tx = 50000.
Proof.
  intros Hchain Hlast. unfold upload_file_to_blockchain, mine_block.
  record_of_mining Hchain Hlast.
Qed.

Lemma bridge_records asset_id from_chain to_chain amount uuid_id now_transfer uuid_lock
    now_lock now_mine fuel st blocks previous_block out st' :
  ss_blocks st !! from_chain = Some blocks -> last blocks = Some previous_block ->
  bridge_asset asset_id from_chain to_chain amount uuid_id now_transfer uuid_lock now_lock
    now_mine fuel st = (out, st') ->
  out <> Spins ->
  exists tx,
    recorded_and_mined tx st st' /\
    tx_blockchain tx = from_chain /\ tx_from_address tx = w_address (ss_wallet st) /\
    tx_status tx = "Success" /\ tx_type tx = "Bridge Lock" /\ tx_gas_used tx = 75000.
Proof.
  intros Hchain Hlast. unfold bridge_asset, mine_block.
  record_of_mining Hchain Hlast.
Qed.

Lemma explorer_records uuid_id uuid_to amount now_tx now_mine fuel st blocks previous_block
    out st' :
  ss_blocks st !! ss_current_chain st = Some blocks -> last blocks = Some previous_block ->
  explorer_mine_click uuid_id uuid_to amount now_tx now_mine fuel st = (out, st') ->
  out <> Spins ->
  exists tx,
    recorded_and_mined tx st st' /\
    tx_blockchain tx = ss_current_chain st /\
    tx_from_address tx = w_address (ss_wallet st) /\
    tx_status tx = "Success" /\ tx_type tx = "Transfer" /\ tx_gas_used tx = 21000.
Proof.
  intros Hchain Hlast. unfold explorer_mine_click, mine_block.
  record_of_mining Hchain Hlast.
Qed.

Lemma mine_block_transactions chain transactions now fuel st out st' :
  mine_block chain transactions now fuel st = (out, st') ->
  ss_transactions st' = ss_transactions st.
Proof.
  intros Hrun. destruct out as [b|e|].
  - apply mine_block_returns in Hrun as (blocks & prev & _ & _ & _ & ->). reflexivity.
  - apply mine_block_otherwise in Hrun as ->; [reflexivity|discriminate].
  - apply mine_block_otherwise in Hrun as ->; [reflexivity|discriminate].
Qed.

(** A call that ends either leaves the transactions as they were or
    records one, mined. *)
Lemma run_call_ledger c fuel st st' :
  reachable st -> run_call c fuel st = Some st' ->
  ss_transactions st' = ss_transactions st \/
  exists tx,
    recorded_and_mined tx st st' /\
    tx_from_address tx = w_address (ss_wallet st) /\ tx_status tx = "Success".
Proof.
  intros Hreach. destruct c; cbn [run_call]; intros Hrun.
  - destruct (mine_block _ _ _ _ _) as [out stm] eqn:Hcall.
    apply settle_ended in Hrun as [<- _]. left.
    apply mine_block_transactions in Hcall. exact Hcall.
  - destruct (ss_blocks st !! chain) as [blocks|] eqn:Hchain.
    + destruct (reachable_chain_nonempty st chain blocks Hreach Hchain) as (tip & Hlast).
      destruct (deploy_smart_contract _ _ _ _ _ _ _ _ _ _) as [out stm] eqn:Hcall.
      apply settle_ended in Hrun as [<- Hout]. right.
      destruct (deploy_records _ _ _ _ _ _ _ _ _ _ _ _ _ _ Hchain Hlast Hcall Hout)
        as (tx & Hrec & _ & Hfrom & Hstatus & _).
      exists tx. auto.
    + destruct (deploy_unknown_chain name code chain now_address now_deployed uuid_tx now_tx
                  now_mine fuel st Hchain) as (contract & Hcall & _).
      rewrite Hcall in Hrun. injection Hrun as <-. left. reflexivity.
  - destruct (ss_blocks st !! chain) as [blocks|] eqn:Hchain.
    + destruct (reachable_chain_nonempty st chain blocks Hreach Hchain) as (tip & Hlast).
      destruct (upload_file_to_blockchain _ _ _ _ _ _ _ _ _ _) as [out stm] eqn:Hcall.
      apply settle_ended in Hrun as [<- Hout]. right.
      destruct (upload_records _ _ _ _ _ _ _ _ _ _ _ _ _ _ Hchain Hlast Hcall Hout)
        as (tx & Hrec & _ & Hfrom & Hstatus & _).
      exists tx. auto.
    + destruct (upload_unknown_chain file chain uuid_ipfs uuid_file uuid_tx now_record now_tx
                  now_mine fuel st Hchain) as (file_record & Hcall & _).
      rewrite Hcall in Hrun. injection Hrun as <-. left. reflexivity.
  - destruct (ss_blocks st !! from_chain) as [blocks|] eqn:Hchain.
    + destruct (reachable_chain_nonempty st from_chain blocks Hreach Hchain) as (tip & Hlast).
      destruct (bridge_asset _ _ _ _ _ _ _ _ _ _ _) as [out stm] eqn:Hcall.
      apply settle_ended in Hrun as [<- Hout]. right.
      destruct (bridge_records _ _ _ _ _ _ _ _ _ _ _ _ _ _ _ Hchain Hlast Hcall Hout)
        as (tx & Hrec & _ & Hfrom & Hstatus & _).
      exists tx. auto.
    + destruct (bridge_unknown_chain asset_id from_chain to_chain amount uuid_id now_transfer
                  uuid_lock now_lock now_mine fuel st Hchain) as (transfer & Hcall & _).
      rewrite Hcall in Hrun. injection Hrun as <-. left. reflexivity.
  - destruct (ss_blocks st !! ss_current_chain st) as [blocks|] eqn:Hchain.
    + destruct (reachable_chain_nonempty st _ blocks Hreach Hchain) as (tip & Hlast).
      destruct (explorer_mine_click _ _ _ _ _ _ _) as [out stm] eqn:Hcall.
      apply settle_ended in Hrun as [<- Hout]. right.
      destruct (explorer_records _ _ _ _ _ _ _ _ _ _ _ Hchain Hlast Hcall Hout)
        as (tx & Hrec & _ & Hfrom & Hstatus & _).
      exists tx. auto.
    + rewrite (explorer_unknown_chain uuid_id uuid_to amount now_tx now_mine fuel st Hchain)
        in Hrun.
      injection Hrun as <-. left. reflexivity.
  - injection Hrun as <-. left. reflexivity.
  - rewrite render_bridge_rows_settles in Hrun. injection Hrun as <-. left. reflexivity.
Qed.

(** ** The ledger of recorded transactions *)

Lemma reachable_known_chain st chain blocks :
  reachable st -> ss_blocks st !! chain = Some blocks -> In chain networks.
Proof.
  intros Hreach Hchain. destruct (networks_dec chain) as [Hin|Hout]; [exact Hin|].
  rewrite (reachable_unknown_chain st chain Hreach Hout) in Hchain. discriminate Hchain.
Qed.

Lemma ledger_invariant st :
  reachable st ->
  forall tx, In tx (ss_transactions st) ->
    mined_where_recorded st tx /\ 0 < tx_block_number tx /\
    tx_from_address tx = w_address (ss_wallet st) /\ tx_status tx = "Success".
Proof.
  induction 1 as [now_besu now_fabric now_corda wallet_uuid|st c fuel st' Hreach IH Hrun];
    intros tx Hin.
  - destruct Hin.
  - pose proof (run_call_extends _ _ _ _ Hrun) as Hext.
    pose proof (run_call_grows _ _ _ _ Hrun) as [Hwallet _ _].
    assert (Hold : forall tx0, In tx0 (ss_transactions st) ->
              mined_where_recorded st' tx0 /\ 0 < tx_block_number tx0 /\
              tx_from_address tx0 = w_address (ss_wallet st') /\ tx_status tx0 = "Success").
    { intros tx0 Hin0.
      destruct (IH tx0 Hin0) as ((blocks & b & Hchain & Hb & Hidx & Hheld) & Hpos & Hfrom &
                                 Hstatus).
      split; [|rewrite Hwallet; auto].
      destruct (extends_blocks _ _ Hext _ _ Hchain) as (more & Hmore).
      exists (blocks ++ more)%list, b. split; [exact Hmore|].
      split; [apply lookup_app_l_Some, Hb|auto]. }
    destruct (run_call_ledger _ _ _ _ Hreach Hrun) as [Hsame|(tx0 & Hrec & Hfrom & Hstatus)].
    + rewrite Hsame in Hin. apply Hold, Hin.
    + destruct Hrec as (blocks & b & Hchain & Hnumber & Htxs & Hblocks & Hidx & Hheld).
      rewrite Htxs in Hin. apply in_app_or in Hin as [Hin|[<-|[]]]; [apply Hold, Hin|].
      destruct (reachable_chain_nonempty st _ blocks Hreach Hchain) as (tip & Hlast).
      split; [|split; [|rewrite Hwallet; auto]].
      * exists (blocks ++ [b])%list, b.
        split; [rewrite Hblocks; apply lookup_insert_eq|].
        split; [|auto]. rewrite Hnumber, Nat2Z.id. apply list_lookup_middle. reflexivity.
      * rewrite Hnumber. destruct blocks; [discriminate Hlast|]. cbn [length]. lia.
Qed.

Lemma volumes_partition txs :
  (forall tx, In tx txs -> In (tx_blockchain tx) networks) ->
  fold_right Z.add 0
    (map (fun chain => Z.of_nat (length (chain_transactions chain txs))) networks)
  = Z.of_nat (length txs).
Proof.
  unfold networks. cbn [map fold_right].
  induction txs as [|tx txs IH]; intros Hall; [reflexivity|].
  assert (Hrest : forall tx0, In tx0 txs -> In (tx_blockchain tx0) ["besu"; "fabric"; "corda"])
    by (intros tx0 Hin0; apply Hall; right; exact Hin0).
  specialize (IH Hrest).
  unfold chain_transactions in *. cbn [List.filter].
  destruct (Hall tx (or_introl eq_refl)) as [<-|[<-|[<-|[]]]]; simpl String.eqb;
    cbn [length]; lia.
Qed.

Lemma reachable_miners st :
  reachable st ->
  forall chain blocks i b,
    ss_blocks st !! chain = Some blocks -> blocks !! S i = Some b ->
    blk_miner b = substring 0 10 (w_address (ss_wallet st)) ++ "...".
Proof.
  induction 1 as [now_besu now_fabric now_corda wallet_uuid|st c fuel st' Hreach IH Hrun];
    intros chain blocks i b Hchain Hb.
  - cbn [init_session_state ss_blocks] in Hchain.
    apply lookup_insert_Some in Hchain as [[_ <-]|[_ Hchain]]; [discriminate Hb|].
    apply lookup_insert_Some in Hchain as [[_ <-]|[_ Hchain]]; [discriminate Hb|].
    apply lookup_insert_Some in Hchain as [[_ <-]|[_ Hchain]]; [discriminate Hb|].
    rewrite lookup_empty in Hchain. discriminate Hchain.
  - apply run_call_grows in Hrun as [Hwallet _ [Hsame|Hgrown]]; rewrite Hwallet.
    + rewrite Hsame in Hchain. eapply IH; eassumption.
    + destruct Hgrown as (chain0 & blocks0 & prev & txs & now & fuel0 & b0 & Hchain0 & _ &
                          Hmined & Hblocks).
      rewrite Hblocks in Hchain.
      apply lookup_insert_Some in Hchain as [[_ <-]|[_ Hchain]];
        [|eapply IH; eassumption].
      apply lookup_snoc_Some in Hb as [[_ Hb]|[_ <-]]; [eapply IH; eassumption|].
      apply mined_fields in Hmined as (_ & _ & _ & _ & Hminer & _). exact Hminer.
Qed.

Lemma volume_below_blocks st :
  reachable st ->
  forall chain blocks, ss_blocks st !! chain = Some blocks ->
    (length (chain_transactions chain (ss_transactions st)) < length blocks)%nat.
Proof.
  induction 1 as [now_besu now_fabric now_corda wallet_uuid|st c fuel st' Hreach IH Hrun];
    intros chain blocks' Hchain'.
  - cbn [init_session_state ss_blocks ss_transactions chain_transactions List.filter length]
      in *.
    apply lookup_insert_Some in Hchain' as [[_ <-]|[_ Hchain']]; [cbn; lia|].
    apply lookup_insert_Some in Hchain' as [[_ <-]|[_ Hchain']]; [cbn; lia|].
    apply lookup_insert_Some in Hchain' as [[_ <-]|[_ Hchain']]; [cbn; lia|].
    rewrite lookup_empty in Hchain'. discriminate Hchain'.
  - assert (Hreach' : reachable st') by (eapply reach_call; eassumption).
    pose proof (reachable_known_chain st' chain blocks' Hreach' Hchain') as Hin.
    destruct (reachable_chain_present st chain Hreach Hin) as (blocks & _ & Hchain & _).
    specialize (IH chain blocks Hchain).
    destruct (run_call_ledger _ _ _ _ Hreach Hrun) as [Hsame|(tx & Hrec & _)].
    + rewrite Hsame.
      destruct (extends_blocks _ _ (run_call_extends _ _ _ _ Hrun) _ _ Hchain)
        as (more & Hmore).
      rewrite Hmore in Hchain'. injection Hchain' as <-. rewrite length_app. lia.
    + destruct Hrec as (blocks0 & b & Hchain0 & _ & Htxs & Hblocks & _).
      rewrite Htxs. unfold chain_transactions in *.
      rewrite List.filter_app, length_app. cbn [List.filter].
      rewrite Hblocks in Hchain'.
      destruct (String.eqb_spec (tx_blockchain tx) chain) as [Heq|Hne].
      * rewrite Heq in Hchain', Hchain0. rewrite lookup_insert_eq in Hchain'.
        injection Hchain' as <-. rewrite Hchain in Hchain0. injection Hchain0 as <-.
        rewrite length_app. cbn [length]. lia.
      * rewrite lookup_insert_ne in Hchain' by exact Hne.
        rewrite Hchain in Hchain'. injection Hchain' as <-. cbn [length]. lia.
Qed.

Lemma reachable_chains st :
  reachable st ->
  exists besu fabric corda,
    ss_blocks st = <["besu" := besu]> (<["fabric" := fabric]> (<["corda" := corda]> ∅)).
Proof.
  intros Hreach.
  destruct (reachable_chain_present st "besu" Hreach) as (besu & _ & Hbesu & _);
    [cbn; auto|].
  destruct (reachable_chain_present st "fabric" Hreach) as (fabric & _ & Hfabric & _);
    [cbn; auto|].
  destruct (reachable_chain_present st "corda" Hreach) as (corda & _ & Hcorda & _);
    [cbn; auto|].
  exists besu, fabric, corda. apply map_eq. intros chain.
  destruct (decide (chain = "besu")) as [->|Hb];
    [rewrite lookup_insert_eq; exact Hbesu|].
  rewrite lookup_insert_ne by congruence.
  destruct (decide (chain = "fabric")) as [->|Hf];
    [rewrite lookup_insert_eq; exact Hfabric|].
  rewrite lookup_insert_ne by congruence.
  destruct (decide (chain = "corda")) as [->|Hc];
    [rewrite lookup_insert_eq; exact Hcorda|].
  rewrite lookup_insert_ne by congruence. rewrite lookup_empty.
  apply reachable_unknown_chain; [exact Hreach|].
  intros [H|[H|[H|[]]]]; congruence.
Qed.

Lemma total_blocks_of besu fabric corda :
  map_fold (fun (_ : string) (blocks : list Block) total => total + Z.of_nat (length blocks)) 0
    (<["besu" := besu]> (<["fabric" := fabric]> (<["corda" := corda]> ∅)))
  = Z.of_nat (length besu) + (Z.of_nat (length fabric) + (Z.of_nat (length corda) + 0)).
Proof.
  rewrite map_fold_insert_L; [|intros; lia|].
  - rewrite map_fold_insert_L; [|intros; lia|].
    + rewrite map_fold_insert_L; [|intros; lia|apply lookup_empty].
      rewrite map_fold_empty. lia.
    + rewrite lookup_insert_ne by discriminate. apply lookup_empty.
  - rewrite !lookup_insert_ne by discriminate. apply lookup_empty.
Qed.

(** ** What the pages read *)

Lemma reachable_indices st chain blocks i b :
  reachable st -> ss_blocks st !! chain = Some blocks -> blocks !! i = Some b ->
  blk_index b = Z.of_nat i.
Proof.
  intros Hreach Hchain Hb.
  assert (Hlinked : chain_linked blocks).
  { apply (chains_invariant (fun _ blocks => chain_linked blocks)) with st chain;
      [| |exact Hreach|exact Hchain].
    - apply chain_linked_genesis.
    - intros. eapply chain_linked_snoc; eassumption. }
  destruct Hlinked as [Hfirst Hlink]. destruct i as [|i].
  - apply Hfirst, Hb.
  - destruct (blocks !! i) as [p|] eqn:Hp.
    + apply (Hlink i b p Hb Hp).
    + apply lookup_ge_None in Hp. apply lookup_lt_Some in Hb. lia.
Qed.

Lemma network_entry_known chain st :
  In chain networks -> network_entry chain st = (Returns tt, st).
Proof. intros [<-|[<-|[<-|[]]]]; reflexivity. Qed.

Lemma explorer_runs uuid_id uuid_to amount now_tx now_mine st blocks previous_block :
  ss_blocks st !! ss_current_chain st = Some blocks -> last blocks = Some previous_block ->
  exists tx,
    (forall fuel,
       explorer_mine_click uuid_id uuid_to amount now_tx now_mine fuel st =
       let mid := with_transactions (ss_transactions st ++ [tx])%list st in
       match mine_loop fuel (Z.of_nat (length blocks)) (isoformat now_mine) [asdict tx]
               (blk_hash previous_block) 0 with
       | Some (nonce, hash_value) =>
           let b :=
             {| blk_index := Z.of_nat (length blocks);
                blk_timestamp := isoformat now_mine;
                blk_transactions := [asdict tx];
                blk_previous_hash := blk_hash previous_block;
                blk_hash := hash_value;
                blk_nonce := nonce;
                blk_miner := substring 0 10 (w_address (ss_wallet st)) ++ "..." |} in
           (Returns b, appended (ss_current_chain st) blocks b mid)
       | None => (Spins, mid)
       end) /\
    tx_type tx = "Transfer" /\ tx_gas_used tx = 21000 /\
    tx_blockchain tx = ss_current_chain st /\
    tx_block_number tx = Z.of_nat (length blocks) /\
    tx_data tx = [("amount", PyInt amount); ("token", PyStr "KZT")] /\
    tx_from_address tx = w_address (ss_wallet st).
Proof.
  intros Hchain Hlast. refine (ex_intro _ ?[tx] _). split.
  - intros fuel. unfold explorer_mine_click, mine_block. run_to_mining Hchain Hlast.
    match goal with
    | |- context [mine_loop _ _ _ [asdict ?t] _ _] =>
        assert_fails (is_evar t); instantiate (tx := t)
    end.
    destruct (mine_loop _ _ _ _ _ _) as [[nonce hash_value]|]; reflexivity.
  - cbn. repeat (split; [reflexivity|]). reflexivity.
Qed.

Lemma rows_are_processing transfers : forall draws,
  Forall fresh_transfer transfers -> Forall (fun r => 1 <= r <= 3) draws ->
  Forall (fun row : Z * string => 1 <= row.1 <= 3 /\ row.2 = "Processing")
    (map (fun tr : BridgeTransfer * Z =>
            (shown_confirmations tr.1 tr.2, shown_label tr.1 tr.2))
         (combine transfers draws)).
Proof.
  induction transfers as [|t transfers IH]; intros draws Hfresh Hdraws; [constructor|].
  destruct draws as [|r draws]; [constructor|].
  apply Forall_cons_1 in Hfresh as [(Hstatus & Hconf & Hrequired) Hfresh].
  apply Forall_cons_1 in Hdraws as [Hr Hdraws].
  cbn [combine map]. constructor; [|apply IH; assumption].
  cbn [fst snd].
  assert (Hshown : shown_confirmations t r = r)
    by (unfold shown_confirmations; rewrite Hconf, Hrequired; lia).
  split; [rewrite Hshown; exact Hr|].
  unfold shown_label. rewrite Hshown, Hrequired.
  destruct (Z.leb_spec 10 r) as [Hle|_]; [lia|reflexivity].
Qed.

Lemma network_entry_unknown chain st :
  ~ In chain networks -> network_entry chain st = (Raises (KeyError chain), st).
Proof.
  intros Hout. unfold network_entry, network_type.
  repeat match goal with
         | |- context [String.eqb ?a ?b] =>
             destruct (String.eqb_spec a b) as [Heq|_];
             [exfalso; apply Hout; rewrite Heq; cbn; tauto|]
         end.
  reflexivity.
Qed.

Lemma bridge_rows_shown transfers : forall draws st,
  (length transfers <= length draws)%nat ->
  Forall (fun t => In (bt_from_chain t) networks /\ In (bt_to_chain t) networks) transfers ->
  bridge_rows transfers draws st
  = (Returns (map (fun tr : BridgeTransfer * Z =>
                     (shown_confirmations tr.1 tr.2, shown_label tr.1 tr.2))
                  (combine transfers draws)), st).
Proof.
  induction transfers as [|transfer rest IH]; intros draws st Hlong Hnamed; [reflexivity|].
  apply Forall_cons_1 in Hnamed as [[Hfrom Hto] Hnamed].
  destruct draws as [|r later]; cbn [length] in Hlong; [lia|].
  cbn [bridge_rows combine map]. unfold bind.
  rewrite (network_entry_known _ st Hfrom), (network_entry_known _ st Hto).
  rewrite IH by (lia || exact Hnamed). reflexivity.
Qed.

Lemma bridge_rows_refused transfers : forall draws st transfer,
  (length transfers <= length draws)%nat ->
  In transfer transfers ->
  ~ (In (bt_from_chain transfer) networks /\ In (bt_to_chain transfer) networks) ->
  exists key,
    bridge_rows transfers draws st = (Raises (KeyError key), st) /\ ~ In key networks.
Proof.
  induction transfers as [|first rest IH]; intros draws st transfer Hlong Hin Hbad;
    [destruct Hin|].
  destruct draws as [|r later]; cbn [length] in Hlong; [lia|].
  cbn [bridge_rows]. unfold bind.
  destruct (networks_dec (bt_from_chain first)) as [Hfrom|Hfrom];
    [|rewrite (network_entry_unknown _ st Hfrom); eauto].
  rewrite (network_entry_known _ st Hfrom).
  destruct (networks_dec (bt_to_chain first)) as [Hto|Hto];
    [|rewrite (network_entry_unknown _ st Hto); eauto].
  rewrite (network_entry_known _ st Hto).
  destruct Hin as [->|Hin]; [exfalso; apply Hbad; split; assumption|].
  destruct (IH later st transfer) as (key & -> & Hkey); [lia|exact Hin|exact Hbad|].
  exists key. split; [reflexivity|exact Hkey].
Qed.

Lemma length_last_three {A} (l : list A) : length (last_three l) = Nat.min 3 (length l).
Proof. unfold last_three. rewrite length_drop. lia. Qed.

Lemma for_each_returns {A B} (f : A -> M B) (g : A -> B) st : forall l,
  (forall a, In a l -> f a st = (Returns (g a), st)) ->
  for_each f l st = (Returns (map g l), st).
Proof.
  induction l as [|a l IH]; intros Hall; [reflexivity|].
  cbn [for_each map]. unfold bind at 1. rewrite (Hall a (or_introl eq_refl)).
  unfold bind at 1. rewrite IH by (intros a0 Hin; apply Hall; right; exact Hin).
  reflexivity.
Qed.

Lemma for_each_raises {A B} (f : A -> M B) st : forall l bad,
  (forall a, In a l ->
     (exists b, f a st = (Returns b, st)) \/ (exists e, f a st = (Raises e, st))) ->
  In bad l -> (exists e, f bad st = (Raises e, st)) ->
  exists e, for_each f l st = (Raises e, st).
Proof.
  induction l as [|a l IH]; intros bad Hall Hin Hbad; [destruct Hin|].
  cbn [for_each]. unfold bind at 1.
  destruct (Hall a (or_introl eq_refl)) as [(b & Hret)|(e & ->)]; [|eauto].
  rewrite Hret. destruct Hin as [->|Hin].
  - destruct Hbad as (e & Hbad). rewrite Hbad in Hret. discriminate Hret.
  - unfold bind at 1.
    destruct (IH bad) as (e & ->); [|exact Hin|exact Hbad|eauto].
    intros a0 Hin0. apply Hall. right. exact Hin0.
Qed.

Lemma slice_10_ends hashable_slices v st :
  (sliceable v = true /\ slice_10 hashable_slices v st = (Returns tt, st)) \/
  (sliceable v = false /\ exists e, slice_10 hashable_slices v st = (Raises e, st)).
Proof. destruct v; cbn; eauto. Qed.

Lemma transaction_card_ends hashable_slices tx st :
  (card_shows tx = true /\ transaction_card hashable_slices tx st = (Returns tt, st)) \/
  (card_shows tx = false /\ exists e, transaction_card hashable_slices tx st = (Raises e, st)).
Proof.
  destruct tx as [s|z|shown|items|items]; try (right; split; [reflexivity|eexists; reflexivity]).
  cbn [card_shows transaction_card]. unfold bind.
  destruct (slice_10_ends hashable_slices (dict_get items "from_address" (PyStr "")) st)
    as [[-> ->]|[-> (e & ->)]]; [|right; eauto].
  destruct (slice_10_ends hashable_slices (dict_get items "to_address" (PyStr "")) st)
    as [[-> ->]|[-> (e & ->)]]; [left|right]; eauto.
Qed.

Lemma recorded_card_shows tx : card_shows (asdict tx) = true.
Proof. reflexivity. Qed.

(** The expander of one block. *)
Lemma block_expander_ends hashable_slices block st :
  (forallb card_shows (blk_transactions block) = true /\
   (for_each (transaction_card hashable_slices) (blk_transactions block) ;; ret block) st
   = (Returns block, st)) \/
  (forallb card_shows (blk_transactions block) = false /\
   exists e,
     (for_each (transaction_card hashable_slices) (blk_transactions block) ;; ret block) st
     = (Raises e, st)).
Proof.
  destruct (forallb card_shows (blk_transactions block)) eqn:Hall; [left|right];
    (split; [reflexivity|]); unfold bind.
  - rewrite (for_each_returns _ (fun _ => tt)); [reflexivity|].
    intros tx Hin. rewrite forallb_forall in Hall.
    destruct (transaction_card_ends hashable_slices tx st) as [[_ ->]|[Hno _]];
      [reflexivity|].
    rewrite (Hall tx Hin) in Hno. discriminate Hno.
  - assert (Hbad : exists tx, In tx (blk_transactions block) /\ card_shows tx = false).
    { induction (blk_transactions block) as [|tx txs IH]; [discriminate Hall|].
      cbn [forallb] in Hall. destruct (card_shows tx) eqn:Htx.
      - destruct (IH Hall) as (bad & Hin & Hbad). exists bad. split; [right|]; assumption.
      - exists tx. split; [left; reflexivity|exact Htx]. }
    destruct Hbad as (bad & Hin & Hbad).
    destruct (for_each_raises (transaction_card hashable_slices) st
                (blk_transactions block) bad) as (e & ->); [|exact Hin| |eauto].
    + intros tx _.
      destruct (transaction_card_ends hashable_slices tx st) as [[_ ->]|[_ (e & ->)]]; eauto.
    + destruct (transaction_card_ends hashable_slices bad st) as [[Hyes _]|[_ Hraises]];
        [rewrite Hbad in Hyes; discriminate Hyes|exact Hraises].
Qed.

(** ** Slices of digests *)

Lemma substring_0_append_l n : forall a b,
  (n <= String.length a)%nat -> substring 0 n (a ++ b) = substring 0 n a.
Proof.
  induction n as [|n IH]; intros a b Hle.
  - destruct a, b; reflexivity.
  - destruct a as [|c a]; cbn [String.length] in Hle; [lia|].
    change (String c a ++ b) with (String c (a ++ b)).
    cbn [substring]. rewrite IH by lia. reflexivity.
Qed.

Lemma substring_0_append_r a : forall n b,
  (String.length a <= n)%nat ->
  substring 0 n (a ++ b) = a ++ substring 0 (n - String.length a) b.
Proof.
  induction a as [|c a IH]; intros n b Hle.
  - cbn [String.length]. rewrite Nat.sub_0_r. reflexivity.
  - cbn [String.length] in *. destruct n as [|n]; [lia|].
    change (String c a ++ b) with (String c (a ++ b)).
    change (String c a ++ substring 0 (S n - S (String.length a)) b)
      with (String c (a ++ substring 0 (S n - S (String.length a)) b)).
    cbn [substring]. rewrite IH by lia. reflexivity.
Qed.

Lemma bytecode_shape h :
  String.length h = 64%nat ->
  substring 0 100 ("0x" ++ str_repeat 10 h) = "0x" ++ h ++ substring 0 34 h.
Proof.
  intros Hlen. cbn [str_repeat].
  rewrite (substring_0_append_r "0x") by (cbn [String.length]; lia).
  cbn [String.length Nat.sub].
  rewrite (substring_0_append_r h) by lia. rewrite Hlen. cbn [Nat.sub].
  rewrite substring_0_append_l by lia. reflexivity.
Qed.

Lemma hex_digit_is_hex x : is_hex (Sha256.hex_digit x) = true.
Proof.
  unfold Sha256.hex_digit.
  destruct (Z.land x 15) as [|p|p]; [reflexivity| |reflexivity].
  do 4 (try destruct p as [p|p|]); reflexivity.
Qed.

Lemma all_hex_hex_word x tail : all_hex (Sha256.hex_word x tail) = all_hex tail.
Proof.
  unfold Sha256.hex_word, all_hex. cbn [list_ascii_of_string forallb].
  rewrite !hex_digit_is_hex. reflexivity.
Qed.

Lemma all_hex_calculate_hash data : all_hex (calculate_hash data) = true.
Proof.
  unfold calculate_hash, Sha256.hexdigest, Sha256.hex_regs.
  rewrite !all_hex_hex_word. reflexivity.
Qed.

Lemma all_hex_substring_0 n : forall s, all_hex s = true -> all_hex (substring 0 n s) = true.
Proof.
  induction n as [|n IH]; intros [|c s] Hs; try reflexivity.
  unfold all_hex in Hs |- *. cbn [substring list_ascii_of_string forallb] in Hs |- *.
  apply andb_true_iff in Hs as [Hc Hs]. rewrite Hc. apply IH, Hs.
Qed.

(** ** More of the concrete session *)

Lemma ethereum_unknown : ~ In "ethereum" networks.
Proof. intros [H|[H|[H|[]]]]; discriminate H. Qed.

Lemma mine_call_runs :
  run_calls [(Mine "besu" [] (Session.at_ 10 5 0 5794), 4%nat)] Session.fresh
  = Some Session.mined.
Proof.
  cbn [run_calls run_call]. fold (Session.mine_empty 4). rewrite mine_empty_returns.
  reflexivity.
Qed.

Lemma deployed_reachable : reachable Session.deployed.
Proof.
  apply (reach_call Session.fresh
           (Deploy "Token" "contract Token {}" "fabric"
              (Session.at_ 10 6 0 100) (Session.at_ 10 6 0 200)
              "00000000-0000-4000-8000-000000000001" (Session.at_ 10 6 0 300)
              (Session.at_ 10 6 1 1634)) 3);
    [apply fresh_reachable|].
  change (settle Session.deployed_on_fabric = Some Session.deployed).
  rewrite (returned_Some _ _ deployed_on_fabric_returns). reflexivity.
Qed.

Lemma deployed_transactions :
  ss_transactions Session.deployed = [Session.fabric_deployment].
Proof. vm_compute. reflexivity. Qed.

Lemma clicked_returns : returned Session.clicked = Some Session.clicked_block.
Proof. vm_compute. reflexivity. Qed.

Lemma deploy_clicked_returns :
  returned Session.deploy_clicked
  = Some ("0x109c947904d085a0fca866c338197dec15de33b6",
          "0x11e594f481958c10e3015d0bf0447a...", 1, 2100000).
Proof. vm_compute. reflexivity. Qed.

Lemma mined_current_chain : ss_current_chain Session.mined = "besu".
Proof. vm_compute. reflexivity. Qed.

Lemma after_click_reachable : reachable Session.after_click.
Proof.
  apply (reach_call Session.fresh
           (ClickMine "00000000-0000-4000-8000-000000000031"
              "00000000-0000-4000-8000-000000000032" 500
              (Session.at_ 10 10 0 300) (Session.at_ 10 10 1 3804)) 3);
    [apply fresh_reachable|].
  change (settle Session.clicked = Some Session.after_click).
  rewrite (returned_Some _ _ clicked_returns). reflexivity.
Qed.

Lemma after_click_current_chain : ss_current_chain Session.after_click = "besu".
Proof. vm_compute. reflexivity. Qed.

Lemma after_click_metrics :
  returned (explorer_metrics Session.after_click) = Some (2, 1).
Proof. vm_compute. reflexivity. Qed.

Lemma refused_reachable : reachable Session.refused.
Proof.
  apply (reach_call Session.fresh
           (Bridge "KZT_100.0" "ethereum" "besu" (PyFloat "100.0")
              "00000000-0000-4000-8000-000000000002" (Session.at_ 10 7 0 100)
              "00000000-0000-4000-8000-000000000003" (Session.at_ 10 7 0 300)
              (Session.at_ 10 7 1 4092)) 3);
    [apply fresh_reachable|].
  reflexivity.
Qed.

Lemma refused_transfers : ss_bridge_transfers Session.refused = [Session.refused_transfer].
Proof. reflexivity. Qed.

Lemma odd_mined_returns :
  returned (mine_block "besu" [Session.odd_transaction] (Session.at_ 10 11 1 15424) 1
              Session.fresh) = Some Session.odd_block.
Proof. vm_compute. reflexivity. Qed.

Lemma mined_odd_reachable : reachable Session.mined_odd.
Proof.
  apply (reach_call Session.fresh
           (Mine "besu" [Session.odd_transaction] (Session.at_ 10 11 1 15424)) 1);
    [apply fresh_reachable|].
  change (settle (mine_block "besu" [Session.odd_transaction] (Session.at_ 10 11 1 15424) 1
                    Session.fresh) = Some Session.mined_odd).
  rewrite (returned_Some _ _ odd_mined_returns). reflexivity.
Qed.

Lemma mined_odd_besu :
  ss_current_chain Session.mined_odd = "besu" /\
  ss_blocks Session.mined_odd !! "besu" = Some [Session.genesis_besu; Session.odd_block].
Proof. split; vm_compute; reflexivity. Qed.

Lemma after_click_besu :
  ss_blocks Session.after_click !! "besu" = Some [Session.genesis_besu; Session.clicked_block].
Proof. vm_compute. reflexivity. Qed.




(** * The claims *)

(** C1. In every reachable session and for every network's chain, the
    block at position 0 exists and has index 0 and previous_hash "0", and
    every block at a position i > 0 has previous_hash equal to the hash
    of the block at position i-1 and index i.  The sessions reachable are
    the initial one (one genesis block per chain) and those obtained by
    calls, whose only write to a chain is the append of [mine_block]. *)
Theorem chains_are_linked st chain blocks :
  reachable st -> ss_blocks st !! chain = Some blocks ->
  (exists first, blocks !! 0%nat = Some first /\
     blk_index first = 0 /\ blk_previous_hash first = "0") /\
  (forall i b p, blocks !! S i = Some b -> blocks !! i = Some p ->
     blk_previous_hash b = blk_hash p /\ blk_index b = Z.of_nat (S i)).
Proof.
  intros Hreach Hchain.
  assert (Hlinked : chain_linked blocks).
  { apply (chains_invariant (fun _ blocks => chain_linked blocks)) with st chain;
      [| |exact Hreach|exact Hchain].
    - apply chain_linked_genesis.
    - intros. eapply chain_linked_snoc; eassumption. }
  assert (Hstart : starts_at_genesis chain blocks).
  { apply (chains_invariant starts_at_genesis) with st;
      [| |exact Hreach|exact Hchain].
    - apply starts_at_genesis_genesis.
    - intros. apply starts_at_genesis_snoc. assumption. }
  destruct Hlinked as [Hfirst Hlink], Hstart as (first & Hlookup & _).
  split; [|exact Hlink].
  exists first. split; [exact Hlookup|]. apply Hfirst, Hlookup.
Qed.

Lemma chains_are_linked_witness :
  reachable Session.mined /\
  ss_blocks Session.mined !! "besu" = Some [Session.genesis_besu; Session.mined_block] /\
  blk_previous_hash Session.mined_block = blk_hash Session.genesis_besu /\
  blk_index Session.mined_block = 1.
Proof.
  split; [apply mined_reachable|]. split; [apply mined_besu|].
  destruct (chains_are_linked Session.mined "besu"
              [Session.genesis_besu; Session.mined_block] mined_reachable mined_besu)
    as [_ Hlink].
  apply (Hlink 0%nat Session.mined_block Session.genesis_besu); reflexivity.
Defined.






(** C4. Two runs of [mine_block] on chains of the same length whose last
    blocks have the same hash, at the same timestamp and with the same
    transactions, return blocks with the same nonce and the same hash,
    whatever else the two sessions hold and however many digests each run
    is allowed. *)
Theorem mining_is_deterministic st1 st2 chain blocks1 blocks2 tip1 tip2 transactions now
    fuel1 fuel2 b1 b2 st1' st2' :
  ss_blocks st1 !! chain = Some blocks1 -> last blocks1 = Some tip1 ->
  ss_blocks st2 !! chain = Some blocks2 -> last blocks2 = Some tip2 ->
  length blocks1 = length blocks2 -> blk_hash tip1 = blk_hash tip2 ->
  mine_block chain transactions now fuel1 st1 = (Returns b1, st1') ->
  mine_block chain transactions now fuel2 st2 = (Returns b2, st2') ->
  blk_nonce b1 = blk_nonce b2 /\ blk_hash b1 = blk_hash b2.
Proof.
  intros Hchain1 Hlast1 Hchain2 Hlast2 Hlength Htip Hrun1 Hrun2.
  apply mine_block_returns in Hrun1 as (blocks1' & tip1' & Hc1 & Hl1 & Hmined1 & _).
  apply mine_block_returns in Hrun2 as (blocks2' & tip2' & Hc2 & Hl2 & Hmined2 & _).
  rewrite Hchain1 in Hc1. injection Hc1 as <-. rewrite Hlast1 in Hl1. injection Hl1 as <-.
  rewrite Hchain2 in Hc2. injection Hc2 as <-. rewrite Hlast2 in Hl2. injection Hl2 as <-.
  destruct Hmined1 as (nonce1 & hash1 & Hloop1 & ->).
  destruct Hmined2 as (nonce2 & hash2 & Hloop2 & ->).
  rewrite <- Hlength, <- Htip in Hloop2.
  pose proof (mine_loop_fuel_irrelevant _ _ _ _ _ _ _ _ _ Hloop1 Hloop2) as Hsame.
  injection Hsame as -> ->. split; reflexivity.
Qed.

Lemma mining_is_deterministic_witness :
  ss_blocks Session.fresh !! "besu" = Some [Session.genesis_besu] /\
  ss_blocks Session.selected !! "besu" = Some [Session.genesis_besu] /\
  ss_current_chain Session.fresh <> ss_current_chain Session.selected /\
  mine_block "besu" [] (Session.at_ 10 5 0 5794) 4 Session.fresh
    = (Returns Session.mined_block, Session.mined) /\
  mine_block "besu" [] (Session.at_ 10 5 0 5794) 9 Session.selected
    = (Returns Session.mined_block, Session.mined_selected) /\
  blk_nonce Session.mined_block = blk_nonce Session.mined_block /\
  blk_hash Session.mined_block = blk_hash Session.mined_block.
Proof.
  assert (Hbesu2 : ss_blocks Session.selected !! "besu" = Some [Session.genesis_besu])
    by (vm_compute; reflexivity).
  assert (Hrun2 : mine_block "besu" [] (Session.at_ 10 5 0 5794) 9 Session.selected
                  = (Returns Session.mined_block, Session.mined_selected))
    by (vm_compute; reflexivity).
  split; [apply fresh_besu|]. split; [exact Hbesu2|].
  split; [vm_compute; discriminate|].
  split; [apply mine_empty_returns|]. split; [exact Hrun2|].
  exact (mining_is_deterministic Session.fresh Session.selected "besu" _ _ _ _ []
           (Session.at_ 10 5 0 5794) 4 9 _ _ _ _
           fresh_besu eq_refl Hbesu2 eq_refl eq_refl eq_refl mine_empty_returns Hrun2).
Defined.

(** C5, as the code has it.  [deploy_smart_contract] does not look at the
    kind of the network: in every reachable session and on each of the
    three networks, "fabric" and "corda" included, the call never raises.
    When it returns it has registered exactly the contract it returns,
    tagged with that network, recorded one "Contract Deployment"
    transaction with gas_used 2100000 and appended one block holding that
    transaction to the network's chain; and it returns as soon as it is
    allowed to reach the first nonce that meets the difficulty.  The
    restriction to the EVM-compatible network is in the page only, whose
    "Target Blockchain" list offers "besu" alone. *)
Theorem deploy_accepts_every_network name code chain now_address now_deployed uuid_tx now_tx
    now_mine st :
  reachable st -> In chain networks ->
  (exists contract tx blocks previous_block,
     ss_blocks st !! chain = Some blocks /\ last blocks = Some previous_block /\
     sc_name contract = name /\ sc_blockchain contract = chain /\
     tx_type tx = "Contract Deployment" /\ tx_gas_used tx = 2100000 /\
     tx_blockchain tx = chain /\
     (forall fuel out st',
        deploy_smart_contract name code chain now_address now_deployed uuid_tx now_tx
          now_mine fuel st = (out, st') ->
        forall e, out <> Raises e) /\
     (forall fuel returned_contract st',
        deploy_smart_contract name code chain now_address now_deployed uuid_tx now_tx
          now_mine fuel st = (Returns returned_contract, st') ->
        returned_contract = contract /\
        ss_smart_contracts st' = (ss_smart_contracts st ++ [contract])%list /\
        ss_transactions st' = (ss_transactions st ++ [tx])%list /\
        exists b,
          ss_blocks st' = <[chain := (blocks ++ [b])%list]> (ss_blocks st) /\
          blk_transactions b = [asdict tx]) /\
     returns_when_mined
       (fun fuel => deploy_smart_contract name code chain now_address now_deployed uuid_tx
                      now_tx now_mine fuel st)
       contract blocks previous_block now_mine [asdict tx]) /\
  (forall offered, In offered deploy_chain_options ->
     network_type offered = Some "EVM-Compatible").
Proof.
  intros Hreach Hin. split.
  - destruct (reachable_chain_present st chain Hreach Hin)
      as (blocks & previous_block & Hchain & Hlast).
    destruct (deploy_runs name code chain now_address now_deployed uuid_tx now_tx now_mine
                st blocks previous_block Hchain Hlast)
      as (contract & tx & Hall & Hname & Hon & Htype & Htagged & Hgas & _).
    destruct (mining_call_ends
                (fun fuel => deploy_smart_contract name code chain now_address now_deployed
                               uuid_tx now_tx now_mine fuel st)
                contract chain blocks previous_block now_mine [asdict tx] _ _ Hall)
      as [Hends Hprogress].
    exists contract, tx, blocks, previous_block.
    do 7 (split; [assumption|]). split; [|split; [|exact Hprogress]].
    + intros fuel out st' Hrun e ->.
      destruct (Hends fuel _ _ Hrun) as [[Hout _]|[Hout _]]; discriminate Hout.
    + intros fuel returned_contract st' Hrun.
      destruct (Hends fuel _ _ Hrun) as [[Hout _]|[Hout (b & Hmined & ->)]];
        [discriminate Hout|].
      injection Hout as ->. apply mined_fields in Hmined as (_ & _ & Htxs & _).
      split; [reflexivity|]. do 2 (split; [reflexivity|]).
      exists b. split; [reflexivity|exact Htxs].
  - intros offered [<-|[]]. reflexivity.
Qed.

Lemma deploy_accepts_every_network_witness :
  reachable Session.fresh /\ In "fabric" networks /\
  network_type "fabric" = Some "Permissioned" /\
  Session.deployed_on_fabric
    = (Returns Session.fabric_contract, Session.deployed_on_fabric.2) /\
  ss_smart_contracts Session.deployed_on_fabric.2 = [Session.fabric_contract] /\
  exists tx, ss_transactions Session.deployed_on_fabric.2 = [tx] /\
             tx_type tx = "Contract Deployment" /\ tx_blockchain tx = "fabric".
Proof.
  pose proof (returned_Some _ _ deployed_on_fabric_returns) as Hrun.
  split; [apply fresh_reachable|]. split; [apply fabric_in_networks|].
  split; [reflexivity|]. split; [exact Hrun|].
  destruct (deploy_accepts_every_network "Token" "contract Token {}" "fabric"
              (Session.at_ 10 6 0 100) (Session.at_ 10 6 0 200)
              "00000000-0000-4000-8000-000000000001" (Session.at_ 10 6 0 300)
              (Session.at_ 10 6 1 1634) Session.fresh fresh_reachable fabric_in_networks)
    as [(contract & tx & blocks & previous_block & _ & _ & _ & _ & Htype & _ & Htagged & _ &
         Heffects & _) _].
  destruct (Heffects 3%nat _ _ Hrun) as (<- & Hcontracts & Htxs & _).
  split; [exact Hcontracts|]. exists tx. split; [exact Htxs|].
  split; [exact Htype|exact Htagged].
Defined.

(** C5 as stated fails: deploying "Token" on "fabric", a permissioned
    network, in the initial session returns the contract; afterwards the
    session holds that contract, its deployment transaction and a second
    block on the "fabric" chain. *)
Lemma deploy_on_fabric_succeeds :
  network_type "fabric" = Some "Permissioned" /\
  deploy_smart_contract "Token" "contract Token {}" "fabric"
      (Session.at_ 10 6 0 100) (Session.at_ 10 6 0 200)
      "00000000-0000-4000-8000-000000000001" (Session.at_ 10 6 0 300)
      (Session.at_ 10 6 1 1634) 3 Session.fresh
    = (Returns Session.fabric_contract, Session.deployed_on_fabric.2) /\
  sc_blockchain Session.fabric_contract = "fabric" /\
  ss_smart_contracts Session.fresh = [] /\
  ss_smart_contracts Session.deployed_on_fabric.2 = [Session.fabric_contract] /\
  ss_transactions Session.fresh = [] /\
  ss_transactions Session.deployed_on_fabric.2 = [Session.fabric_deployment] /\
  ss_blocks Session.fresh !! "fabric" = Some [Session.genesis_fabric] /\
  ss_blocks Session.deployed_on_fabric.2 !! "fabric"
    = Some [Session.genesis_fabric; Session.fabric_block].
Proof.
  split; [reflexivity|].
  split; [exact (returned_Some _ _ deployed_on_fabric_returns)|].
  split; [reflexivity|]. split; [reflexivity|]. split; [vm_compute; reflexivity|].
  split; [reflexivity|]. split; [vm_compute; reflexivity|].
  split; vm_compute; reflexivity.
Qed.

(** C6, as the code has it.  [bridge_asset] does not compare its two
    networks: in every reachable session, a call whose source and
    destination are the same one of the three networks never raises.
    When it returns, the transfer returned has that network as from_chain
    and as to_chain and has been appended to the session's transfers; and
    it returns as soon as it is allowed to reach the first nonce that
    meets the difficulty.  Only the page keeps the two apart: the "To"
    list for a source network does not contain it. *)
Theorem bridge_accepts_same_network asset_id chain amount uuid_id now_transfer uuid_lock
    now_lock now_mine st :
  reachable st -> In chain networks ->
  (exists transfer lock_tx blocks previous_block,
     ss_blocks st !! chain = Some blocks /\ last blocks = Some previous_block /\
     bt_from_chain transfer = chain /\ bt_to_chain transfer = chain /\
     (forall fuel out st',
        bridge_asset asset_id chain chain amount uuid_id now_transfer uuid_lock now_lock
          now_mine fuel st = (out, st') ->
        forall e, out <> Raises e) /\
     (forall fuel returned_transfer st',
        bridge_asset asset_id chain chain amount uuid_id now_transfer uuid_lock now_lock
          now_mine fuel st = (Returns returned_transfer, st') ->
        returned_transfer = transfer /\
        ss_bridge_transfers st' = (ss_bridge_transfers st ++ [transfer])%list) /\
     returns_when_mined
       (fun fuel => bridge_asset asset_id chain chain amount uuid_id now_transfer uuid_lock
                      now_lock now_mine fuel st)
       transfer blocks previous_block now_mine [asdict lock_tx]) /\
  ~ In chain (dest_chain_options chain).
Proof.
  intros Hreach Hin. split.
  - destruct (reachable_chain_present st chain Hreach Hin)
      as (blocks & previous_block & Hchain & Hlast).
    destruct (bridge_runs asset_id chain chain amount uuid_id now_transfer uuid_lock
                now_lock now_mine st blocks previous_block Hchain Hlast)
      as (transfer & lock_tx & Hall & _ & _ & Hfrom & Hto & _).
    destruct (mining_call_ends
                (fun fuel => bridge_asset asset_id chain chain amount uuid_id now_transfer
                               uuid_lock now_lock now_mine fuel st)
                transfer chain blocks previous_block now_mine [asdict lock_tx] _ _ Hall)
      as [Hends Hprogress].
    exists transfer, lock_tx, blocks, previous_block.
    do 4 (split; [assumption|]). split; [|split; [|exact Hprogress]].
    + intros fuel out st' Hrun e ->.
      destruct (Hends fuel _ _ Hrun) as [[Hout _]|[Hout _]]; discriminate Hout.
    + intros fuel returned_transfer st' Hrun.
      destruct (Hends fuel _ _ Hrun) as [[Hout _]|[Hout (b & _ & ->)]];
        [discriminate Hout|].
      injection Hout as ->. split; reflexivity.
  - unfold dest_chain_options. rewrite filter_In. intros [_ Hdiffers].
    rewrite String.eqb_refl in Hdiffers. discriminate Hdiffers.
Qed.

Lemma bridge_accepts_same_network_witness :
  reachable Session.fresh /\ In "besu" networks /\
  Session.bridged_to_itself = (Returns Session.besu_transfer, Session.bridged_to_itself.2) /\
  ss_bridge_transfers Session.bridged_to_itself.2 = [Session.besu_transfer] /\
  dest_chain_options "besu" = ["fabric"; "corda"].
Proof.
  pose proof (returned_Some _ _ bridged_to_itself_returns) as Hrun.
  split; [apply fresh_reachable|]. split; [apply besu_in_networks|]. split; [exact Hrun|].
  destruct (bridge_accepts_same_network "KZT_100.0" "besu" (PyFloat "100.0")
              "00000000-0000-4000-8000-000000000002" (Session.at_ 10 7 0 100)
              "00000000-0000-4000-8000-000000000003" (Session.at_ 10 7 0 300)
              (Session.at_ 10 7 1 25481) Session.fresh fresh_reachable besu_in_networks)
    as [(transfer & lock_tx & blocks & previous_block & _ & _ & _ & _ & _ & Heffects & _) _].
  destruct (Heffects 3%nat _ _ Hrun) as (<- & Htransfers).
  split; [exact Htransfers|reflexivity].
Defined.

(** C6 as stated fails: bridging from "besu" to "besu" in the initial
    session returns a transfer, which the session then holds. *)
Lemma bridge_to_itself_succeeds :
  bridge_asset "KZT_100.0" "besu" "besu" (PyFloat "100.0")
      "00000000-0000-4000-8000-000000000002" (Session.at_ 10 7 0 100)
      "00000000-0000-4000-8000-000000000003" (Session.at_ 10 7 0 300)
      (Session.at_ 10 7 1 25481) 3 Session.fresh
    = (Returns Session.besu_transfer, Session.bridged_to_itself.2) /\
  bt_from_chain Session.besu_transfer = "besu" /\
  bt_to_chain Session.besu_transfer = "besu" /\
  ss_bridge_transfers Session.fresh = [] /\
  ss_bridge_transfers Session.bridged_to_itself.2 = [Session.besu_transfer].
Proof.
  split; [exact (returned_Some _ _ bridged_to_itself_returns)|].
  split; [reflexivity|]. split; [reflexivity|]. split; [reflexivity|].
  vm_compute. reflexivity.
Qed.

(** C7. In every reachable session and for every source network among
    the three, a call of [bridge_asset] that returns has appended to the
    session exactly one transfer, the one returned, with confirmations 0,
    required_confirmations 10 and status "Processing"; exactly one
    transaction, of type "Bridge Lock", with gas_used 75000 and tagged
    with the source network; and exactly one block, at the end of the
    source network's chain and linked to its former last block, whose
    transactions are that transaction.  Contracts and files are as before.
    The call returns as soon as it is allowed to reach the first nonce
    that meets the difficulty.  This holds for every destination, the
    source included. *)
Theorem bridge_initiation_effects asset_id from_chain to_chain amount uuid_id now_transfer
    uuid_lock now_lock now_mine st :
  reachable st -> In from_chain networks ->
  exists transfer lock_tx blocks previous_block,
    ss_blocks st !! from_chain = Some blocks /\ last blocks = Some previous_block /\
    bt_confirmations transfer = 0 /\ bt_required_confirmations transfer = 10 /\
    bt_status transfer = "Processing" /\
    bt_from_chain transfer = from_chain /\ bt_to_chain transfer = to_chain /\
    bt_amount transfer = amount /\
    tx_type lock_tx = "Bridge Lock" /\ tx_gas_used lock_tx = 75000 /\
    tx_blockchain lock_tx = from_chain /\
    (forall fuel returned_transfer st',
       bridge_asset asset_id from_chain to_chain amount uuid_id now_transfer uuid_lock
         now_lock now_mine fuel st = (Returns returned_transfer, st') ->
       returned_transfer = transfer /\
       ss_bridge_transfers st' = (ss_bridge_transfers st ++ [transfer])%list /\
       ss_transactions st' = (ss_transactions st ++ [lock_tx])%list /\
       ss_smart_contracts st' = ss_smart_contracts st /\ ss_files st' = ss_files st /\
       exists b,
         ss_blocks st' = <[from_chain := (blocks ++ [b])%list]> (ss_blocks st) /\
         blk_transactions b = [asdict lock_tx] /\
         blk_previous_hash b = blk_hash previous_block) /\
    returns_when_mined
      (fun fuel => bridge_asset asset_id from_chain to_chain amount uuid_id now_transfer
                     uuid_lock now_lock now_mine fuel st)
      transfer blocks previous_block now_mine [asdict lock_tx].
Proof.
  intros Hreach Hin.
  destruct (reachable_chain_present st from_chain Hreach Hin)
    as (blocks & previous_block & Hchain & Hlast).
  destruct (bridge_runs asset_id from_chain to_chain amount uuid_id now_transfer uuid_lock
              now_lock now_mine st blocks previous_block Hchain Hlast)
    as (transfer & lock_tx & Hall & _ & _ & Hfrom & Hto & Hamount & Hstatus & Hconf &
        Hrequired & Htype & Htagged & Hgas & _).
  destruct (mining_call_ends
              (fun fuel => bridge_asset asset_id from_chain to_chain amount uuid_id
                             now_transfer uuid_lock now_lock now_mine fuel st)
              transfer from_chain blocks previous_block now_mine [asdict lock_tx] _ _ Hall)
    as [Hends Hprogress].
  exists transfer, lock_tx, blocks, previous_block.
  do 11 (split; [assumption|]). split; [|exact Hprogress].
  intros fuel returned_transfer st' Hrun.
  destruct (Hends fuel _ _ Hrun) as [[Hout _]|[Hout (b & Hmined & ->)]];
    [discriminate Hout|].
  injection Hout as ->. apply mined_fields in Hmined as (_ & _ & Htxs & Hprev & _).
  split; [reflexivity|]. do 4 (split; [reflexivity|]).
  exists b. split; [reflexivity|]. split; assumption.
Qed.

Lemma bridge_initiation_effects_witness :
  reachable Session.fresh /\ In "besu" networks /\
  Session.bridged_to_fabric = (Returns Session.fabric_transfer, Session.bridged_to_fabric.2) /\
  ss_bridge_transfers Session.bridged_to_fabric.2 = [Session.fabric_transfer] /\
  exists lock_tx,
    ss_transactions Session.bridged_to_fabric.2 = [lock_tx] /\
    tx_type lock_tx = "Bridge Lock" /\ tx_gas_used lock_tx = 75000 /\
    tx_blockchain lock_tx = "besu".
Proof.
  pose proof (returned_Some _ _ bridged_to_fabric_returns) as Hrun.
  split; [apply fresh_reachable|]. split; [apply besu_in_networks|]. split; [exact Hrun|].
  destruct (bridge_initiation_effects "KZT_100.0" "besu" "fabric" (PyFloat "100.0")
              "00000000-0000-4000-8000-000000000002" (Session.at_ 10 7 0 100)
              "00000000-0000-4000-8000-000000000003" (Session.at_ 10 7 0 300)
              (Session.at_ 10 7 1 4092) Session.fresh fresh_reachable besu_in_networks)
    as (transfer & lock_tx & blocks & previous_block & _ & _ & _ & _ & _ & _ & _ & _ &
        Htype & Hgas & Htagged & Heffects & _).
  destruct (Heffects 3%nat _ _ Hrun) as (<- & Htransfers & Htxs & _).
  split; [exact Htransfers|]. exists lock_tx. split; [exact Htxs|].
  split; [exact Htype|]. split; [exact Hgas|exact Htagged].
Defined.

(** C8, as the code has it.  A transfer held by a reachable session is
    still there, the same record at the same position, after every
    sequence of calls that ends: its confirmations are 0, its
    required_confirmations 10 and its status "Processing", so the count
    neither exceeds 10 nor decreases, and the status never becomes
    "Completed".  The bridge page shows for it min(0 + r, 10) = r, with r
    drawn from 1 to 3 at each visit, beside the label "Processing"; the
    number shown is not stored. *)
Theorem transfers_stay_as_initiated st i transfer calls st' :
  reachable st -> ss_bridge_transfers st !! i = Some transfer ->
  run_calls calls st = Some st' ->
  ss_bridge_transfers st' !! i = Some transfer /\
  bt_confirmations transfer = 0 /\ bt_required_confirmations transfer = 10 /\
  bt_status transfer = "Processing" /\
  forall r, 1 <= r <= 3 ->
    shown_confirmations transfer r = r /\ shown_label transfer r = "Processing".
Proof.
  intros Hreach Hlookup Hrun.
  apply run_calls_grow in Hrun as [_ (extra & Hextra)].
  pose proof (reachable_transfers st Hreach) as Hfresh.
  rewrite Forall_lookup in Hfresh.
  destruct (Hfresh i transfer Hlookup) as (Hstatus & Hconf & Hrequired).
  split; [rewrite Hextra; apply lookup_app_l_Some, Hlookup|].
  split; [exact Hconf|]. split; [exact Hrequired|]. split; [exact Hstatus|].
  intros r Hr.
  assert (Hshown : shown_confirmations transfer r = r).
  { unfold shown_confirmations. rewrite Hconf, Hrequired. lia. }
  split; [exact Hshown|].
  unfold shown_label. rewrite Hshown, Hrequired.
  destruct (Z.leb_spec 10 r) as [Hle|_]; [lia|reflexivity].
Qed.

Lemma transfers_stay_as_initiated_witness :
  reachable Session.bridged /\
  ss_bridge_transfers Session.bridged !! 0%nat = Some Session.fabric_transfer /\
  run_calls Session.renders Session.bridged = Some Session.bridged /\
  shown_confirmations Session.fabric_transfer 3 = 3 /\
  shown_label Session.fabric_transfer 3 = "Processing".
Proof.
  assert (Hlookup : ss_bridge_transfers Session.bridged !! 0%nat
                    = Some Session.fabric_transfer)
    by (rewrite bridged_transfers; reflexivity).
  split; [apply bridged_reachable|]. split; [exact Hlookup|]. split; [apply renders_run|].
  destruct (transfers_stay_as_initiated Session.bridged 0 Session.fabric_transfer
              Session.renders Session.bridged bridged_reachable Hlookup renders_run)
    as (_ & _ & _ & _ & Hshown).
  apply (Hshown 3). lia.
Defined.

(** C8 as stated fails: after the bridge page has been visited four
    times, each time with draw 3, the session and the transfer in it are
    as they were, with confirmations 0 and status "Processing"; the page
    shows 3 when the draw is 3 and then 1 when the draw is 1, with
    "Processing" both times. *)
Lemma transfer_never_completes :
  ss_bridge_transfers Session.bridged = [Session.fabric_transfer] /\
  run_calls Session.renders Session.bridged = Some Session.bridged /\
  bt_confirmations Session.fabric_transfer = 0 /\
  bt_status Session.fabric_transfer = "Processing" /\
  render_bridge_rows [3] Session.bridged = (Returns [(3, "Processing")], Session.bridged) /\
  render_bridge_rows [1] Session.bridged = (Returns [(1, "Processing")], Session.bridged).
Proof.
  split; [apply bridged_transfers|]. split; [apply renders_run|].
  split; [reflexivity|]. split; [reflexivity|].
  unfold render_bridge_rows, bind, reads, ret. rewrite bridged_transfers.
  split; reflexivity.
Qed.




(** C10, as the code has it.  The block [mine_block] returns, which is
    the block it stores at the end of the chain, has as miner the first
    10 characters of the session wallet's address followed by "...": 13
    characters, where the address has 42.  The full address stays in the
    wallet, which mining does not change. *)
Theorem stored_miner_is_truncated st chain transactions now fuel b st' :
  reachable st ->
  mine_block chain transactions now fuel st = (Returns b, st') ->
  blk_miner b = substring 0 10 (w_address (ss_wallet st)) ++ "..." /\
  String.length (blk_miner b) = 13%nat /\
  String.length (w_address (ss_wallet st)) = 42%nat /\
  blk_miner b <> w_address (ss_wallet st) /\
  ss_wallet st' = ss_wallet st /\
  exists blocks, ss_blocks st' !! chain = Some blocks /\ last blocks = Some b.
Proof.
  intros Hreach Hrun.
  apply mine_block_returns in Hrun as (blocks & prev & Hchain & Hlast & Hmined & ->).
  apply mined_fields in Hmined as (_ & _ & _ & _ & Hminer & _).
  destruct (reachable_wallet st Hreach) as (wallet_uuid & Hwallet).
  assert (Haddress : String.length (w_address (ss_wallet st)) = 42%nat)
    by (rewrite Hwallet; apply length_wallet_address).
  assert (Hshort : String.length (blk_miner b) = 13%nat).
  { rewrite Hminer, length_append, length_substring_0 by lia. reflexivity. }
  split; [exact Hminer|]. split; [exact Hshort|]. split; [exact Haddress|].
  split; [intros Heq; rewrite Heq in Hshort; lia|]. split; [reflexivity|].
  exists (blocks ++ [b])%list. split; [|apply last_snoc].
  cbn [appended with_blocks ss_blocks]. apply lookup_insert_eq.
Qed.

Lemma stored_miner_is_truncated_witness :
  reachable Session.fresh /\
  mine_block "besu" [] (Session.at_ 10 5 0 5794) 4 Session.fresh
    = (Returns Session.mined_block, Session.mined) /\
  blk_miner Session.mined_block
    = substring 0 10 (w_address (ss_wallet Session.fresh)) ++ "..." /\
  blk_miner Session.mined_block <> w_address (ss_wallet Session.fresh).
Proof.
  split; [apply fresh_reachable|]. split; [apply mine_empty_returns|].
  destruct (stored_miner_is_truncated Session.fresh "besu" [] (Session.at_ 10 5 0 5794) 4
              Session.mined_block Session.mined fresh_reachable mine_empty_returns)
    as (Hminer & _ & _ & Hdiffer & _).
  split; [exact Hminer|exact Hdiffer].
Defined.

(** C10 as stated fails: the block mined in the concrete session stores
    "0x320159eb..." as its miner, not the wallet's address. *)
Lemma stored_miner_is_not_the_address :
  Session.mine_empty 4 = (Returns Session.mined_block, Session.mined) /\
  ss_blocks Session.mined !! "besu" = Some [Session.genesis_besu; Session.mined_block] /\
  w_address (ss_wallet Session.fresh) = "0x320159ebe3219112484baaa0aa1164dd93b25e98" /\
  w_address (ss_wallet Session.mined) = "0x320159ebe3219112484baaa0aa1164dd93b25e98" /\
  blk_miner Session.mined_block = "0x320159eb..." /\
  blk_miner Session.mined_block <> w_address (ss_wallet Session.fresh).
Proof.
  split; [apply mine_empty_returns|]. split; [apply mined_besu|].
  split; [apply fresh_wallet|]. split; [vm_compute; reflexivity|].
  split; [reflexivity|]. rewrite fresh_wallet. discriminate.
Qed.

(** * Further properties of the code *)

(** X1. In every reachable session the chains are those of the three
    networks and no others: each key of [self.networks] has a chain whose
    first block is the genesis block of that key (hash of "Genesis Block "
    followed by the key, miner "System", no transactions), and every other
    key is missing from [st.session_state.blocks]. *)
Theorem session_chains_are_the_networks st chain :
  reachable st ->
  (In chain networks ->
   exists blocks genesis,
     ss_blocks st !! chain = Some blocks /\ blocks !! 0%nat = Some genesis /\
     blk_hash genesis = calculate_hash ("Genesis Block " ++ chain) /\
     blk_miner genesis = "System" /\ blk_transactions genesis = []) /\
  (~ In chain networks -> ss_blocks st !! chain = None).
Proof.
  intros Hreach. split; [|apply reachable_unknown_chain, Hreach].
  intros Hin.
  destruct (reachable_chain_present st chain Hreach Hin) as (blocks & _ & Hblocks & _).
  assert (Hstart : starts_at_genesis chain blocks).
  { apply (chains_invariant starts_at_genesis) with st;
      [| |exact Hreach|exact Hblocks].
    - apply starts_at_genesis_genesis.
    - intros. apply starts_at_genesis_snoc. assumption. }
  destruct Hstart as (genesis & Hfirst & Hhash & _ & Htxs & Hminer).
  exists blocks, genesis. auto.
Qed.

Lemma session_chains_are_the_networks_witness :
  reachable Session.mined /\ In "besu" networks /\ ~ In "ethereum" networks /\
  ss_blocks Session.mined !! "ethereum" = None /\
  exists blocks genesis,
    ss_blocks Session.mined !! "besu" = Some blocks /\ blocks !! 0%nat = Some genesis /\
    blk_miner genesis = "System".
Proof.
  split; [apply mined_reachable|]. split; [apply besu_in_networks|].
  split; [apply ethereum_unknown|].
  destruct (session_chains_are_the_networks Session.mined "ethereum" mined_reachable)
    as [_ Hunknown].
  destruct (session_chains_are_the_networks Session.mined "besu" mined_reachable)
    as [Hknown _].
  split; [apply Hunknown, ethereum_unknown|].
  destruct (Hknown besu_in_networks) as (blocks & genesis & Hblocks & Hfirst & _ & Hminer & _).
  exists blocks, genesis. auto.
Defined.

(** X2. In a reachable session, [mine_block] on a key that is not a
    network raises [KeyError] on that key, whatever the transactions, and
    leaves the session as it was. *)
Theorem mine_block_on_unknown_chain st chain transactions now fuel :
  reachable st -> ~ In chain networks ->
  mine_block chain transactions now fuel st = (Raises (KeyError chain), st).
Proof.
  intros Hreach Hout. apply mine_block_unknown_chain, reachable_unknown_chain; assumption.
Qed.

Lemma mine_block_on_unknown_chain_witness :
  reachable Session.fresh /\ ~ In "ethereum" networks /\
  mine_block "ethereum" [] (Session.at_ 10 5 0 5794) 4 Session.fresh
    = (Raises (KeyError "ethereum"), Session.fresh).
Proof.
  split; [apply fresh_reachable|]. split; [apply ethereum_unknown|].
  apply (mine_block_on_unknown_chain Session.fresh "ethereum" []);
    [apply fresh_reachable|apply ethereum_unknown].
Defined.

(** X3. In a reachable session, [deploy_smart_contract] on a key that
    is not a network raises [KeyError] on that key only after the contract
    was registered: the contract, tagged with that key, stays at the end of
    [smart_contracts], while no transaction is recorded and no chain, file
    or bridge transfer changes. *)
Theorem deploy_on_unknown_chain name code chain now_address now_deployed uuid_tx now_tx
    now_mine fuel st :
  reachable st -> ~ In chain networks ->
  exists contract st',
    deploy_smart_contract name code chain now_address now_deployed uuid_tx now_tx now_mine
      fuel st = (Raises (KeyError chain), st') /\
    sc_name contract = name /\ sc_blockchain contract = chain /\
    ss_smart_contracts st' = (ss_smart_contracts st ++ [contract])%list /\
    ss_transactions st' = ss_transactions st /\ ss_blocks st' = ss_blocks st /\
    ss_files st' = ss_files st /\ ss_bridge_transfers st' = ss_bridge_transfers st.
Proof.
  intros Hreach Hout.
  destruct (deploy_unknown_chain name code chain now_address now_deployed uuid_tx now_tx
              now_mine fuel st (reachable_unknown_chain st chain Hreach Hout))
    as (contract & Hrun & Hname & Hon).
  exists contract. eexists. split; [exact Hrun|].
  split; [exact Hname|]. split; [exact Hon|]. repeat (split; [reflexivity|]). reflexivity.
Qed.

Lemma deploy_on_unknown_chain_witness :
  reachable Session.fresh /\ ~ In "ethereum" networks /\
  exists contract st',
    Session.deploy_on "ethereum" (Session.at_ 10 6 1 1634) 3
      = (Raises (KeyError "ethereum"), st') /\
    sc_blockchain contract = "ethereum" /\
    ss_smart_contracts st' = [contract] /\ ss_transactions st' = [].
Proof.
  split; [apply fresh_reachable|]. split; [apply ethereum_unknown|].
  destruct (deploy_on_unknown_chain "Token" "contract Token {}" "ethereum"
              (Session.at_ 10 6 0 100) (Session.at_ 10 6 0 200)
              "00000000-0000-4000-8000-000000000001" (Session.at_ 10 6 0 300)
              (Session.at_ 10 6 1 1634) 3 Session.fresh fresh_reachable ethereum_unknown)
    as (contract & st' & Hrun & _ & Hon & Hcontracts & Htxs & _).
  exists contract, st'. split; [exact Hrun|]. split; [exact Hon|].
  split; [exact Hcontracts|exact Htxs].
Defined.

(** X4. In a reachable session, [upload_file_to_blockchain] on a key
    that is not a network raises [KeyError] on that key only after the file
    record was stored: the record, tagged with that key, stays at the end
    of [files], while no transaction is recorded and no chain, contract or
    bridge transfer changes. *)
Theorem upload_on_unknown_chain file chain uuid_ipfs uuid_file uuid_tx now_record now_tx
    now_mine fuel st :
  reachable st -> ~ In chain networks ->
  exists file_record st',
    upload_file_to_blockchain file chain uuid_ipfs uuid_file uuid_tx now_record now_tx
      now_mine fuel st = (Raises (KeyError chain), st') /\
    fr_file_id file_record = uuid_file /\ fr_name file_record = uf_name file /\
    fr_blockchain file_record = chain /\
    ss_files st' = (ss_files st ++ [file_record])%list /\
    ss_transactions st' = ss_transactions st /\ ss_blocks st' = ss_blocks st /\
    ss_smart_contracts st' = ss_smart_contracts st /\
    ss_bridge_transfers st' = ss_bridge_transfers st.
Proof.
  intros Hreach Hout.
  destruct (upload_unknown_chain file chain uuid_ipfs uuid_file uuid_tx now_record now_tx
              now_mine fuel st (reachable_unknown_chain st chain Hreach Hout))
    as (file_record & Hrun & Hid & Hname & Hon).
  exists file_record. eexists. split; [exact Hrun|].
  split; [exact Hid|]. split; [exact Hname|]. split; [exact Hon|].
  repeat (split; [reflexivity|]). reflexivity.
Qed.

Lemma upload_on_unknown_chain_witness :
  reachable Session.fresh /\ ~ In "ethereum" networks /\
  exists file_record st',
    upload_file_to_blockchain Session.hello "ethereum"
      "00000000-0000-4000-8000-000000000011" "00000000-0000-4000-8000-000000000012"
      "00000000-0000-4000-8000-000000000013"
      (Session.at_ 10 8 0 200) (Session.at_ 10 8 0 300) (Session.at_ 10 8 1 12853) 1
      Session.fresh = (Raises (KeyError "ethereum"), st') /\
    ss_files st' = [file_record] /\ ss_transactions st' = [].
Proof.
  split; [apply fresh_reachable|]. split; [apply ethereum_unknown|].
  destruct (upload_on_unknown_chain Session.hello "ethereum"
              "00000000-0000-4000-8000-000000000011" "00000000-0000-4000-8000-000000000012"
              "00000000-0000-4000-8000-000000000013"
              (Session.at_ 10 8 0 200) (Session.at_ 10 8 0 300) (Session.at_ 10 8 1 12853) 1
              Session.fresh fresh_reachable ethereum_unknown)
    as (file_record & st' & Hrun & _ & _ & _ & Hfiles & Htxs & _).
  exists file_record, st'. split; [exact Hrun|]. split; [exact Hfiles|exact Htxs].
Defined.

(** X5. In a reachable session, [bridge_asset] from a key that is not
    a network raises [KeyError] on that key only after the transfer was
    stored: the transfer, with status "Processing", stays at the end of
    [bridge_transfers], while no lock transaction is recorded and no chain,
    contract or file changes. *)
Theorem bridge_from_unknown_chain asset_id from_chain to_chain amount uuid_id now_transfer
    uuid_lock now_lock now_mine fuel st :
  reachable st -> ~ In from_chain networks ->
  exists transfer st',
    bridge_asset asset_id from_chain to_chain amount uuid_id now_transfer uuid_lock now_lock
      now_mine fuel st = (Raises (KeyError from_chain), st') /\
    bt_id transfer = uuid_id /\ bt_from_chain transfer = from_chain /\
    bt_to_chain transfer = to_chain /\ bt_status transfer = "Processing" /\
    ss_bridge_transfers st' = (ss_bridge_transfers st ++ [transfer])%list /\
    ss_transactions st' = ss_transactions st /\ ss_blocks st' = ss_blocks st /\
    ss_smart_contracts st' = ss_smart_contracts st /\ ss_files st' = ss_files st.
Proof.
  intros Hreach Hout.
  destruct (bridge_unknown_chain asset_id from_chain to_chain amount uuid_id now_transfer
              uuid_lock now_lock now_mine fuel st
              (reachable_unknown_chain st from_chain Hreach Hout))
    as (transfer & Hrun & Hid & Hfrom & Hto & Hstatus).
  exists transfer. eexists. split; [exact Hrun|].
  split; [exact Hid|]. split; [exact Hfrom|]. split; [exact Hto|]. split; [exact Hstatus|].
  repeat (split; [reflexivity|]). reflexivity.
Qed.

Lemma bridge_from_unknown_chain_witness :
  reachable Session.fresh /\ ~ In "ethereum" networks /\
  exists transfer st',
    bridge_asset "KZT_100.0" "ethereum" "besu" (PyFloat "100.0")
      "00000000-0000-4000-8000-000000000002" (Session.at_ 10 7 0 100)
      "00000000-0000-4000-8000-000000000003" (Session.at_ 10 7 0 300)
      (Session.at_ 10 7 1 4092) 3 Session.fresh = (Raises (KeyError "ethereum"), st') /\
    ss_bridge_transfers st' = [transfer] /\ ss_transactions st' = [].
Proof.
  split; [apply fresh_reachable|]. split; [apply ethereum_unknown|].
  destruct (bridge_from_unknown_chain "KZT_100.0" "ethereum" "besu" (PyFloat "100.0")
              "00000000-0000-4000-8000-000000000002" (Session.at_ 10 7 0 100)
              "00000000-0000-4000-8000-000000000003" (Session.at_ 10 7 0 300)
              (Session.at_ 10 7 1 4092) 3 Session.fresh fresh_reachable ethereum_unknown)
    as (transfer & st' & Hrun & _ & _ & _ & _ & Htransfers & Htxs & _).
  exists transfer, st'. split; [exact Hrun|]. split; [exact Htransfers|exact Htxs].
Defined.

(** X6. No sequence of calls removes or rewrites anything already
    stored: from any session, the transactions, contracts, files and bridge
    transfers of the session it leads to start with those of the session it
    began in, and so does every chain. *)
Theorem history_is_append_only st calls st' :
  run_calls calls st = Some st' ->
  (exists more, ss_transactions st' = (ss_transactions st ++ more)%list) /\
  (exists more, ss_smart_contracts st' = (ss_smart_contracts st ++ more)%list) /\
  (exists more, ss_files st' = (ss_files st ++ more)%list) /\
  (exists more, ss_bridge_transfers st' = (ss_bridge_transfers st ++ more)%list) /\
  (forall chain blocks, ss_blocks st !! chain = Some blocks ->
     exists more, ss_blocks st' !! chain = Some (blocks ++ more)%list).
Proof.
  intros Hrun. apply run_calls_extend in Hrun as [Htxs Hcontracts Hfiles Htransfers Hblocks].
  auto.
Qed.

Lemma history_is_append_only_witness :
  run_calls [(Mine "besu" [] (Session.at_ 10 5 0 5794), 4%nat)] Session.fresh
    = Some Session.mined /\
  exists more, ss_blocks Session.mined !! "besu" = Some ([Session.genesis_besu] ++ more)%list.
Proof.
  split; [apply mine_call_runs|].
  destruct (history_is_append_only Session.fresh _ Session.mined mine_call_runs)
    as (_ & _ & _ & _ & Hblocks).
  apply (Hblocks "besu" [Session.genesis_besu] fresh_besu).
Defined.

(** X7. Every transaction recorded in a reachable session names a
    network, has a block number above 0, is sent from the session's wallet
    address with status "Success", and the block at position
    [block_number] of its chain has that index and holds that transaction
    and nothing else. *)
Theorem recorded_transactions_are_mined st tx :
  reachable st -> In tx (ss_transactions st) ->
  In (tx_blockchain tx) networks /\ 0 < tx_block_number tx /\
  tx_from_address tx = w_address (ss_wallet st) /\ tx_status tx = "Success" /\
  exists blocks b,
    ss_blocks st !! tx_blockchain tx = Some blocks /\
    blocks !! Z.to_nat (tx_block_number tx) = Some b /\
    blk_index b = tx_block_number tx /\ blk_transactions b = [asdict tx].
Proof.
  intros Hreach Hin.
  destruct (ledger_invariant st Hreach tx Hin)
    as ((blocks & b & Hchain & Hb & Hidx & Hheld) & Hpos & Hfrom & Hstatus).
  split; [eapply reachable_known_chain; eassumption|].
  do 3 (split; [assumption|]). exists blocks, b. auto.
Qed.

Lemma recorded_transactions_are_mined_witness :
  reachable Session.deployed /\
  In Session.fabric_deployment (ss_transactions Session.deployed) /\
  tx_block_number Session.fabric_deployment = 1 /\
  exists blocks b,
    ss_blocks Session.deployed !! "fabric" = Some blocks /\
    blocks !! 1%nat = Some b /\ blk_index b = 1 /\
    blk_transactions b = [asdict Session.fabric_deployment].
Proof.
  assert (Hin : In Session.fabric_deployment (ss_transactions Session.deployed))
    by (rewrite deployed_transactions; left; reflexivity).
  split; [apply deployed_reachable|]. split; [exact Hin|]. split; [reflexivity|].
  destruct (recorded_transactions_are_mined Session.deployed Session.fabric_deployment
              deployed_reachable Hin)
    as (_ & _ & _ & _ & blocks & b & Hblocks & Hb & Hidx & Hheld).
  exists blocks, b. split; [exact Hblocks|]. split; [exact Hb|].
  split; [exact Hidx|exact Hheld].
Defined.

(** X8. In a reachable session the bars of "Transaction Volume by
    Chain" of [render_analytics], one per network, add up to the "Total
    Transactions" of [render_sidebar]: every recorded transaction is
    counted under exactly one network. *)
Theorem volumes_add_up st :
  reachable st ->
  exists volumes total,
    analytics_volumes st = (Returns volumes, st) /\
    sidebar_total_transactions st = (Returns total, st) /\
    length volumes = length networks /\
    fold_right Z.add 0 volumes = total.
Proof.
  intros Hreach. eexists _, _. split; [reflexivity|]. split; [reflexivity|].
  split; [apply length_map|].
  apply volumes_partition. intros tx Hin.
  destruct (ledger_invariant st Hreach tx Hin) as ((blocks & b & Hchain & _) & _).
  eapply reachable_known_chain; eassumption.
Qed.

Lemma volumes_add_up_witness :
  reachable Session.deployed /\
  analytics_volumes Session.deployed = (Returns [0; 1; 0], Session.deployed) /\
  sidebar_total_transactions Session.deployed = (Returns 1, Session.deployed) /\
  exists volumes total,
    analytics_volumes Session.deployed = (Returns volumes, Session.deployed) /\
    sidebar_total_transactions Session.deployed = (Returns total, Session.deployed) /\
    fold_right Z.add 0 volumes = total.
Proof.
  split; [apply deployed_reachable|].
  split; [unfold analytics_volumes, bind, reads, ret; rewrite deployed_transactions;
          reflexivity|].
  split; [unfold sidebar_total_transactions, bind, reads, ret;
          rewrite deployed_transactions; reflexivity|].
  destruct (volumes_add_up Session.deployed deployed_reachable)
    as (volumes & total & Hvolumes & Htotal & _ & Hsum).
  exists volumes, total. split; [exact Hvolumes|]. split; [exact Htotal|exact Hsum].
Defined.

(** X9. In a reachable session every block after the genesis block,
    on every chain, has as miner the wallet label that [render_header]
    shows (the first 10 characters of the address, then "..."); the
    wallet's balance and transaction count are still 1000000 and 0. *)
Theorem mined_blocks_carry_the_wallet_label st chain blocks i b :
  reachable st -> ss_blocks st !! chain = Some blocks -> blocks !! S i = Some b ->
  header_wallet_label st = (Returns (blk_miner b), st) /\
  w_balance (ss_wallet st) = 1000000 /\ w_transactions (ss_wallet st) = 0.
Proof.
  intros Hreach Hchain Hb.
  rewrite (reachable_miners st Hreach chain blocks i b Hchain Hb).
  split; [reflexivity|].
  destruct (reachable_wallet st Hreach) as (wallet_uuid & ->). split; reflexivity.
Qed.

Lemma mined_blocks_carry_the_wallet_label_witness :
  reachable Session.mined /\
  ss_blocks Session.mined !! "besu" = Some [Session.genesis_besu; Session.mined_block] /\
  header_wallet_label Session.mined = (Returns "0x320159eb...", Session.mined).
Proof.
  split; [apply mined_reachable|]. split; [apply mined_besu|].
  apply (mined_blocks_carry_the_wallet_label Session.mined "besu"
           [Session.genesis_besu; Session.mined_block] 0 Session.mined_block
           mined_reachable mined_besu eq_refl).
Defined.

(** X10. The "Mine New Block" button, in a reachable session whose
    current chain is a network: the sample transaction is a "Transfer" of
    the drawn amount of KZT with gas 21000 on the current chain, numbered
    with the chain's length; when the click returns a block, that
    transaction is the last recorded one and the block, holding only it and
    linked to the former tip, is the new tip of the current chain, which
    stays selected; and the click returns the block with the least nonce
    that meets the difficulty whenever the run is allowed more digests than
    that nonce. *)
Theorem explorer_click_mines_on_current_chain uuid_id uuid_to amount now_tx now_mine st :
  reachable st -> In (ss_current_chain st) networks ->
  exists tx blocks previous_block,
    ss_blocks st !! ss_current_chain st = Some blocks /\
    last blocks = Some previous_block /\
    tx_type tx = "Transfer" /\ tx_gas_used tx = 21000 /\
    tx_blockchain tx = ss_current_chain st /\
    tx_block_number tx = Z.of_nat (length blocks) /\
    tx_data tx = [("amount", PyInt amount); ("token", PyStr "KZT")] /\
    (forall fuel b st',
       explorer_mine_click uuid_id uuid_to amount now_tx now_mine fuel st
         = (Returns b, st') ->
       ss_transactions st' = (ss_transactions st ++ [tx])%list /\
       ss_blocks st' = <[ss_current_chain st := (blocks ++ [b])%list]> (ss_blocks st) /\
       blk_transactions b = [asdict tx] /\ blk_index b = tx_block_number tx /\
       blk_previous_hash b = blk_hash previous_block /\
       ss_current_chain st' = ss_current_chain st) /\
    (forall n,
       first_hit (Z.of_nat (length blocks)) (isoformat now_mine) [asdict tx]
         (blk_hash previous_block) 0 n ->
       forall fuel, (Z.to_nat n < fuel)%nat ->
       exists b st',
         explorer_mine_click uuid_id uuid_to amount now_tx now_mine fuel st
           = (Returns b, st') /\
         blk_nonce b = n).
Proof.
  intros Hreach Hin.
  destruct (reachable_chain_present st _ Hreach Hin)
    as (blocks & previous_block & Hchain & Hlast).
  destruct (explorer_runs uuid_id uuid_to amount now_tx now_mine st blocks previous_block
              Hchain Hlast)
    as (tx & Hall & Htype & Hgas & Htagged & Hnumber & Hdata & _).
  exists tx, blocks, previous_block.
  do 7 (split; [assumption|]). split.
  - intros fuel b st' Hrun. rewrite Hall in Hrun. cbv zeta in Hrun.
    destruct (mine_loop _ _ _ _ _ _) as [[nonce hash_value]|]; [|discriminate Hrun].
    injection Hrun as <- <-.
    do 3 (split; [reflexivity|]). split; [symmetry; exact Hnumber|].
    split; reflexivity.
  - intros n Hfirst fuel Hfuel. rewrite Hall. cbv zeta.
    rewrite (mine_loop_complete _ _ _ _ fuel 0 n Hfirst)
      by (rewrite Z.sub_0_r; exact Hfuel).
    eexists _, _. split; reflexivity.
Qed.

Lemma explorer_click_mines_on_current_chain_witness :
  reachable Session.fresh /\ In (ss_current_chain Session.fresh) networks /\
  Session.clicked = (Returns Session.clicked_block, Session.clicked.2) /\
  exists tx,
    ss_transactions Session.clicked.2 = [tx] /\ tx_type tx = "Transfer" /\
    tx_gas_used tx = 21000 /\ blk_transactions Session.clicked_block = [asdict tx].
Proof.
  pose proof (returned_Some _ _ clicked_returns) as Hrun.
  split; [apply fresh_reachable|]. split; [apply besu_in_networks|]. split; [exact Hrun|].
  destruct (explorer_click_mines_on_current_chain "00000000-0000-4000-8000-000000000031"
              "00000000-0000-4000-8000-000000000032" 500
              (Session.at_ 10 10 0 300) (Session.at_ 10 10 1 3804) Session.fresh
              fresh_reachable besu_in_networks)
    as (tx & blocks & previous_block & _ & _ & Htype & Hgas & _ & _ & _ & Heffects & _).
  destruct (Heffects 3%nat _ _ Hrun) as (Htxs & _ & Hheld & _).
  exists tx. split; [exact Htxs|]. split; [exact Htype|]. split; [exact Hgas|exact Hheld].
Defined.

(** X11. "Recent Blocks" of [render_blockchain_explorer], in a
    reachable session whose current chain is a network.  When the
    transactions held by the last five blocks are dicts whose addresses are
    text or lists, the page lists the last min(5, length) blocks of the
    current chain, newest first, without changing the session; the k-th
    block listed is the one k places before the end and its index is the
    chain's length minus 1 minus k.  When one of these blocks holds a
    transaction whose card cannot be drawn, the page raises, the session
    being as it was.  The transactions the program records itself can
    always be drawn. *)
Theorem recent_blocks_are_newest_first hashable_slices st :
  reachable st -> In (ss_current_chain st) networks ->
  exists blocks,
    ss_blocks st !! ss_current_chain st = Some blocks /\
    ((forall block tx,
        In block (last_five blocks) -> In tx (blk_transactions block) ->
        card_shows tx = true) ->
     exists shown,
       explorer_recent_blocks hashable_slices st = (Returns shown, st) /\
       length shown = Nat.min 5 (length blocks) /\
       head shown = last blocks /\
       forall k b, shown !! k = Some b ->
         blocks !! (length blocks - S k)%nat = Some b /\
         blk_index b = Z.of_nat (length blocks) - 1 - Z.of_nat k) /\
    (forall block tx,
       In block (last_five blocks) -> In tx (blk_transactions block) ->
       card_shows tx = false ->
       exists e, explorer_recent_blocks hashable_slices st = (Raises e, st)) /\
    (forall recorded : Transaction, card_shows (asdict recorded) = true).
Proof.
  intros Hreach Hin.
  destruct (reachable_chain_present st _ Hreach Hin) as (blocks & tip & Hchain & Hlast).
  exists blocks.
  assert (Hlength : length (reverse (last_five blocks)) = Nat.min 5 (length blocks)).
  { unfold last_five. rewrite length_reverse, length_drop. lia. }
  assert (Hshown : forall k b, reverse (last_five blocks) !! k = Some b ->
            blocks !! (length blocks - S k)%nat = Some b /\ (k < length blocks)%nat).
  { intros k b Hb. pose proof (lookup_lt_Some _ _ _ Hb) as Hk. rewrite Hlength in Hk.
    unfold last_five in Hb. rewrite reverse_lookup in Hb by (rewrite length_drop; lia).
    rewrite lookup_drop, length_drop in Hb.
    replace (length blocks - 5 + (length blocks - (length blocks - 5) - S k))%nat
      with (length blocks - S k)%nat in Hb by lia.
    split; [exact Hb|lia]. }
  assert (Hpage : explorer_recent_blocks hashable_slices st
                  = for_each (fun block =>
                                for_each (transaction_card hashable_slices)
                                  (blk_transactions block) ;;
                                ret block)
                      (reverse (last_five blocks)) st).
  { unfold explorer_recent_blocks. unfold bind at 1. unfold reads. unfold bind at 1.
    rewrite (network_entry_known _ _ Hin). unfold bind at 1. unfold chain_blocks.
    rewrite Hchain. reflexivity. }
  split; [exact Hchain|]. split; [|split; [|apply recorded_card_shows]].
  - intros Hcards. exists (reverse (last_five blocks)). split.
    + rewrite Hpage. rewrite (for_each_returns _ (fun block => block)).
      * rewrite map_id. reflexivity.
      * intros block Hblock.
        rewrite <- list_elem_of_In, elem_of_reverse, list_elem_of_In in Hblock.
        destruct (block_expander_ends hashable_slices block st) as [[_ ->]|[Hno _]];
          [reflexivity|].
        assert (Hyes : forallb card_shows (blk_transactions block) = true).
        { apply forallb_forall. intros tx Htx. apply (Hcards block tx); assumption. }
        rewrite Hyes in Hno. discriminate Hno.
    + split; [exact Hlength|]. split.
      * unfold last_five. rewrite head_reverse, !last_lookup, lookup_drop, length_drop.
        f_equal. destruct blocks; [discriminate Hlast|]. cbn [length]. lia.
      * intros k b Hb. destruct (Hshown k b Hb) as [Hat Hk]. split; [exact Hat|].
        rewrite (reachable_indices st _ blocks _ b Hreach Hchain Hat). lia.
  - intros block tx Hblock Htx Hbad. rewrite Hpage.
    apply (for_each_raises _ st _ block).
    + intros b _.
      destruct (block_expander_ends hashable_slices b st) as [[_ ->]|[_ (e & ->)]]; eauto.
    + rewrite <- list_elem_of_In, elem_of_reverse, list_elem_of_In. exact Hblock.
    + destruct (block_expander_ends hashable_slices block st) as [[Hyes _]|[_ Hraises]];
        [|exact Hraises].
      rewrite forallb_forall in Hyes. rewrite (Hyes tx Htx) in Hbad. discriminate Hbad.
Qed.

Lemma recent_blocks_are_newest_first_witness :
  reachable Session.after_click /\ In (ss_current_chain Session.after_click) networks /\
  reachable Session.mined_odd /\ In (ss_current_chain Session.mined_odd) networks /\
  (exists shown,
     explorer_recent_blocks true Session.after_click = (Returns shown, Session.after_click) /\
     head shown = Some Session.clicked_block /\ length shown = 2%nat) /\
  (exists e, explorer_recent_blocks true Session.mined_odd = (Raises e, Session.mined_odd)).
Proof.
  assert (Hin : In (ss_current_chain Session.after_click) networks)
    by (rewrite after_click_current_chain; apply besu_in_networks).
  destruct mined_odd_besu as [Hcurrent Hodd].
  assert (Hin' : In (ss_current_chain Session.mined_odd) networks)
    by (rewrite Hcurrent; apply besu_in_networks).
  split; [apply after_click_reachable|]. split; [exact Hin|].
  split; [apply mined_odd_reachable|]. split; [exact Hin'|]. split.
  - destruct (recent_blocks_are_newest_first true Session.after_click after_click_reachable
                Hin) as (blocks & Hchain & Hlisted & _).
    rewrite after_click_current_chain, after_click_besu in Hchain. injection Hchain as <-.
    destruct Hlisted as (shown & Hshown & Hlength & Hhead & _).
    + intros block tx [<-|[<-|[]]] Htx; [destruct Htx|].
      destruct Htx as [<-|[]]. reflexivity.
    + exists shown. split; [exact Hshown|]. split; [exact Hhead|exact Hlength].
  - destruct (recent_blocks_are_newest_first true Session.mined_odd mined_odd_reachable Hin')
      as (blocks & Hchain & _ & Hrefused & _).
    rewrite Hcurrent, Hodd in Hchain. injection Hchain as <-.
    apply (Hrefused Session.odd_block Session.odd_transaction).
    + right. left. reflexivity.
    + left. reflexivity.
    + reflexivity.
Defined.

(** X12. "Deployment Details" of [render_smart_contracts], when the
    "Deploy Contract" click returns on a network of a reachable session:
    the address shown is that of the last registered contract, the hash
    shown is the first 32 characters of the last recorded transaction's id
    followed by "...", the block number shown is the index of the chain's
    new tip, which holds that transaction, a "Contract Deployment" to the
    contract's address, and the gas shown is 2100000. *)
Theorem deployment_details_match name code chain now_address now_deployed uuid_tx now_tx
    now_mine fuel st details st' :
  reachable st -> In chain networks ->
  deploy_click name code chain now_address now_deployed uuid_tx now_tx now_mine fuel st
    = (Returns details, st') ->
  exists contract tx blocks b,
    last (ss_smart_contracts st') = Some contract /\
    last (ss_transactions st') = Some tx /\
    ss_blocks st !! chain = Some blocks /\
    ss_blocks st' !! chain = Some (blocks ++ [b])%list /\
    blk_transactions b = [asdict tx] /\
    tx_type tx = "Contract Deployment" /\ tx_to_address tx = sc_address contract /\
    tx_block_number tx = blk_index b /\
    details = (sc_address contract, substring 0 32 (tx_id tx) ++ "...", blk_index b, 2100000).
Proof.
  intros Hreach Hin Hclick.
  destruct (reachable_chain_present st chain Hreach Hin)
    as (blocks & previous_block & Hchain & Hlast).
  destruct (deploy_runs name code chain now_address now_deployed uuid_tx now_tx now_mine
              st blocks previous_block Hchain Hlast)
    as (contract & tx & Hall & _ & _ & Htype & _ & Hgas & Hnumber & _ & Hto).
  unfold deploy_click, bind in Hclick. rewrite Hall in Hclick. cbv zeta in Hclick.
  destruct (mine_loop _ _ _ _ _ _) as [[nonce hash_value]|]; [|discriminate Hclick].
  unfold deployment_details, last_transaction, bind, reads, chain_blocks, ret, appended
    in Hclick.
  repeat first
    [ rewrite last_snoc in Hclick | rewrite lookup_insert_eq in Hclick
    | progress cbn [with_blocks with_transactions with_smart_contracts ss_blocks
                    ss_transactions ss_smart_contracts] in Hclick ].
  injection Hclick as <- <-.
  eexists contract, tx, blocks, _.
  cbn [appended with_blocks with_transactions with_smart_contracts ss_blocks
       ss_transactions ss_smart_contracts].
  split; [apply last_snoc|]. split; [apply last_snoc|]. split; [exact Hchain|].
  split; [apply lookup_insert_eq|]. split; [reflexivity|]. split; [exact Htype|].
  split; [exact Hto|]. split; [exact Hnumber|].
  rewrite Hgas. cbn [blk_index]. f_equal. f_equal. rewrite length_app. cbn [length]. lia.
Qed.

Lemma deployment_details_match_witness :
  reachable Session.fresh /\ In "fabric" networks /\
  Session.deploy_clicked
    = (Returns ("0x109c947904d085a0fca866c338197dec15de33b6",
                "0x11e594f481958c10e3015d0bf0447a...", 1, 2100000),
       Session.deploy_clicked.2) /\
  exists tx b,
    last (ss_transactions Session.deploy_clicked.2) = Some tx /\
    tx_block_number tx = blk_index b /\ blk_index b = 1 /\
    blk_transactions b = [asdict tx].
Proof.
  pose proof (returned_Some _ _ deploy_clicked_returns) as Hrun.
  split; [apply fresh_reachable|]. split; [apply fabric_in_networks|]. split; [exact Hrun|].
  destruct (deployment_details_match "Token" "contract Token {}" "fabric"
              (Session.at_ 10 6 0 100) (Session.at_ 10 6 0 200)
              "00000000-0000-4000-8000-000000000001" (Session.at_ 10 6 0 300)
              (Session.at_ 10 6 1 1634) 3 Session.fresh _ _
              fresh_reachable fabric_in_networks Hrun)
    as (contract & tx & blocks & b & _ & Hlast & _ & _ & Hheld & _ & _ & Hnumber & Hdetails).
  exists tx, b. split; [exact Hlast|]. split; [exact Hnumber|]. split; [|exact Hheld].
  injection Hdetails as _ _ Hindex. symmetry. exact Hindex.
Defined.

(** X13. The record [upload_file_to_blockchain] returns carries the
    file's name, its size in bytes and the SHA-256 digest of its bytes; its
    [ipfs_hash] is "Qm" followed by 44 digest characters (46 characters),
    its [tx_hash] has 66 characters and is the id of the last recorded
    transaction, a "File Upload" with gas 50000; its owner is the wallet
    address; and for a file of at most 1024 bytes the preview hash of
    [render_file_upload] is the recorded hash. *)
Theorem upload_record_fields file chain uuid_ipfs uuid_file uuid_tx now_record now_tx
    now_mine fuel st record st' :
  upload_file_to_blockchain file chain uuid_ipfs uuid_file uuid_tx now_record now_tx
    now_mine fuel st = (Returns record, st') ->
  fr_name record = uf_name file /\
  fr_size record = Z.of_nat (length (uf_bytes file)) /\
  fr_hash record = Sha256.hexdigest (uf_bytes file) /\
  fr_ipfs_hash record = "Qm" ++ substring 0 44 (calculate_hash uuid_ipfs) /\
  String.length (fr_ipfs_hash record) = 46%nat /\
  String.length (fr_tx_hash record) = 66%nat /\
  fr_owner record = w_address (ss_wallet st) /\
  (exists tx,
     last (ss_transactions st') = Some tx /\ tx_id tx = fr_tx_hash record /\
     tx_type tx = "File Upload" /\ tx_gas_used tx = 50000) /\
  ((length (uf_bytes file) <= 1024)%nat -> preview_hash file = fr_hash record).
Proof.
  intros Hrun.
  destruct (upload_returns _ _ _ _ _ _ _ _ _ _ _ _ Hrun) as (blocks & tip & Hchain & Hlast).
  revert Hrun. unfold upload_file_to_blockchain, mine_block. run_to_mining Hchain Hlast.
  destruct (mine_loop _ _ _ _ _ _) as [[nonce hash_value]|]; intros Hrun;
    [|discriminate Hrun].
  injection Hrun as <- <-.
  do 3 (split; [reflexivity|]). split; [reflexivity|].
  split.
  { change (String.length ("Qm" ++ substring 0 44 (calculate_hash uuid_ipfs)) = 46%nat).
    rewrite length_append, length_substring_0 by (rewrite length_calculate_hash; lia).
    reflexivity. }
  split.
  { change (String.length ("0x" ++ substring 0 64 (calculate_hash uuid_tx)) = 66%nat).
    rewrite length_append, length_substring_0 by (rewrite length_calculate_hash; lia).
    reflexivity. }
  split; [reflexivity|]. split.
  - eexists. split; [apply last_snoc|].
    split; [reflexivity|]. split; reflexivity.
  - intros Hle. unfold preview_hash. rewrite firstn_all2 by exact Hle. reflexivity.
Qed.

Lemma upload_record_fields_witness :
  Session.uploaded_once = (Returns Session.first_record, Session.uploaded_once.2) /\
  (length (uf_bytes Session.hello) <= 1024)%nat /\
  String.length (fr_ipfs_hash Session.first_record) = 46%nat /\
  String.length (fr_tx_hash Session.first_record) = 66%nat /\
  preview_hash Session.hello = fr_hash Session.first_record.
Proof.
  pose proof (returned_Some _ _ uploaded_once_returns) as Hrun.
  assert (Hsmall : (length (uf_bytes Session.hello) <= 1024)%nat)
    by (apply Nat.leb_le; vm_compute; reflexivity).
  split; [exact Hrun|]. split; [exact Hsmall|].
  destruct (upload_record_fields Session.hello "besu"
              "00000000-0000-4000-8000-000000000011" "00000000-0000-4000-8000-000000000012"
              "00000000-0000-4000-8000-000000000013"
              (Session.at_ 10 8 0 200) (Session.at_ 10 8 0 300) (Session.at_ 10 8 1 12853) 1
              Session.fresh _ _ Hrun)
    as (_ & _ & _ & _ & Hipfs & Htx & _ & _ & Hpreview).
  split; [exact Hipfs|]. split; [exact Htx|]. apply Hpreview, Hsmall.
Defined.

(** X14. The contract [deploy_smart_contract] returns carries the
    given name and network, the fixed two-entry ABI, 0 transactions and the
    deployment time; its address is "0x" followed by the first 40 digest
    characters of the name and the time (42 characters), and its bytecode
    is "0x", the digest of the code, the digest's first 34 characters and
    "...": 103 characters, whatever the code. *)
Theorem deployed_contract_fields name code chain now_address now_deployed uuid_tx now_tx
    now_mine fuel st contract st' :
  deploy_smart_contract name code chain now_address now_deployed uuid_tx now_tx now_mine
    fuel st = (Returns contract, st') ->
  sc_name contract = name /\ sc_blockchain contract = chain /\
  sc_abi contract = mock_abi /\ sc_transactions contract = 0 /\
  sc_deployed_at contract = isoformat now_deployed /\
  sc_address contract
    = "0x" ++ substring 0 40 (calculate_hash (name ++ str_datetime now_address)) /\
  String.length (sc_address contract) = 42%nat /\
  sc_bytecode contract
    = ("0x" ++ calculate_hash code ++ substring 0 34 (calculate_hash code)) ++ "..." /\
  String.length (sc_bytecode contract) = 103%nat.
Proof.
  intros Hrun.
  destruct (deploy_returns _ _ _ _ _ _ _ _ _ _ _ _ Hrun) as (blocks & tip & Hchain & Hlast).
  revert Hrun. unfold deploy_smart_contract, mine_block. run_to_mining Hchain Hlast.
  destruct (mine_loop _ _ _ _ _ _) as [[nonce hash_value]|]; intros Hrun;
    [|discriminate Hrun].
  injection Hrun as <- _.
  do 5 (split; [reflexivity|]). split; [reflexivity|]. split.
  { change (String.length
              ("0x" ++ substring 0 40 (calculate_hash (name ++ str_datetime now_address)))
            = 42%nat).
    rewrite length_append, length_substring_0 by (rewrite length_calculate_hash; lia).
    reflexivity. }
  change (sc_bytecode _)
    with (substring 0 100 ("0x" ++ str_repeat 10 (calculate_hash code)) ++ "...").
  rewrite (bytecode_shape _ (length_calculate_hash code)).
  split; [reflexivity|].
  rewrite !length_append, length_substring_0, length_calculate_hash
    by (rewrite length_calculate_hash; lia).
  reflexivity.
Qed.

Lemma deployed_contract_fields_witness :
  Session.deployed_on_fabric
    = (Returns Session.fabric_contract, Session.deployed_on_fabric.2) /\
  String.length (sc_address Session.fabric_contract) = 42%nat /\
  String.length (sc_bytecode Session.fabric_contract) = 103%nat.
Proof.
  pose proof (returned_Some _ _ deployed_on_fabric_returns) as Hrun.
  split; [exact Hrun|].
  destruct (deployed_contract_fields "Token" "contract Token {}" "fabric"
              (Session.at_ 10 6 0 100) (Session.at_ 10 6 0 200)
              "00000000-0000-4000-8000-000000000001" (Session.at_ 10 6 0 300)
              (Session.at_ 10 6 1 1634) 3 Session.fresh _ _ Hrun)
    as (_ & _ & _ & _ & _ & _ & Haddress & _ & Hbytecode).
  split; [exact Haddress|exact Hbytecode].
Defined.

(** X15. In a reachable session whose current chain is a network, the
    head of [render_blockchain_explorer] shows metrics without changing the
    session, and "Transactions" is at least 0 and less than "Total
    Blocks": a chain has its genesis block besides one block per
    transaction recorded on it. *)
Theorem explorer_metrics_bound st :
  reachable st -> In (ss_current_chain st) networks ->
  exists total_blocks transactions,
    explorer_metrics st = (Returns (total_blocks, transactions), st) /\
    0 <= transactions < total_blocks.
Proof.
  intros Hreach Hin.
  destruct (reachable_chain_present st _ Hreach Hin) as (blocks & tip & Hchain & Hlast).
  pose proof (volume_below_blocks st Hreach _ blocks Hchain) as Hbelow.
  eexists _, _. split.
  - unfold explorer_metrics, bind, reads.
    rewrite (network_entry_known _ _ Hin). unfold chain_blocks. rewrite Hchain. reflexivity.
  - lia.
Qed.

Lemma explorer_metrics_bound_witness :
  reachable Session.after_click /\ In (ss_current_chain Session.after_click) networks /\
  explorer_metrics Session.after_click
    = (Returns (2, 1), (explorer_metrics Session.after_click).2) /\
  exists total_blocks transactions,
    explorer_metrics Session.after_click
      = (Returns (total_blocks, transactions), Session.after_click) /\
    0 <= transactions < total_blocks.
Proof.
  assert (Hin : In (ss_current_chain Session.after_click) networks)
    by (rewrite after_click_current_chain; apply besu_in_networks).
  split; [apply after_click_reachable|]. split; [exact Hin|].
  split; [exact (returned_Some _ _ after_click_metrics)|].
  exact (explorer_metrics_bound Session.after_click after_click_reachable Hin).
Defined.

(** X16. "Active Bridge Transfers" of [render_bridge], in a reachable
    session and with draws of [random.randint(1, 3)].  When the last
    three transfers name networks on both sides, the page shows min(3,
    number of transfers) rows without changing the session, and every row
    shows between 1 and 3 confirmations beside the label "Processing".
    When one of them names a chain that is not a network, the page raises
    [KeyError] on such a chain, the session being as it was. *)
Theorem bridge_page_rows st draws :
  reachable st -> (3 <= length draws)%nat -> Forall (fun r => 1 <= r <= 3) draws ->
  (Forall (fun transfer =>
             In (bt_from_chain transfer) networks /\ In (bt_to_chain transfer) networks)
          (last_three (ss_bridge_transfers st)) ->
   exists rows,
     render_bridge_rows draws st = (Returns rows, st) /\
     length rows = Nat.min 3 (length (ss_bridge_transfers st)) /\
     Forall (fun row : Z * string => 1 <= row.1 <= 3 /\ row.2 = "Processing") rows) /\
  (forall transfer,
     In transfer (last_three (ss_bridge_transfers st)) ->
     ~ (In (bt_from_chain transfer) networks /\ In (bt_to_chain transfer) networks) ->
     exists key,
       render_bridge_rows draws st = (Raises (KeyError key), st) /\ ~ In key networks).
Proof.
  intros Hreach Hlong Hdraws.
  assert (Hfits : (length (last_three (ss_bridge_transfers st)) <= length draws)%nat)
    by (rewrite length_last_three; lia).
  split.
  - intros Hnamed. eexists. split.
    + unfold render_bridge_rows, bind, reads.
      apply bridge_rows_shown; [exact Hfits|exact Hnamed].
    + split.
      * rewrite length_map, length_combine, length_last_three. lia.
      * apply rows_are_processing; [|exact Hdraws].
        unfold last_three. apply Forall_drop, reachable_transfers, Hreach.
  - intros transfer Hin Hbad. unfold render_bridge_rows, bind, reads.
    apply (bridge_rows_refused _ draws st transfer Hfits Hin Hbad).
Qed.

Lemma bridge_page_rows_witness :
  reachable Session.bridged /\ reachable Session.refused /\
  (3 <= length [3; 1; 2])%nat /\ Forall (fun r => 1 <= r <= 3) [3; 1; 2] /\
  (exists rows,
     render_bridge_rows [3; 1; 2] Session.bridged = (Returns rows, Session.bridged) /\
     length rows = 1%nat) /\
  (exists key,
     render_bridge_rows [3; 1; 2] Session.refused = (Raises (KeyError key), Session.refused) /\
     ~ In key networks).
Proof.
  assert (Hlong : (3 <= length [3; 1; 2])%nat) by (cbn [length]; lia).
  assert (Hdraws : Forall (fun r => 1 <= r <= 3) [3; 1; 2])
    by (repeat constructor; lia).
  split; [apply bridged_reachable|]. split; [apply refused_reachable|].
  split; [exact Hlong|]. split; [exact Hdraws|]. split.
  - destruct (bridge_page_rows Session.bridged [3; 1; 2] bridged_reachable Hlong Hdraws)
      as [Hshown _].
    destruct Hshown as (rows & Hrows & Hlength & _).
    + rewrite bridged_transfers. repeat constructor; cbn; tauto.
    + exists rows. split; [exact Hrows|]. rewrite Hlength, bridged_transfers. reflexivity.
  - destruct (bridge_page_rows Session.refused [3; 1; 2] refused_reachable Hlong Hdraws)
      as [_ Hrefused].
    apply (Hrefused Session.refused_transfer).
    + rewrite refused_transfers. left. reflexivity.
    + intros [Hfrom _]. apply ethereum_unknown, Hfrom.
Defined.

(** X17. [calculate_hash] returns 64 characters of [0-9a-f], so every
    prefix [[:n]] of a digest with n <= 64, as cut for addresses and
    transaction ids, has n characters of [0-9a-f]. *)
Theorem digests_are_lowercase_hex data :
  String.length (calculate_hash data) = 64%nat /\
  all_hex (calculate_hash data) = true /\
  forall n, (n <= 64)%nat ->
    String.length (substring 0 n (calculate_hash data)) = n /\
    all_hex (substring 0 n (calculate_hash data)) = true.
Proof.
  split; [apply length_calculate_hash|]. split; [apply all_hex_calculate_hash|].
  intros n Hn. split.
  - apply length_substring_0. rewrite length_calculate_hash. exact Hn.
  - apply all_hex_substring_0, all_hex_calculate_hash.
Qed.

Lemma digests_are_lowercase_hex_witness :
  (40 <= 64)%nat /\
  String.length (substring 0 40 (calculate_hash "kazstream")) = 40%nat /\
  all_hex (substring 0 40 (calculate_hash "kazstream")) = true.
Proof.
  assert (Hle : (40 <= 64)%nat) by lia.
  split; [exact Hle|].
  destruct (digests_are_lowercase_hex "kazstream") as (_ & _ & Hcut).
  exact (Hcut 40%nat Hle).
Defined.

(** X18. In a reachable session the wallet address is "0x" followed by
    40 characters of [0-9a-f], and the wallet label of [render_header] is
    "0x", the first 8 of them and "...". *)
Theorem wallet_address_format st :
  reachable st ->
  exists digits,
    w_address (ss_wallet st) = "0x" ++ digits /\
    String.length digits = 40%nat /\ all_hex digits = true /\
    header_wallet_label st = (Returns ("0x" ++ substring 0 8 digits ++ "..."), st).
Proof.
  intros Hreach. destruct (reachable_wallet st Hreach) as (wallet_uuid & Hwallet).
  exists (substring 0 40 (calculate_hash wallet_uuid)).
  split; [rewrite Hwallet; reflexivity|].
  split; [apply length_substring_0; rewrite length_calculate_hash; lia|].
  split; [apply all_hex_substring_0, all_hex_calculate_hash|].
  unfold header_wallet_label, bind, reads, ret. rewrite Hwallet.
  change (w_address (generate_wallet wallet_uuid))
    with (String "0" (String "x" (substring 0 40 (calculate_hash wallet_uuid)))).
  change (substring 0 10 (String "0" (String "x" (substring 0 40 (calculate_hash wallet_uuid)))))
    with (String "0" (String "x" (substring 0 8 (substring 0 40 (calculate_hash wallet_uuid))))).
  reflexivity.
Qed.

Lemma wallet_address_format_witness :
  reachable Session.fresh /\
  exists digits,
    w_address (ss_wallet Session.fresh) = "0x" ++ digits /\
    String.length digits = 40%nat /\ all_hex digits = true.
Proof.
  split; [apply fresh_reachable|].
  destruct (wallet_address_format Session.fresh fresh_reachable)
    as (digits & Haddress & Hlength & Hhex & _).
  exists digits. split; [exact Haddress|]. split; [exact Hlength|exact Hhex].
Defined.

(** X19. In a reachable session the 'Blocks' column of "Network
    Comparison" in [render_analytics] has one count per network, each at
    least 1, read without a [KeyError]; the counts add up to the "Total
    Blocks" of [render_sidebar], which exceeds "Total Transactions" by at
    least 3: one genesis block per network besides one block per recorded
    transaction. *)
Theorem block_counts_agree st :
  reachable st ->
  exists counts total_blocks total_transactions,
    comparison_blocks st = (Returns counts, st) /\
    sidebar_total_blocks st = (Returns total_blocks, st) /\
    sidebar_total_transactions st = (Returns total_transactions, st) /\
    length counts = length networks /\
    Forall (fun count => 1 <= count) counts /\
    fold_right Z.add 0 counts = total_blocks /\
    total_transactions + 3 <= total_blocks.
Proof.
  intros Hreach.
  destruct (reachable_chains st Hreach) as (besu & fabric & corda & Hchains).
  assert (Hbesu : ss_blocks st !! "besu" = Some besu)
    by (rewrite Hchains; apply lookup_insert_eq).
  assert (Hfabric : ss_blocks st !! "fabric" = Some fabric)
    by (rewrite Hchains, lookup_insert_ne by discriminate; apply lookup_insert_eq).
  assert (Hcorda : ss_blocks st !! "corda" = Some corda)
    by (rewrite Hchains, !lookup_insert_ne by discriminate; apply lookup_insert_eq).
  pose proof (volume_below_blocks st Hreach "besu" besu Hbesu) as Vbesu.
  pose proof (volume_below_blocks st Hreach "fabric" fabric Hfabric) as Vfabric.
  pose proof (volume_below_blocks st Hreach "corda" corda Hcorda) as Vcorda.
  assert (Hsum : fold_right Z.add 0
            (map (fun chain => Z.of_nat (length (chain_transactions chain (ss_transactions st))))
               networks) = Z.of_nat (length (ss_transactions st))).
  { apply volumes_partition. intros tx Hin.
    destruct (ledger_invariant st Hreach tx Hin) as ((blocks & b & Hchain & _) & _).
    eapply reachable_known_chain; eassumption. }
  unfold networks in Hsum. cbn [map fold_right] in Hsum.
  exists [Z.of_nat (length besu); Z.of_nat (length fabric); Z.of_nat (length corda)].
  eexists _, _.
  split.
  { unfold comparison_blocks, networks. cbn [for_each]. unfold bind, chain_blocks, ret.
    rewrite Hbesu, Hfabric, Hcorda. reflexivity. }
  split.
  { unfold sidebar_total_blocks, bind, reads, ret. rewrite Hchains at 1. reflexivity. }
  split; [reflexivity|]. split; [reflexivity|].
  split; [repeat constructor; lia|].
  rewrite total_blocks_of. cbn [fold_right]. split; [reflexivity|]. lia.
Qed.

Lemma block_counts_agree_witness :
  reachable Session.after_click /\
  exists counts total_blocks total_transactions,
    comparison_blocks Session.after_click = (Returns counts, Session.after_click) /\
    sidebar_total_blocks Session.after_click = (Returns total_blocks, Session.after_click) /\
    fold_right Z.add 0 counts = total_blocks /\
    total_transactions + 3 <= total_blocks.
Proof.
  split; [apply after_click_reachable|].
  destruct (block_counts_agree Session.after_click after_click_reachable)
    as (counts & total_blocks & total_transactions & Hcounts & Hblocks & _ & _ & _ & Hsum
        & Hbound).
  exists counts, total_blocks, total_transactions.
  split; [exact Hcounts|]. split; [exact Hblocks|]. split; [exact Hsum|exact Hbound].
Defined.
